(** * rookpkg: dependency reconciliation scripts

    A shallow embedding of the dependency checker [scripts/check_deps.py]
    (name normaliser, Arch-to-Rookery mapper, diff engine, report printer)
    and of the dependency fixer [scripts/fix_deps.py] (report parser,
    section patcher, cross-section filter), followed by the properties
    proved about them.

    Conventions.
    - A Python [str] is a [string] whose characters are the code points
      U+0000..U+00FF; whitespace is what [str.isspace] says on that range.
    - A [dict] or [set] literal of the program is the list of its entries in
      source order; a later binding of a key overrides an earlier one.
    - The [dict]s of a parsed .rook file are [gmap string string]; Python
      [set]s built at run time are [gset string], iterated by [elements]
      (Python fixes no iteration order either).
    - [print] appends its argument and a newline to the text on stdout. *)

From Stdlib Require Import Ascii String.
From stdpp Require Import base strings list sorting gmap.

(** ** Python string primitives *)

Module PyStr.

Definition newline : ascii := "010"%char.
Definition carriage_return : ascii := "013"%char.
Definition dquote : ascii := "034"%char.

(** [str.isspace] on one character, for code points below 256. *)
Definition is_space (c : ascii) : bool :=
  match c with
  | "009" | "010" | "011" | "012" | "013"
  | "028" | "029" | "030" | "031" | " "
  | "133" | "160" => true
  | _ => false
  end%char.

(** [s.lstrip()] *)
Fixpoint lstrip (s : string) : string :=
  match s with
  | "" => ""
  | String c r => if is_space c then lstrip r else s
  end.

(** [s.rstrip()] *)
Fixpoint rstrip (s : string) : string :=
  match s with
  | "" => ""
  | String c r =>
      match rstrip r with
      | "" => if is_space c then "" else String c ""
      | r' => String c r'
      end
  end.

(** [s.strip()] *)
Definition strip (s : string) : string := rstrip (lstrip s).

(** [s.strip(ch)] for a single character [ch]. *)
Fixpoint lstrip_char (ch : ascii) (s : string) : string :=
  match s with
  | "" => ""
  | String c r => if Ascii.eqb c ch then lstrip_char ch r else s
  end.

Fixpoint rstrip_char (ch : ascii) (s : string) : string :=
  match s with
  | "" => ""
  | String c r =>
      match rstrip_char ch r with
      | "" => if Ascii.eqb c ch then "" else String c ""
      | r' => String c r'
      end
  end.

Definition strip_char (ch : ascii) (s : string) : string :=
  rstrip_char ch (lstrip_char ch s).

(** [s.startswith(pre)] *)
Fixpoint startswith (s pre : string) {struct pre} : bool :=
  match pre, s with
  | "", _ => true
  | String _ _, "" => false
  | String a pre', String c s' => Ascii.eqb c a && startswith s' pre'
  end.

(** [s.endswith(suf)] *)
Fixpoint endswith (s suf : string) : bool :=
  String.eqb s suf ||
  match s with
  | "" => false
  | String _ r => endswith r suf
  end.

(** [sub in s] *)
Fixpoint contains (s sub : string) : bool :=
  startswith s sub ||
  match s with
  | "" => false
  | String _ r => contains r sub
  end.

(** [ch in s] for a character. *)
Fixpoint has_char (ch : ascii) (s : string) : bool :=
  match s with
  | "" => false
  | String c r => Ascii.eqb c ch || has_char ch r
  end.

(** [s[n:]] for [n >= 0]. *)
Fixpoint slice_from (n : nat) (s : string) : string :=
  match n, s with
  | 0, _ => s
  | S _, "" => ""
  | S n', String _ r => slice_from n' r
  end.

(** [s[:n]] for [n >= 0]. *)
Fixpoint slice_to (n : nat) (s : string) : string :=
  match n, s with
  | 0, _ => ""
  | S _, "" => ""
  | S n', String c r => String c (slice_to n' r)
  end.

(** [s[:-n]] for [n > 0]: all but the last [n] characters (empty when the
    string is shorter). *)
Definition drop_last (n : nat) (s : string) : string :=
  slice_to (String.length s - n) s.

(** The first field of a split at the characters satisfying [sep]:
    [re.split(r'[...]', s)[0]] and [s.split(ch)[0]]. *)
Fixpoint before_first (sep : ascii -> bool) (s : string) : string :=
  match s with
  | "" => ""
  | String c r => if sep c then "" else String c (before_first sep r)
  end.

(** [s.split('\n')]: never empty. *)
Fixpoint split_nl (s : string) : list string :=
  match s with
  | "" => [""]
  | String c r =>
      if Ascii.eqb c newline then "" :: split_nl r
      else match split_nl r with
           | [] => [String c ""]
           | l :: ls => String c l :: ls
           end
  end.

(** ['\n'.join(ls)] *)
Fixpoint join_nl (ls : list string) : string :=
  match ls with
  | [] => ""
  | [l] => l
  | l :: (_ :: _) as rest => l +:+ String newline (join_nl rest)
  end.

(** [ch * n] *)
Fixpoint repeat_char (ch : ascii) (n : nat) : string :=
  match n with
  | 0 => ""
  | S n' => String ch (repeat_char ch n')
  end.

(** [sorted(ls)] on strings: ascending code-point lexicographic order. *)
Definition sorted (ls : list string) : list string := merge_sort String.le ls.

(** The lines a text-mode file object yields when iterated (universal
    newlines: each of "\n", "\r\n" and "\r" ends a line and is delivered as
    "\n"; a last line without terminator is delivered as it is). *)
Fixpoint readlines (s : string) : list string :=
  match s with
  | "" => []
  | String c r =>
      if Ascii.eqb c newline then String newline "" :: readlines r
      else if Ascii.eqb c carriage_return then
        String newline "" ::
        match r with
        | String c' r' => if Ascii.eqb c' newline then readlines r' else readlines r
        | "" => []
        end
      else match readlines r with
           | [] => [String c ""]
           | l :: ls => String c l :: ls
           end
  end.

(** [str(n)] for a natural number: its decimal digits. *)
Definition digit (n : nat) : ascii := ascii_of_nat (48 + n).

Fixpoint str_of_nat_go (fuel n : nat) (acc : string) : string :=
  match fuel with
  | 0 => acc
  | S fuel' =>
      let acc' := String (digit (n mod 10)) acc in
      if n / 10 =? 0 then acc' else str_of_nat_go fuel' (n / 10) acc'
  end.

Definition str_of_nat (n : nat) : string := str_of_nat_go (S n) n "".

(** A dict literal: [k in d] and [d[k]] / [d.get(k)]; the last binding of a
    key is the one the dict holds. *)
Fixpoint dict_get {V : Type} (d : list (string * V)) (k : string) : option V :=
  match d with
  | [] => None
  | (k', v) :: rest =>
      match dict_get rest k with
      | Some v' => Some v'
      | None => if String.eqb k' k then Some v else None
      end
  end.

Definition dict_has {V : Type} (d : list (string * V)) (k : string) : bool :=
  match dict_get d k with Some _ => true | None => false end.

(** [k in s] for a set literal. *)
Fixpoint set_has (s : list string) (k : string) : bool :=
  match s with
  | [] => false
  | k' :: rest => String.eqb k' k || set_has rest k
  end.

End PyStr.

(** ** scripts/check_deps.py *)

Module CheckDeps.
Import PyStr.

(** [ArchPackageInfo] *)
Record ArchPackageInfo := {
  arch_name : string;
  arch_version : string;
  arch_depends : list string;
  arch_makedepends : list string;
  arch_optdepends : list string;
  arch_provides : list string
}.

(** [RookPackageInfo]; only the keys of the three dicts are ever read. *)
Record RookPackageInfo := {
  rook_name : string;
  rook_version : string;
  rook_depends : gmap string string;
  rook_build_depends : gmap string string;
  rook_optional_depends : gmap string string
}.

(** [ARCH_TO_ROOKERY]: the dict literal, entries in source order ([None] is the explicit ignore value). *)
Definition ARCH_TO_ROOKERY : list (string * option string) := [
  ("qt6-base", Some "qt6");
  ("qt6-declarative", Some "qt6");
  ("qt6-wayland", Some "qt6");
  ("qt6-svg", Some "qt6");
  ("qt6-tools", Some "qt6");
  ("qt6-multimedia", Some "qt6");
  ("qt6-networkauth", Some "qt6");
  ("qt6-websockets", Some "qt6");
  ("qt6-webengine", Some "qtwebengine");
  ("qt6-webchannel", Some "qt6");
  ("qt6-positioning", Some "qt6");
  ("qt6-sensors", Some "qt6");
  ("qt6-serialport", Some "qt6");
  ("qt6-connectivity", Some "qt6");
  ("qt6-imageformats", Some "qt6");
  ("qt6-5compat", Some "qt6");
  ("qt6-shadertools", Some "qt6");
  ("qt6-quick3d", Some "qt6");
  ("qt6-speech", Some "qt6");
  ("frameworkintegration5", None);
  ("kconfigwidgets5", None);
  ("kiconthemes5", None);
  ("kirigami2", None);
  ("kwindowsystem5", None);
  ("breeze5", None);
  ("karchive", Some "kf6-karchive");
  ("kauth", Some "kf6-kauth");
  ("kbookmarks", Some "kf6-kbookmarks");
  ("kcalendarcore", Some "kf6-kcalendarcore");
  ("kcmutils", Some "kf6-kcmutils");
  ("kcodecs", Some "kf6-kcodecs");
  ("kcolorscheme", Some "kf6-kcolorscheme");
  ("kcompletion", Some "kf6-kcompletion");
  ("kconfig", Some "kf6-kconfig");
  ("kconfigwidgets", Some "kf6-kconfigwidgets");
  ("kcontacts", Some "kf6-kcontacts");
  ("kcoreaddons", Some "kf6-kcoreaddons");
  ("kcrash", Some "kf6-kcrash");
  ("kdav", Some "kf6-kdav");
  ("kdbusaddons", Some "kf6-kdbusaddons");
  ("kdeclarative", Some "kf6-kdeclarative");
  ("kded", Some "kf6-kded");
  ("kdesu", Some "kf6-kdesu");
  ("kdnssd", Some "kf6-kdnssd");
  ("kdoctools", None);
  ("kfilemetadata", Some "kf6-kfilemetadata");
  ("kglobalaccel", Some "kf6-kglobalaccel");
  ("kguiaddons", Some "kf6-kguiaddons");
  ("kholidays", Some "kf6-kholidays");
  ("ki18n", Some "kf6-ki18n");
  ("kiconthemes", Some "kf6-kiconthemes");
  ("kidletime", Some "kf6-kidletime");
  ("kimageformats", Some "kf6-kimageformats");
  ("kio", Some "kf6-kio");
  ("kirigami", Some "kf6-kirigami");
  ("kitemmodels", Some "kf6-kitemmodels");
  ("kitemviews", Some "kf6-kitemviews");
  ("kjobwidgets", Some "kf6-kjobwidgets");
  ("knewstuff", Some "kf6-knewstuff");
  ("knotifications", Some "kf6-knotifications");
  ("knotifyconfig", Some "kf6-knotifyconfig");
  ("kpackage", Some "kf6-kpackage");
  ("kparts", Some "kf6-kparts");
  ("kpeople", Some "kf6-kpeople");
  ("kplotting", Some "kf6-kplotting");
  ("kpty", Some "kf6-kpty");
  ("kquickcharts", Some "kf6-kquickcharts");
  ("krunner", Some "kf6-krunner");
  ("kservice", Some "kf6-kservice");
  ("kstatusnotifieritem", Some "kf6-kstatusnotifieritem");
  ("ksvg", Some "kf6-ksvg");
  ("ktexteditor", Some "kf6-ktexteditor");
  ("ktexttemplate", Some "kf6-ktexttemplate");
  ("ktextwidgets", Some "kf6-ktextwidgets");
  ("kunitconversion", Some "kf6-kunitconversion");
  ("kuserfeedback", Some "kf6-kuserfeedback");
  ("kwallet", Some "kf6-kwallet");
  ("kwidgetsaddons", Some "kf6-kwidgetsaddons");
  ("kwindowsystem", Some "kf6-kwindowsystem");
  ("kxmlgui", Some "kf6-kxmlgui");
  ("solid", Some "kf6-solid");
  ("sonnet", Some "kf6-sonnet");
  ("syndication", Some "kf6-syndication");
  ("syntax-highlighting", Some "kf6-syntax-highlighting");
  ("threadweaver", Some "kf6-threadweaver");
  ("attica", Some "kf6-attica");
  ("baloo", Some "kf6-baloo");
  ("bluez-qt", Some "kf6-bluez-qt");
  ("frameworkintegration", Some "kf6-frameworkintegration");
  ("modemmanager-qt", Some "kf6-modemmanager-qt");
  ("networkmanager-qt", Some "kf6-networkmanager-qt");
  ("prison", Some "kf6-prison");
  ("purpose", Some "kf6-purpose");
  ("qqc2-desktop-style", Some "kf6-qqc2-desktop-style");
  ("kf6-karchive", Some "kf6-karchive");
  ("kf6-kauth", Some "kf6-kauth");
  ("kf6-kdoctools", None);
  ("kf6-kcmutils", Some "kf6-kcmutils");
  ("kf6-kconfig", Some "kf6-kconfig");
  ("kf6-kcoreaddons", Some "kf6-kcoreaddons");
  ("kf6-kcrash", Some "kf6-kcrash");
  ("kf6-kdbusaddons", Some "kf6-kdbusaddons");
  ("kf6-kdeclarative", Some "kf6-kdeclarative");
  ("kf6-kglobalaccel", Some "kf6-kglobalaccel");
  ("kf6-kguiaddons", Some "kf6-kguiaddons");
  ("kf6-ki18n", Some "kf6-ki18n");
  ("kf6-kiconthemes", Some "kf6-kiconthemes");
  ("kf6-kidletime", Some "kf6-kidletime");
  ("kf6-kio", Some "kf6-kio");
  ("kf6-kirigami", Some "kf6-kirigami");
  ("kf6-kitemmodels", Some "kf6-kitemmodels");
  ("kf6-kjobwidgets", Some "kf6-kjobwidgets");
  ("kf6-knewstuff", Some "kf6-knewstuff");
  ("kf6-knotifications", Some "kf6-knotifications");
  ("kf6-kpackage", Some "kf6-kpackage");
  ("kf6-kparts", Some "kf6-kparts");
  ("kf6-krunner", Some "kf6-krunner");
  ("kf6-kservice", Some "kf6-kservice");
  ("kf6-ksvg", Some "kf6-ksvg");
  ("kf6-kwidgetsaddons", Some "kf6-kwidgetsaddons");
  ("kf6-kwindowsystem", Some "kf6-kwindowsystem");
  ("kf6-kxmlgui", Some "kf6-kxmlgui");
  ("kf6-solid", Some "kf6-solid");
  ("kf6-frameworkintegration", Some "kf6-frameworkintegration");
  ("kf6-kcolorscheme", Some "kf6-kcolorscheme");
  ("kf6-kquickcharts", Some "kf6-kquickcharts");
  ("glibc", Some "glibc");
  ("gcc-libs", Some "gcc");
  ("gcc", Some "gcc");
  ("glib2", Some "glib2");
  ("gtk3", Some "gtk3");
  ("gtk4", Some "gtk4");
  ("systemd", Some "systemd");
  ("systemd-libs", Some "systemd");
  ("util-linux-libs", Some "util-linux");
  ("linux-api-headers", Some "linux");
  ("libx11", Some "libx11");
  ("libxcb", Some "libxcb");
  ("libxext", Some "libxext");
  ("libxrender", Some "libxrender");
  ("libxi", Some "libxi");
  ("libxtst", Some "libxtst");
  ("libxkbcommon", Some "libxkbcommon");
  ("libxkbcommon-x11", Some "libxkbcommon");
  ("libxkbfile", Some "libxkbfile");
  ("libxcursor", Some "libxcursor");
  ("libxfixes", Some "libxfixes");
  ("libxdamage", Some "libxdamage");
  ("libxrandr", Some "libxrandr");
  ("libxinerama", Some "libxinerama");
  ("libxxf86vm", Some "libxxf86vm");
  ("libxshmfence", Some "libxshmfence");
  ("libxcomposite", Some "libxcomposite");
  ("wayland", Some "wayland");
  ("wayland-protocols", Some "wayland-protocols");
  ("mesa", Some "mesa");
  ("libdrm", Some "libdrm");
  ("libglvnd", Some "libglvnd");
  ("vulkan-icd-loader", Some "vulkan-loader");
  ("vulkan-headers", Some "vulkan-headers");
  ("libepoxy", Some "libepoxy");
  ("libva", Some "libva");
  ("libvdpau", Some "libvdpau");
  ("zlib", Some "zlib");
  ("xz", Some "xz");
  ("bzip2", Some "bzip2");
  ("zstd", Some "zstd");
  ("lz4", Some "lz4");
  ("brotli", Some "brotli");
  ("lzo", Some "lzo");
  ("snappy", Some "snappy");
  ("curl", Some "curl");
  ("openssl", Some "openssl");
  ("gnutls", Some "gnutls");
  ("libssh", Some "libssh");
  ("libssh2", Some "libssh2");
  ("nghttp2", Some "nghttp2");
  ("libnghttp2", Some "nghttp2");
  ("libnghttp3", Some "nghttp3");
  ("libidn2", Some "libidn2");
  ("libpsl", Some "libpsl");
  ("c-ares", Some "c-ares");
  ("krb5", Some "krb5");
  ("libpng", Some "libpng");
  ("libjpeg-turbo", Some "libjpeg-turbo");
  ("libtiff", Some "libtiff");
  ("libwebp", Some "libwebp");
  ("giflib", Some "giflib");
  ("openjpeg2", Some "openjpeg");
  ("libraw", Some "libraw");
  ("libheif", Some "libheif");
  ("libavif", Some "libavif");
  ("libjxl", Some "libjxl");
  ("librsvg", Some "librsvg");
  ("gdk-pixbuf2", Some "gdk-pixbuf2");
  ("graphite", Some "graphite");
  ("freetype2", Some "freetype");
  ("fontconfig", Some "fontconfig");
  ("harfbuzz", Some "harfbuzz");
  ("harfbuzz-icu", Some "harfbuzz");
  ("pango", Some "pango");
  ("cairo", Some "cairo");
  ("pixman", Some "pixman");
  ("fribidi", Some "fribidi");
  ("pipewire", Some "pipewire");
  ("pipewire-audio", Some "pipewire");
  ("pipewire-session-manager", Some "wireplumber");
  ("libpipewire", Some "pipewire");
  ("wireplumber", Some "wireplumber");
  ("pulseaudio", Some "pulseaudio");
  ("libpulse", Some "pulseaudio");
  ("alsa-lib", Some "alsa-lib");
  ("ffmpeg", Some "ffmpeg");
  ("libavcodec.so", None);
  ("libavformat.so", None);
  ("libavutil.so", None);
  ("libswscale.so", None);
  ("libswresample.so", None);
  ("gstreamer", Some "gstreamer");
  ("gst-plugins-base", Some "gst-plugins-base");
  ("gst-plugins-good", Some "gst-plugins-good");
  ("sndio", Some "sndio");
  ("jack", Some "jack2");
  ("jack2", Some "jack2");
  ("opus", Some "opus");
  ("libvorbis", Some "libvorbis");
  ("flac", Some "flac");
  ("lame", Some "lame");
  ("libsamplerate", Some "libsamplerate");
  ("speexdsp", Some "speexdsp");
  ("libcanberra", Some "libcanberra");
  ("sqlite", Some "sqlite");
  ("sqlite3", Some "sqlite");
  ("lmdb", Some "lmdb");
  ("leveldb", Some "leveldb");
  ("libgcrypt", Some "libgcrypt");
  ("libgpg-error", Some "libgpg-error");
  ("gnupg", Some "gnupg");
  ("gpgme", Some "gpgme");
  ("libsecret", Some "libsecret");
  ("libcap", Some "libcap");
  ("libcap-ng", Some "libcap-ng");
  ("audit", Some "audit");
  ("pam", Some "linux-pam");
  ("linux-pam", Some "linux-pam");
  ("polkit", Some "polkit");
  ("libxcrypt", Some "libxcrypt");
  ("dbus", Some "dbus");
  ("at-spi2-core", Some "at-spi2-core");
  ("at-spi2-atk", Some "at-spi2-core");
  ("libxml2", Some "libxml2");
  ("libxslt", Some "libxslt");
  ("expat", Some "expat");
  ("icu", Some "icu");
  ("pcre", Some "pcre");
  ("pcre2", Some "pcre2");
  ("oniguruma", Some "oniguruma");
  ("json-c", Some "json-c");
  ("json-glib", Some "json-glib");
  ("jansson", Some "jansson");
  ("jsoncpp", Some "jsoncpp");
  ("yaml-cpp", Some "yaml-cpp");
  ("libyaml", Some "libyaml");
  ("libffi", Some "libffi");
  ("libevent", Some "libevent");
  ("libuv", Some "libuv");
  ("libev", Some "libev");
  ("boost", Some "boost");
  ("boost-libs", Some "boost");
  ("ell", Some "ell");
  ("libelf", None);
  ("elfutils", None);
  ("libdwarf", Some "libdwarf");
  ("libunwind", Some "libunwind");
  ("orc", Some "orc");
  ("fftw", Some "fftw");
  ("gsl", Some "gsl");
  ("openblas", Some "openblas");
  ("lapack", Some "lapack");
  ("hdf5", Some "hdf5");
  ("netcdf", Some "netcdf");
  ("libinput", Some "libinput");
  ("libevdev", Some "libevdev");
  ("mtdev", Some "mtdev");
  ("libwacom", Some "libwacom");
  ("xf86-input-libinput", Some "xf86-input-libinput");
  ("bluez", Some "bluez");
  ("bluez-libs", Some "bluez");
  ("cups", Some "cups");
  ("libcups", Some "cups");
  ("cups-filters", Some "cups-filters");
  ("sane", Some "sane-backends");
  ("aspell", Some "aspell");
  ("hunspell", Some "hunspell");
  ("enchant", Some "enchant");
  ("python", Some "python");
  ("python3", Some "python");
  ("perl", Some "perl");
  ("ruby", Some "ruby");
  ("cmake", Some "cmake");
  ("ninja", Some "ninja");
  ("meson", Some "meson");
  ("make", Some "make");
  ("autoconf", Some "autoconf");
  ("automake", Some "automake");
  ("libtool", Some "libtool");
  ("m4", Some "m4");
  ("bison", Some "bison");
  ("flex", Some "flex");
  ("extra-cmake-modules", Some "extra-cmake-modules");
  ("pkgconf", Some "pkgconf");
  ("pkg-config", Some "pkgconf");
  ("gettext", Some "gettext");
  ("intltool", Some "intltool");
  ("gobject-introspection", Some "gobject-introspection");
  ("vala", Some "vala");
  ("swig", Some "swig");
  ("doxygen", Some "doxygen");
  ("ncurses", Some "ncurses");
  ("readline", Some "readline");
  ("coreutils", Some "coreutils");
  ("findutils", Some "findutils");
  ("diffutils", Some "diffutils");
  ("patch", Some "patch");
  ("gzip", Some "gzip");
  ("tar", Some "tar");
  ("gawk", Some "gawk");
  ("sed", Some "sed");
  ("grep", Some "grep");
  ("file", Some "file");
  ("which", Some "which");
  ("less", Some "less");
  ("git", Some "git");
  ("subversion", Some "subversion");
  ("mercurial", Some "mercurial");
  ("iproute2", Some "iproute2");
  ("iputils", Some "iputils");
  ("net-tools", Some "net-tools");
  ("openssh", Some "openssh");
  ("wget", Some "wget");
  ("rsync", Some "rsync");
  ("pciutils", Some "pciutils");
  ("usbutils", Some "usbutils");
  ("hwdata", Some "hwdata");
  ("dmidecode", Some "dmidecode");
  ("lm_sensors", Some "lm_sensors");
  ("smartmontools", Some "smartmontools");
  ("xdg-desktop-portal", Some "xdg-desktop-portal");
  ("xdg-utils", Some "xdg-utils");
  ("desktop-file-utils", Some "desktop-file-utils");
  ("shared-mime-info", Some "shared-mime-info");
  ("hicolor-icon-theme", Some "hicolor-icon-theme");
  ("adwaita-icon-theme", Some "adwaita-icon-theme");
  ("gsettings-desktop-schemas", Some "gsettings-desktop-schemas");
  ("opencv", Some "opencv");
  ("iio-sensor-proxy", Some "iio-sensor-proxy");
  ("libimobiledevice", Some "libimobiledevice");
  ("usbmuxd", Some "usbmuxd");
  ("plasma-workspace", Some "plasma-workspace");
  ("plasma-desktop", Some "plasma-desktop");
  ("plasma-framework", Some "libplasma");
  ("libplasma", Some "libplasma");
  ("kwayland", Some "kwayland");
  ("kwayland-integration", Some "kwayland");
  ("layer-shell-qt", Some "layer-shell-qt");
  ("libkscreen", Some "libkscreen");
  ("libksysguard", Some "libksysguard");
  ("kdecoration", Some "kdecoration");
  ("plasma5support", Some "plasma5support");
  ("kpipewire", Some "kpipewire");
  ("kactivitymanagerd", Some "kactivitymanagerd");
  ("kglobalacceld", Some "kglobalacceld");
  ("kscreenlocker", Some "kscreenlocker");
  ("kwin", Some "kwin");
  ("breeze", Some "breeze");
  ("breeze-icons", Some "breeze-icons");
  ("breeze-gtk", Some "breeze-gtk");
  ("oxygen", Some "oxygen");
  ("oxygen-icons", Some "oxygen-icons");
  ("sddm", Some "sddm");
  ("sddm-kcm", Some "sddm-kcm");
  ("systemsettings", Some "systemsettings");
  ("kinfocenter", Some "kinfocenter");
  ("plasma-nm", Some "plasma-nm");
  ("plasma-pa", Some "plasma-pa");
  ("bluedevil", Some "bluedevil");
  ("powerdevil", Some "powerdevil");
  ("kscreen", Some "kscreen");
  ("drkonqi", Some "drkonqi");
  ("milou", Some "milou");
  ("xdg-desktop-portal-kde", Some "xdg-desktop-portal-kde");
  ("polkit-kde-agent", Some "polkit-kde-agent");
  ("kde-cli-tools", Some "kde-cli-tools");
  ("kde-gtk-config", Some "kde-gtk-config");
  ("kmenuedit", Some "kmenuedit");
  ("ksystemstats", Some "ksystemstats");
  ("plasma-integration", Some "plasma-integration");
  ("qqc2-breeze-style", Some "qqc2-breeze-style");
  ("kwallet-pam", Some "kwallet-pam");
  ("ksshaskpass", Some "ksshaskpass");
  ("kwrited", Some "kwrited");
  ("kgamma", Some "kgamma");
  ("plasma-workspace-wallpapers", Some "plasma-workspace-wallpapers");
  ("kdeplasma-addons", Some "kdeplasma-addons");
  ("spectacle", Some "spectacle");
  ("print-manager", Some "print-manager");
  ("plasma-systemmonitor", Some "plasma-systemmonitor");
  ("plasma-disks", Some "plasma-disks");
  ("plasma-firewall", Some "plasma-firewall");
  ("plasma-vault", Some "plasma-vault");
  ("plasma-thunderbolt", Some "plasma-thunderbolt");
  ("plasma-welcome", Some "plasma-welcome");
  ("wacomtablet", Some "wacomtablet");
  ("discover", Some "discover");
  ("ocean-sound-theme", Some "ocean-sound-theme");
  ("oxygen-sounds", Some "oxygen-sounds");
  ("flatpak-kcm", Some "flatpak-kcm");
  ("lcms2", Some "lcms2");
  ("libexif", Some "libexif");
  ("exiv2", Some "exiv2");
  ("poppler", Some "poppler");
  ("poppler-qt6", Some "poppler");
  ("djvulibre", Some "djvulibre");
  ("libspectre", Some "libspectre");
  ("ebook-tools", Some "ebook-tools");
  ("chmlib", Some "chmlib");
  ("discount", Some "discount");
  ("speech-dispatcher", Some "speech-dispatcher");
  ("espeak-ng", Some "espeak-ng");
  ("festival", Some "festival");
  ("upower", Some "upower");
  ("acpid", Some "acpid");
  ("tlp", Some "tlp");
  ("ddcutil", Some "ddcutil");
  ("colord", Some "colord");
  ("accountsservice", Some "accountsservice");
  ("packagekit", Some "packagekit");
  ("packagekit-qt6", Some "packagekit");
  ("appstream", Some "appstream");
  ("appstream-qt", Some "appstream");
  ("flatpak", Some "flatpak");
  ("fwupd", Some "fwupd");
  ("bolt", Some "bolt");
  ("udisks2", Some "udisks2");
  ("media-player-info", Some "media-player-info");
  ("libarchive", Some "libarchive");
  ("p7zip", Some "p7zip");
  ("unrar", Some "unrar");
  ("unzip", Some "unzip");
  ("zip", Some "zip");
  ("libkdegames", Some "libkdegames");
  ("libkmahjongg", Some "libkmahjongg");
  ("libkdcraw", Some "libkdcraw");
  ("libkexiv2", Some "libkexiv2");
  ("libksane", Some "libksane");
  ("kimageannotator", Some "kimageannotator");
  ("kcolorpicker", Some "kcolorpicker");
  ("phonon-qt6", Some "phonon");
  ("phonon-qt6-vlc", Some "phonon-vlc");
  ("phonon-qt6-gstreamer", Some "phonon-gstreamer");
  ("vlc", Some "vlc");
  ("libvlc", Some "vlc");
  ("libxaw", Some "libxaw");
  ("libxmu", Some "libxmu");
  ("libxt", Some "libxt");
  ("libxpm", Some "libxpm");
  ("libxss", Some "libxscrnsaver");
  ("libxscrnsaver", Some "libxscrnsaver");
  ("libxft", Some "libxft");
  ("libxv", Some "libxv");
  ("libxvmc", Some "libxvmc");
  ("libxxf86dga", Some "libxxf86dga");
  ("xcb-util", Some "xcb-util");
  ("xcb-util-wm", Some "xcb-util-wm");
  ("xcb-util-image", Some "xcb-util-image");
  ("xcb-util-keysyms", Some "xcb-util-keysyms");
  ("xcb-util-renderutil", Some "xcb-util-renderutil");
  ("xcb-util-cursor", Some "xcb-util-cursor");
  ("wlroots", Some "wlroots");
  ("xdg-desktop-portal-wlr", Some "xdg-desktop-portal-wlr");
  ("samba", Some "samba");
  ("libwbclient", Some "samba");
  ("smbclient", Some "samba");
  ("libnm", Some "networkmanager");
  ("libmm-glib", Some "modemmanager");
  ("gst-plugins-base-libs", Some "gst-plugins-base");
  ("gst-plugins-bad", Some "gst-plugins-bad");
  ("gst-plugins-ugly", Some "gst-plugins-ugly");
  ("gst-plugin-pipewire", Some "pipewire");
  ("gst-libav", Some "gst-libav");
  ("mpg123", Some "mpg123");
  ("openexr", Some "openexr");
  ("imath", Some "imath");
  ("nettle", Some "nettle");
  ("orc", Some "orc");
  ("libusb", Some "libusb");
  ("libnl", Some "libnl");
  ("libpcap", Some "libpcap");
  ("libnftnl", Some "libnftnl");
  ("nftables", Some "nftables");
  ("iptables", Some "iptables");
  ("wayland-utils", Some "wayland");
  ("weston", Some "weston");
  ("alsa-utils", Some "alsa-utils");
  ("alsa-plugins", Some "alsa-plugins");
  ("alsa-oss", Some "alsa-oss");
  ("libglib-2.0", Some "glib2");
  ("libgio-2.0", Some "glib2");
  ("libgobject-2.0", Some "glib2");
  ("libgmodule-2.0", Some "glib2");
  ("libgthread-2.0", Some "glib2")
].

(** [IGNORE_PACKAGES]: the set literal, elements in source order. *)
Definition IGNORE_PACKAGES : list string := [
  "base"; "base-devel"; "filesystem"; "sh"; "pacman"; "bash"; "coreutils";
  "grep"; "sed"; "gawk"; "findutils"; "util-linux"; "which"; "less"; "file";
  "tar"; "gzip"; "git"; "subversion"; "mercurial"; "wget"; "rsync";
  "doxygen"; "sphinx"; "asciidoc"; "xmlto"; "docbook-xsl"; "docbook-xml";
  "gtk-doc"; "help2man"; "texinfo"; "check"; "cppunit"; "gtest";
  "python-pytest"; "python-mock"; "python-nose"; "valgrind";
  "hicolor-icon-theme"; "xdg-utils"; "desktop-file-utils";
  "shared-mime-info"; "xorg-server"; "xorg-xwayland"; "xorg-setxkbmap";
  "xorg-xrdb"; "xorg-xinit"; "xorg-xprop"; "xorg-xset"; "xorg-xrandr";
  "linux-firmware"; "amd-ucode"; "intel-ucode"; "ttf-dejavu";
  "ttf-liberation"; "ttf-freefont"; "noto-fonts"; "noto-fonts-emoji";
  "cantarell-fonts"; "python-pip"; "python-setuptools"; "python-wheel";
  "python-build"; "python-installer"; "python-hatchling"; "python-flit-core";
  "python-poetry-core"; "cython"; "perl-extutils-makemaker";
  "perl-test-simple"; "perl-test-harness"; "ruby-bundler"; "ruby-rake";
  "glibc-locales"; "ca-certificates"; "tzdata"; "avahi"; "networkmanager";
  "modemmanager"; "wpa_supplicant"; "systemd-sysvcompat";
  "systemd-resolvconf"; "systemd-ukify"; "xorgproto"; "xcb-proto"; "xproto";
  "kbproto"; "inputproto"; "randrproto"; "renderproto"; "xextproto";
  "fixesproto"; "damageproto"; "compositeproto"; "gobject-introspection";
  "pyside6"; "pyside2"; "pyqt6"; "pyqt5"; "sip"; "qt5-base";
  "qt5-declarative"; "qt5-wayland"; "qt5-svg"; "qt5-tools"; "qt5-multimedia";
  "qt5-x11extras"; "qt5-xmlpatterns"; "qt5-graphicaleffects";
  "qt5-quickcontrols2"; "webrtc-audio-processing";
  "webrtc-audio-processing-1"; "llvm"; "llvm-libs"; "clang"; "lld"; "meson";
  "ninja"; "cmake"; "rust"; "cargo"; "go"; "qrencode"; "libdvdread";
  "libdvdnav"; "libdvdcss"; "libass"; "libcdio"; "libcdio-paranoia";
  "libbluray"; "libsndfile"; "mpg123"; "openjpeg"; "openexr"; "imath";
  "libraw"; "libheif"; "libavif"; "libjxl"; "jack2"; "jack"; "orc"; "libusb";
  "libnl"; "elfutils"; "kf6-kdoctools"
].

(** [lib_mappings], local to [map_arch_to_rookery]: the dict literal in source order. *)
Definition lib_mappings : list (string * option string) := [
  ("libncursesw", Some "ncurses");
  ("libncurses", Some "ncurses");
  ("libreadline", Some "readline");
  ("libz", Some "zlib");
  ("libbz2", Some "bzip2");
  ("liblzma", Some "xz");
  ("libzstd", Some "zstd");
  ("liblz4", Some "lz4");
  ("libcrypto", Some "openssl");
  ("libssl", Some "openssl");
  ("libcurl", Some "curl");
  ("libxml2", Some "libxml2");
  ("libxslt", Some "libxslt");
  ("libpng16", Some "libpng");
  ("libpng", Some "libpng");
  ("libjpeg", Some "libjpeg-turbo");
  ("libtiff", Some "libtiff");
  ("libwebp", Some "libwebp");
  ("libgif", Some "giflib");
  ("libfreetype", Some "freetype");
  ("libfontconfig", Some "fontconfig");
  ("libharfbuzz", Some "harfbuzz");
  ("libpango-1.0", Some "pango");
  ("libcairo", Some "cairo");
  ("libpixman-1", Some "pixman");
  ("libfribidi", Some "fribidi");
  ("libglib-2.0", Some "glib2");
  ("libgio-2.0", Some "glib2");
  ("libgobject-2.0", Some "glib2");
  ("libgmodule-2.0", Some "glib2");
  ("libgthread-2.0", Some "glib2");
  ("libgtk-3", Some "gtk3");
  ("libgtk-4", Some "gtk4");
  ("libgdk-3", Some "gtk3");
  ("libgdk_pixbuf-2.0", Some "gdk-pixbuf2");
  ("libatk-1.0", Some "at-spi2-core");
  ("libatspi", Some "at-spi2-core");
  ("libdbus-1", Some "dbus");
  ("libsystemd", Some "systemd");
  ("libudev", Some "systemd");
  ("libpulse", Some "pulseaudio");
  ("libpulse-simple", Some "pulseaudio");
  ("libasound", Some "alsa-lib");
  ("libpipewire-0.3", Some "pipewire");
  ("libspa-0.2", Some "pipewire");
  ("libX11", Some "libx11");
  ("libXext", Some "libxext");
  ("libXrender", Some "libxrender");
  ("libXi", Some "libxi");
  ("libXtst", Some "libxtst");
  ("libXcursor", Some "libxcursor");
  ("libXfixes", Some "libxfixes");
  ("libXdamage", Some "libxdamage");
  ("libXrandr", Some "libxrandr");
  ("libXinerama", Some "libxinerama");
  ("libXxf86vm", Some "libxxf86vm");
  ("libXshmfence", Some "libxshmfence");
  ("libXcomposite", Some "libxcomposite");
  ("libxcb", Some "libxcb");
  ("libxkbcommon", Some "libxkbcommon");
  ("libwayland-client", Some "wayland");
  ("libwayland-server", Some "wayland");
  ("libwayland-cursor", Some "wayland");
  ("libwayland-egl", Some "wayland");
  ("libdrm", Some "libdrm");
  ("libGL", Some "mesa");
  ("libGLESv2", Some "mesa");
  ("libEGL", Some "mesa");
  ("libgbm", Some "mesa");
  ("libvulkan", Some "vulkan-loader");
  ("libepoxy", Some "libepoxy");
  ("libva", Some "libva");
  ("libvdpau", Some "libvdpau");
  ("libinput", Some "libinput");
  ("libevdev", Some "libevdev");
  ("libffi", Some "libffi");
  ("libevent", Some "libevent");
  ("libuv", Some "libuv");
  ("libpcre2-8", Some "pcre2");
  ("libpcre", Some "pcre");
  ("libicu", Some "icu");
  ("libicui18n", Some "icu");
  ("libicuuc", Some "icu");
  ("libicudata", Some "icu");
  ("libexpat", Some "expat");
  ("libjson-c", Some "json-c");
  ("libsqlite3", Some "sqlite");
  ("liblmdb", Some "lmdb");
  ("libgcrypt", Some "libgcrypt");
  ("libgpg-error", Some "libgpg-error");
  ("libsecret-1", Some "libsecret");
  ("libcap", Some "libcap");
  ("libelf", None);
  ("libdw", None);
  ("libunwind", Some "libunwind");
  ("libboost_system", Some "boost");
  ("libboost_filesystem", Some "boost");
  ("libboost_thread", Some "boost");
  ("libopus", Some "opus");
  ("libvorbis", Some "libvorbis");
  ("libvorbisenc", Some "libvorbis");
  ("libvorbisfile", Some "libvorbis");
  ("libFLAC", Some "flac");
  ("libmp3lame", Some "lame");
  ("libsamplerate", Some "libsamplerate");
  ("libspeexdsp", Some "speexdsp");
  ("libavcodec", Some "ffmpeg");
  ("libavformat", Some "ffmpeg");
  ("libavutil", Some "ffmpeg");
  ("libswscale", Some "ffmpeg");
  ("libswresample", Some "ffmpeg");
  ("libavfilter", Some "ffmpeg");
  ("libavdevice", Some "ffmpeg");
  ("libpostproc", Some "ffmpeg");
  ("libgstreamer-1.0", Some "gstreamer");
  ("libcrypt", Some "libxcrypt");
  ("libxcrypt", Some "libxcrypt");
  ("libgio-2.0", Some "glib2");
  ("libgmodule-2.0", Some "glib2");
  ("libgthread-2.0", Some "glib2");
  ("libgobject-2.0", Some "glib2");
  ("libglib-2.0", Some "glib2");
  ("libdbus-1", Some "dbus");
  ("libsystemd", Some "systemd");
  ("libudev", Some "systemd");
  ("libblkid", Some "util-linux");
  ("libmount", Some "util-linux");
  ("libuuid", Some "util-linux");
  ("libattr", Some "attr");
  ("libacl", Some "acl");
  ("libbz2", Some "bzip2");
  ("liblzma", Some "xz");
  ("libzstd", Some "zstd");
  ("liblz4", Some "lz4");
  ("libbrotlidec", Some "brotli");
  ("libbrotlienc", Some "brotli");
  ("libbrotlicommon", Some "brotli");
  ("libasound", Some "alsa-lib");
  ("libreadline", Some "readline");
  ("libncurses", Some "ncurses");
  ("libncursesw", Some "ncurses");
  ("libform", Some "ncurses");
  ("libformw", Some "ncurses");
  ("libmenu", Some "ncurses");
  ("libmenuw", Some "ncurses");
  ("libpanel", Some "ncurses");
  ("libpanelw", Some "ncurses");
  ("libtic", Some "ncurses");
  ("libtinfo", Some "ncurses");
  ("libtinfow", Some "ncurses");
  ("libQt6Core", Some "qt6");
  ("libQt6Gui", Some "qt6");
  ("libQt6Widgets", Some "qt6");
  ("libQt6Network", Some "qt6");
  ("libQt6DBus", Some "qt6");
  ("libQt6Qml", Some "qt6");
  ("libQt6Quick", Some "qt6");
  ("libQt6Svg", Some "qt6");
  ("libQt6Xml", Some "qt6");
  ("libQt6Concurrent", Some "qt6");
  ("libQt6OpenGL", Some "qt6");
  ("libQt6PrintSupport", Some "qt6");
  ("libQt6Sql", Some "qt6");
  ("libQt6Test", Some "qt6");
  ("libQt6WaylandClient", Some "qt6");
  ("libKF6CoreAddons", Some "kf6-kcoreaddons");
  ("libKF6ConfigCore", Some "kf6-kconfig");
  ("libKF6I18n", Some "kf6-ki18n");
  ("libKF6Service", Some "kf6-kservice");
  ("libKF6KIOCore", Some "kf6-kio");
  ("libKF6WidgetsAddons", Some "kf6-kwidgetsaddons");
  ("libKF6WindowSystem", Some "kf6-kwindowsystem");
  ("libKF6DBusAddons", Some "kf6-kdbusaddons");
  ("libKF6Crash", Some "kf6-kcrash");
  ("libKF6GuiAddons", Some "kf6-kguiaddons")
].

(** [arch_split_packages], local to [map_arch_to_rookery]. *)
Definition arch_split_packages : list (string * option string) := [
  ("alsa-topology-conf", Some "alsa-lib");
  ("alsa-ucm-conf", Some "alsa-lib");
  ("bash-completion", None);
  ("nss-mdns", None);
  ("debuginfod", None);
  ("xorg-font-util", None);
  ("xorg-util-macros", None);
  ("xorg-xkbcomp", Some "xkeyboard-config");
  ("xtrans", None);
  ("gperf", None);
  ("gi-docgen", None);
  ("itstool", None);
  ("xmltoman", None);
  ("graphviz", None);
  ("dbus-broker", Some "dbus");
  ("mesa-libgl", Some "mesa");
  ("libstemmer", None);
  ("libxmlb", None);
  ("libfyaml", None);
  ("libatopology", Some "alsa-lib");
  ("libformw", Some "ncurses");
  ("libmenuw", Some "ncurses");
  ("libpanelw", Some "ncurses");
  ("psmisc", None);
  ("po4a", None);
  ("ed", None);
  ("uasm", None);
  ("shadow", None);
  ("libcrypt", Some "libxcrypt")
].

(** [strip_version_constraint]: [re.split(r'[><=]', dep)[0].strip()] *)
Definition is_constraint_char (c : ascii) : bool :=
  match c with
  | ">" | "<" | "=" => true
  | _ => false
  end%char.

Definition strip_version_constraint (dep : string) : string :=
  strip (before_first is_constraint_char dep).

(** [normalize_dep_name] *)
Definition normalize_dep_name (dep : string) : string :=
  let dep := strip_version_constraint dep in
  if endswith dep ".so" then drop_last 3 dep else dep.

(** The part of [map_arch_to_rookery] that follows the shared-library
    branch: prefix rules, suffix rules, split-package table, identity. *)
Definition map_by_name_rules (dep : string) : option string :=
  if startswith dep "python-" then None
  else if startswith dep "perl-" then None
  else if startswith dep "lib32-" then None
  else if existsb (endswith dep) ["-git"; "-svn"; "-bzr"; "-hg"] then None
  else if endswith dep "-docs" || endswith dep "-doc" then None
  else if endswith dep "-devel" then
    let base := drop_last 6 dep in
    match dict_get ARCH_TO_ROOKERY base with
    | Some result => result
    | None => Some base
    end
  else
    match dict_get arch_split_packages dep with
    | Some result => result
    | None => Some dep
    end.

(** [map_arch_to_rookery]; the result [None] is Python's [None]. *)
Definition map_arch_to_rookery (arch_dep : string) : option string :=
  let dep := normalize_dep_name arch_dep in
  if set_has IGNORE_PACKAGES dep then None
  else
    match dict_get ARCH_TO_ROOKERY dep with
    | Some result => result
    | None =>
        if endswith arch_dep ".so" then
          match dict_get lib_mappings dep with
          | Some result => result
          | None => None
          end
        else map_by_name_rules dep
    end.

(** The dict [compare_dependencies] returns. *)
Record DiffResult := {
  missing_depends : list string;
  missing_build_depends : list string;
  missing_optional : list string;
  extra_depends : list string;
  extra_build_depends : list string
}.

(** One of the three mapping loops: [if mapped:] drops [None] and the empty
    string. *)
Definition add_mapped (acc : gset string) (dep : string) : gset string :=
  match map_arch_to_rookery dep with
  | Some mapped => if String.eqb mapped "" then acc else acc ∪ {[ mapped ]}
  | None => acc
  end.

Definition mapped_set (deps : list string) : gset string :=
  foldl add_mapped ∅ deps.

(** [compare_dependencies].  The code builds each list by iterating a
    Python set, in an order it does not fix; here the order is that of
    [elements].  What is said of these lists below is said of their
    members, their length and their lack of duplicates, not of their
    order. *)
Definition compare_dependencies (rook_pkg : RookPackageInfo)
    (arch_pkg : ArchPackageInfo) : DiffResult :=
  let rook_deps : gset string := dom (rook_depends rook_pkg) in
  let rook_build : gset string := dom (rook_build_depends rook_pkg) in
  let rook_optional : gset string := dom (rook_optional_depends rook_pkg) in
  let arch_depends_mapped := mapped_set (arch_depends arch_pkg) in
  let arch_makedepends_mapped := mapped_set (arch_makedepends arch_pkg) in
  let arch_optdepends_mapped := mapped_set (arch_optdepends arch_pkg) in
  {| missing_depends :=
       filter (λ dep, (dep ∉ rook_deps) ∧ (dep ∉ rook_build))
              (elements arch_depends_mapped);
     missing_build_depends :=
       filter (λ dep, (dep ∉ rook_build) ∧ (dep ∉ rook_deps))
              (elements arch_makedepends_mapped);
     missing_optional :=
       filter (λ dep, (dep ∉ rook_optional) ∧ (dep ∉ rook_deps))
              (elements arch_optdepends_mapped);
     extra_depends := [];
     extra_build_depends := [] |}.

(** *** The report printed by [main] (without [--verbose] and [--fix]) *)

Definition nl : string := String newline "".

Definition print (out s : string) : string := out +:+ s +:+ nl.

(** What [main] accumulates while it loops over the packages. *)
Record MainState := {
  stdout : string;
  total_missing : nat;
  packages_with_issues : nat
}.

(** One package that was found on both sides, with its diff. *)
Record ReportItem := {
  item_rook_name : string;
  item_arch_name : string;
  item_arch_version : string;
  item_diff : DiffResult
}.

Definition has_issues (diff : DiffResult) : bool :=
  negb (bool_decide (missing_depends diff = [])) ||
  negb (bool_decide (missing_build_depends diff = [])) ||
  negb (bool_decide (missing_optional diff = [])).

Definition rule : string := repeat_char "=" 60.

(** [print(f"    - {dep}"); total_missing += 1] *)
Definition print_entry (st : MainState) (dep : string) : MainState :=
  {| stdout := print (stdout st) ("    - " +:+ dep);
     total_missing := S (total_missing st);
     packages_with_issues := packages_with_issues st |}.

(** [if deps: print(f"\n{header}"); for dep in sorted(deps): ...] *)
Definition print_missing (header : string) (deps : list string)
    (st : MainState) : MainState :=
  match deps with
  | [] => st
  | _ :: _ =>
      foldl print_entry
            {| stdout := print (stdout st) (nl +:+ header);
               total_missing := total_missing st;
               packages_with_issues := packages_with_issues st |}
            (sorted deps)
  end.

(** The body of the loop from [has_issues = any([...])] on. *)
Definition report_item (st : MainState) (it : ReportItem) : MainState :=
  let diff := item_diff it in
  if has_issues diff then
    let out := print (stdout st) (nl +:+ rule) in
    let out := print out ("Package: " +:+ item_rook_name it) in
    let out := print out ("Arch equivalent: " +:+ item_arch_name it +:+
                          " (" +:+ item_arch_version it +:+ ")") in
    let st := {| stdout := out;
                 total_missing := total_missing st;
                 packages_with_issues := S (packages_with_issues st) |} in
    let st := print_missing "  Missing runtime dependencies:"
                            (missing_depends diff) st in
    let st := print_missing "  Missing build dependencies:"
                            (missing_build_depends diff) st in
    print_missing "  Missing optional dependencies:"
                  (missing_optional diff) st
  else st.

(** The closing summary; [checked] is [len(rook_files)]. *)
Definition print_summary (checked : nat) (st : MainState) : string :=
  let out := print (stdout st) (nl +:+ rule) in
  let out := print out "Summary:" in
  let out := print out ("  Packages checked: " +:+ str_of_nat checked) in
  let out := print out ("  Packages with issues: " +:+
                        str_of_nat (packages_with_issues st)) in
  print out ("  Total missing dependencies: " +:+
             str_of_nat (total_missing st)).

(** The whole text [main] prints for the packages it compared. *)
Definition format_report (checked : nat) (items : list ReportItem) : string :=
  print_summary checked
    (foldl report_item
           {| stdout := ""; total_missing := 0; packages_with_issues := 0 |}
           items).

(** [main] on packages already read and fetched: diff each, print. *)
Definition check_report (checked : nat)
    (pkgs : list (RookPackageInfo * ArchPackageInfo)) : string :=
  format_report checked
    (map (λ p, {| item_rook_name := rook_name p.1;
                  item_arch_name := arch_name p.2;
                  item_arch_version := arch_version p.2;
                  item_diff := compare_dependencies p.1 p.2 |}) pkgs).

End CheckDeps.

(** ** scripts/fix_deps.py *)

Module FixDeps.
Import PyStr.

(** [PackageIssues] *)
Record PackageIssues := {
  name : string;
  missing_depends : list string;
  missing_build_depends : list string;
  missing_optional : list string
}.

(** The values [current_section] takes besides [None]. *)
Inductive section := Depends | BuildDepends | Optional.

(** The three local variables of [parse_report]. *)
Record ParseState := {
  packages : list PackageIssues;
  current_pkg : option PackageIssues;
  current_section : option section
}.

Definition append_dep (sec : section) (dep : string)
    (pkg : PackageIssues) : PackageIssues :=
  match sec with
  | Depends =>
      {| name := name pkg;
         missing_depends := missing_depends pkg ++ [dep];
         missing_build_depends := missing_build_depends pkg;
         missing_optional := missing_optional pkg |}
  | BuildDepends =>
      {| name := name pkg;
         missing_depends := missing_depends pkg;
         missing_build_depends := missing_build_depends pkg ++ [dep];
         missing_optional := missing_optional pkg |}
  | Optional =>
      {| name := name pkg;
         missing_depends := missing_depends pkg;
         missing_build_depends := missing_build_depends pkg;
         missing_optional := missing_optional pkg ++ [dep] |}
  end.

Definition set_section (st : ParseState) (sec : option section) : ParseState :=
  {| packages := packages st;
     current_pkg := current_pkg st;
     current_section := sec |}.

(** The body of the loop [for line in f] of [parse_report]. *)
Definition parse_line (st : ParseState) (raw : string) : ParseState :=
  let line := rstrip raw in
  if startswith line "Package: " then
    {| packages := packages st ++ option_list (current_pkg st);
       current_pkg :=
         Some {| name := strip (slice_from 9 line);
                 missing_depends := [];
                 missing_build_depends := [];
                 missing_optional := [] |};
       current_section := None |}
  else if contains line "Missing runtime dependencies:" then
    set_section st (Some Depends)
  else if contains line "Missing build dependencies:" then
    set_section st (Some BuildDepends)
  else if contains line "Missing optional dependencies:" then
    set_section st (Some Optional)
  else if startswith (strip line) "- " then
    match current_pkg st, current_section st with
    | Some pkg, Some sec =>
        let dep := strip (slice_from 2 (strip line)) in
        {| packages := packages st;
           current_pkg := Some (append_dep sec dep pkg);
           current_section := Some sec |}
    | _, _ =>
        if startswith line "====" then set_section st None else st
    end
  else if startswith line "====" then set_section st None
  else st.

(** [parse_report], on the text of the report file. *)
Definition parse_report (report : string) : list PackageIssues :=
  let st := foldl parse_line
                  {| packages := []; current_pkg := None;
                     current_section := None |}
                  (readlines report) in
  packages st ++ option_list (current_pkg st).

(** The loop of [find_section_end]: [i] is the index of the head of
    [lines]; the result is [(section_start, section_end)], with [None] for
    the initial [-1].  [re.match(rf'^\[{re.escape(section_name)}\]\s*$', l)]
    on a stripped line [l] holds exactly when [l] is ["[section_name]"]. *)
Fixpoint scan_section (header : string) (lines : list string) (i : nat)
    (section_start : option nat) : option nat * option nat :=
  match lines with
  | [] => (section_start, None)
  | line :: rest =>
      if String.eqb (strip line) header then
        scan_section header rest (S i) (Some i)
      else if bool_decide (is_Some section_start)
              && startswith (strip line) "["
              && negb (startswith (strip line) "[[") then
        (section_start, Some i)
      else scan_section header rest (S i) section_start
  end.

(** [lines[a:b]] for [0 <= a]. *)
Definition slice {A : Type} (a b : nat) (l : list A) : list A :=
  take (b - a) (drop a l).

(** [find_section_end]; [None] stands for the result [(-1, -1, "")]. *)
Definition find_section_end (content section_name : string)
    : option (nat * nat * string) :=
  let lines := split_nl content in
  match scan_section ("[" +:+ section_name +:+ "]") lines 0 None with
  | (Some section_start, found_end) =>
      let section_end := default (length lines) found_end in
      let section_content :=
        join_nl (slice (section_start + 1) section_end lines) in
      Some (section_start, section_end, strip section_content)
  | (None, _) => None
  end.

(** The key of an entry line: the text before the first [=], stripped of
    whitespace and then of double quotes. *)
Definition entry_key (line : string) : string :=
  strip_char dquote (strip (before_first (Ascii.eqb "=") line)).

(** A stripped line that is neither empty nor a comment. *)
Definition is_content (line : string) : bool :=
  negb (String.eqb line "") && negb (startswith line "#").

Definition add_existing (existing : gset string) (line : string) : gset string :=
  let line := strip line in
  if is_content line && has_char "=" line
  then existing ∪ {[ entry_key line ]}
  else existing.

(** [get_existing_deps] *)
Definition get_existing_deps (content section_name : string) : gset string :=
  let section_content :=
    match find_section_end content section_name with
    | Some (_, _, section_content) => section_content
    | None => ""
    end in
  foldl add_existing ∅ (split_nl section_content).

Definition known_versions : list (string * string) := [
  ("glibc", "2.39");
  ("gcc", "10.0");
  ("systemd", "255");
  ("glib2", "2.78");
  ("gtk3", "3.24");
  ("gtk4", "4.12");
  ("qt6", "6.6");
  ("python", "3.12");
  ("perl", "5.38");
  ("ncurses", "6.4");
  ("readline", "8.2");
  ("openssl", "3.0");
  ("curl", "8.0");
  ("libxml2", "2.12");
  ("libxslt", "1.1");
  ("zlib", "1.3");
  ("bzip2", "1.0");
  ("xz", "5.4");
  ("zstd", "1.5");
  ("dbus", "1.14");
  ("polkit", "124");
  ("wayland", "1.22");
  ("mesa", "24.0");
  ("libdrm", "2.4");
  ("freetype", "2.13");
  ("fontconfig", "2.14");
  ("harfbuzz", "8.0");
  ("cairo", "1.18");
  ("pango", "1.52");
  ("libpng", "1.6");
  ("libjpeg-turbo", "3.0");
  ("sqlite", "3.45");
  ("libffi", "3.4");
  ("expat", "2.6");
  ("pcre2", "10.42");
  ("icu", "74");
  ("libx11", "1.8");
  ("libxcb", "1.16");
  ("libxi", "1.8");
  ("libxext", "1.3");
  ("libxfixes", "6.0");
  ("libxrandr", "1.5");
  ("libxtst", "1.2");
  ("libxkbcommon", "1.6");
  ("alsa-lib", "1.2");
  ("pulseaudio", "17.0");
  ("pipewire", "1.0");
  ("ffmpeg", "7.0");
  ("gstreamer", "1.24");
  ("libcap", "2.69");
  ("libsecret", "0.21");
  ("libgcrypt", "1.10");
  ("libgpg-error", "1.48");
  ("json-c", "0.17");
  ("libevent", "2.1");
  ("libusb", "1.0");
  ("libarchive", "3.7");
  ("attr", "2.5");
  ("acl", "2.3");
  ("libinput", "1.25");
  ("libevdev", "1.13");
  ("bluez", "5.72");
  ("cups", "2.4");
  ("samba", "4.20");
  ("gettext", "0.22");
  ("vala", "0.56");
  ("libsamplerate", "0.2");
  ("fftw", "3.3");
  ("pciutils", "3.10");
  ("librsvg", "2.58");
  ("gdk-pixbuf2", "2.42");
  ("gsettings-desktop-schemas", "46.0")
].

Definition lib_to_pkg : list (string * string) := [
  ("libasound", "alsa-lib");
  ("libncursesw", "ncurses");
  ("libncurses", "ncurses");
  ("libreadline", "readline");
  ("libsystemd", "systemd");
  ("libudev", "systemd");
  ("libxml2", "libxml2");
  ("libxslt", "libxslt");
  ("libglib-2.0", "glib2");
  ("libgio-2.0", "glib2");
  ("libgobject-2.0", "glib2");
  ("libpng", "libpng");
  ("libpng16", "libpng");
  ("libjpeg", "libjpeg-turbo");
  ("libfreetype", "freetype");
  ("libfontconfig", "fontconfig");
  ("libharfbuzz", "harfbuzz");
  ("libcairo", "cairo");
  ("libpango-1.0", "pango");
  ("libgtk-3", "gtk3");
  ("libgtk-4", "gtk4");
  ("libdbus-1", "dbus");
  ("libcurl", "curl");
  ("libssl", "openssl");
  ("libcrypto", "openssl");
  ("libz", "zlib");
  ("libbz2", "bzip2");
  ("liblzma", "xz");
  ("libzstd", "zstd");
  ("libffi", "libffi");
  ("libexpat", "expat");
  ("libpcre2-8", "pcre2");
  ("libsqlite3", "sqlite");
  ("libX11", "libx11");
  ("libxcb", "libxcb");
  ("libwayland-client", "wayland");
  ("libpulse", "pulseaudio");
  ("libpipewire-0.3", "pipewire")
].

(** [f'{dep} = ">= {version}"'] *)
Definition entry_line (dep : string) : string :=
  let version := default "1.0" (dict_get known_versions dep) in
  dep +:+ " = " +:+ String dquote (">= " +:+ version +:+ String dquote "").

(** [lines.insert(i, x)] for [i >= 0]. *)
Definition list_insert_at {A : Type} (i : nat) (x : A) (l : list A) : list A :=
  take i l ++ x :: drop i l.

(** The loop that finds the insertion point. *)
Definition find_insert_at (lines : list string)
    (section_start section_end : nat) : nat :=
  foldl (λ insert_at i,
           if is_content (strip (default "" (lines !! i)))
           then i + 1 else insert_at)
        (section_start + 1)
        (seq (section_start + 1) (section_end - (section_start + 1))).

(** [add_deps_to_section]: the new content and the lines it prints. *)
Definition add_deps_to_section (content section_name : string)
    (deps : list string) : string * list string :=
  match deps with
  | [] => (content, [])
  | _ :: _ =>
      let existing := get_existing_deps content section_name in
      let new_deps := filter (λ d, d ∉ existing) deps in
      match new_deps with
      | [] => (content, [])
      | _ :: _ =>
          let lines := split_nl content in
          match find_section_end content section_name with
          | None =>
              (content,
               ["    Warning: Section [" +:+ section_name +:+ "] not found"])
          | Some (section_start, section_end, _) =>
              let new_lines := map entry_line (sorted new_deps) in
              let insert_at :=
                find_insert_at lines section_start section_end in
              let '(lines, _) :=
                foldl (λ '(lines, insert_at) new_line,
                         (list_insert_at insert_at new_line lines,
                          insert_at + 1))
                      (lines, insert_at) new_lines in
              (join_nl lines, [])
          end
      end
  end.

(** One iteration of the loop of [filter_deps]: is [d] appended? *)
Definition keep_dep (all_existing : gset string) (pkg_name d : string) : bool :=
  if String.eqb d pkg_name then false
  else if match dict_get lib_to_pkg d with
          | Some p => bool_decide (p ∈ all_existing)
          | None => false
          end then false
  else if bool_decide (d ∈ all_existing) then false
  else true.

(** [filter_deps], the closure inside [fix_rook_file]. *)
Definition filter_deps (all_existing : gset string) (deps : list string)
    (pkg_name : string) : list string :=
  filter (λ d, keep_dep all_existing pkg_name d) deps.

(** The three dependencies sections are patched one after the other, each
    only when its list is not empty. *)
Definition patch_section (section_name : string) (deps : list string)
    (content : string) : string :=
  match deps with
  | [] => content
  | _ :: _ => (add_deps_to_section content section_name deps).1
  end.

(** The text transformation of [fix_rook_file], from the content read to
    the content compared with the original. *)
Definition fix_content (content : string) (pkg : PackageIssues) : string :=
  let existing_depends := get_existing_deps content "depends" in
  let existing_build := get_existing_deps content "build_depends" in
  let existing_optional := get_existing_deps content "optional_depends" in
  let all_existing := existing_depends ∪ existing_build ∪ existing_optional in
  let deps := filter_deps all_existing (missing_depends pkg) (name pkg) in
  let build := filter_deps all_existing (missing_build_depends pkg) (name pkg) in
  let optional := filter_deps all_existing (missing_optional pkg) (name pkg) in
  let content := patch_section "depends" deps content in
  let content := patch_section "build_depends" build content in
  patch_section "optional_depends" optional content.

(** [fix_rook_file]; [specs_dir] maps the name of each file of the specs
    directory to its text.  The result is the directory afterwards and the
    returned flag.  Progress messages are left out.  The path
    [specs_dir / f"{pkg.name}.rook"] is the file of that name for a package
    name without [/]; with one, pathlib makes it a path that the map does
    not key by this string, and what depends on which file is meant is
    stated for names without [/] only. *)
Definition fix_rook_file (specs_dir : gmap string string) (pkg : PackageIssues)
    (dry_run : bool) : gmap string string * bool :=
  let rook_path := name pkg +:+ ".rook" in
  let rook_path :=
    if bool_decide (is_Some (specs_dir !! rook_path)) then rook_path
    else if startswith (name pkg) "kf6-" then slice_from 4 (name pkg) +:+ ".rook"
    else rook_path in
  match specs_dir !! rook_path with
  | None => (specs_dir, false)
  | Some original_content =>
      let content := fix_content original_content pkg in
      if String.eqb content original_content then (specs_dir, false)
      else if dry_run then (specs_dir, true)
      else (<[rook_path := content]> specs_dir, true)
  end.

End FixDeps.

(** ** More of scripts/check_deps.py and scripts/fix_deps.py *)

Module CheckDepsFetch.
Import PyStr.

(** The list comprehension [[opt.split(":")[0].strip() for opt in ...]] by
    which [fetch_arch_package_info] turns the [optdepends] of the catalog
    (each ["name: description"]) into names. *)
Definition optdepend_name (opt : string) : string :=
  strip (before_first (Ascii.eqb ":") opt).

Definition optdepend_names (opts : list string) : list string :=
  map optdepend_name opts.

(** [main]: the name looked up in the Arch catalog for a .rook package. *)
Definition arch_lookup_name (rook_name : string) : string :=
  if startswith rook_name "kf6-" then slice_from 4 rook_name else rook_name.

End CheckDepsFetch.

Module CheckDepsMain.
Import PyStr CheckDeps CheckDepsFetch.

(** The two options of [main] that change what is printed. *)
Record Args := {
  arg_verbose : bool;
  arg_fix : bool
}.

(** [print(s, end=" ")] *)
Definition print_space (out s : string) : string := out +:+ s +:+ " ".

Definition set_stdout (out : string) (st : MainState) : MainState :=
  {| stdout := out;
     total_missing := total_missing st;
     packages_with_issues := packages_with_issues st |}.

(** The line printed for one suggested entry: the name, then [= ">= 1.0"]. *)
Definition suggestion_line (dep : string) : string :=
  "  " +:+ dep +:+ " = " +:+
  String dquote (">= 1.0" +:+ String dquote "").

(** [if deps: print(header); for dep in sorted(deps): print(...)] *)
Definition print_suggestions (header : string) (deps : list string)
    (out : string) : string :=
  match deps with
  | [] => out
  | _ :: _ =>
      foldl (λ out dep, print out (suggestion_line dep)) (print out header)
            (sorted deps)
  end.

(** The block printed under [if args.fix]. *)
Definition suggest (file_name : string) (diff : DiffResult) (out : string)
    : string :=
  let out := print out (nl +:+ "  Suggested additions to " +:+ file_name +:+
                        ":") in
  let out := print_suggestions "  [depends]" (missing_depends diff) out in
  let out := print_suggestions "  [build_depends]"
                               (missing_build_depends diff) out in
  print_suggestions "  [optional_depends]" (missing_optional diff) out.

(** The diff [main] prints for a package found on both sides. *)
Definition item_of (rook_pkg : RookPackageInfo) (arch_pkg : ArchPackageInfo)
    : ReportItem :=
  {| item_rook_name := rook_name rook_pkg;
     item_arch_name := arch_name arch_pkg;
     item_arch_version := arch_version arch_pkg;
     item_diff := compare_dependencies rook_pkg arch_pkg |}.

(** One round of the loop of [main] over the .rook files.  A file is its
    name and what [parse_rook_file] made of it; [fetch] is the Arch
    catalog, asked by name, taken to answer the same for the same name
    during a run.  Messages to stderr are left out. *)
Definition check_file (args : Args) (fetch : string → option ArchPackageInfo)
    (st : MainState) (file : string * option RookPackageInfo) : MainState :=
  match file.2 with
  | None => st
  | Some rook_pkg =>
      let st :=
        if arg_verbose args
        then set_stdout (print_space (stdout st)
                           ("Checking " +:+ rook_name rook_pkg +:+ "..."))
                        st
        else st in
      match fetch (arch_lookup_name (rook_name rook_pkg)) with
      | None =>
          if arg_verbose args
          then set_stdout (print (stdout st) "(not found in Arch)") st
          else st
      | Some arch_pkg =>
          let st :=
            if arg_verbose args
            then set_stdout (print (stdout st)
                               ("(found: " +:+ arch_name arch_pkg +:+ ")"))
                            st
            else st in
          let it := item_of rook_pkg arch_pkg in
          let st := report_item st it in
          if has_issues (item_diff it) && arg_fix args
          then set_stdout (suggest file.1 (item_diff it) (stdout st)) st
          else st
      end
  end.

(** Everything [main] prints to stdout for the files it loops over. *)
Definition main_output (args : Args) (fetch : string → option ArchPackageInfo)
    (files : list (string * option RookPackageInfo)) : string :=
  print_summary (length files)
    (foldl (check_file args fetch)
           {| stdout := ""; total_missing := 0; packages_with_issues := 0 |}
           files).

End CheckDepsMain.

Module FixDepsMain.
Import PyStr FixDeps.

(** The command-line options [main] reads after parsing the report;
    [None] is an option that was not given. *)
Record Args := {
  arg_package : option string;
  arg_limit : option Z;
  arg_skip_optional : bool;
  arg_skip_build : bool;
  arg_dry_run : bool
}.

(** [l[:n]] for any integer [n]: a negative [n] counts from the end. *)
Definition py_prefix {A : Type} (n : Z) (l : list A) : list A :=
  if (n <? 0)%Z then take (length l - Z.to_nat (- n)) l
  else take (Z.to_nat n) l.

Definition clear_optional (pkg : PackageIssues) : PackageIssues :=
  {| name := name pkg;
     missing_depends := missing_depends pkg;
     missing_build_depends := missing_build_depends pkg;
     missing_optional := [] |}.

Definition clear_build (pkg : PackageIssues) : PackageIssues :=
  {| name := name pkg;
     missing_depends := missing_depends pkg;
     missing_build_depends := [];
     missing_optional := missing_optional pkg |}.

(** [main], from the parsed report to the list it loops over; [None] is
    [sys.exit(1)] for a package that the report does not name.  An empty
    [--package] and a [--limit] of 0 are false in Python: no filter, no
    limit. *)
Definition select_packages (args : Args) (packages : list PackageIssues)
    : option (list PackageIssues) :=
  let filtered :=
    match arg_package args with
    | Some p =>
        if String.eqb p "" then Some packages
        else match filter (λ pkg, name pkg = p) packages with
             | [] => None
             | found => Some found
             end
    | None => Some packages
    end in
  match filtered with
  | None => None
  | Some packages =>
      let packages :=
        match arg_limit args with
        | Some n => if (n =? 0)%Z then packages else py_prefix n packages
        | None => packages
        end in
      let packages :=
        if arg_skip_optional args then map clear_optional packages
        else packages in
      let packages :=
        if arg_skip_build args then map clear_build packages
        else packages in
      Some packages
  end.

(** The loop [for pkg in packages: if fix_rook_file(...): fixed_count += 1]
    threading the specs directory. *)
Definition fix_step (dry_run : bool) (st : gmap string string * nat)
    (pkg : PackageIssues) : gmap string string * nat :=
  let '(specs_dir, fixed_count) := st in
  let '(specs_dir, fixed) := fix_rook_file specs_dir pkg dry_run in
  (specs_dir, if fixed then fixed_count + 1 else fixed_count).

Definition fix_all (specs_dir : gmap string string)
    (packages : list PackageIssues) (dry_run : bool)
    : gmap string string * nat :=
  foldl (fix_step dry_run) (specs_dir, 0) packages.

(** [main] once the report file and the specs directory are known to
    exist: the directory afterwards and [fixed_count]. *)
Definition main (args : Args) (report : string)
    (specs_dir : gmap string string) : option (gmap string string * nat) :=
  match select_packages args (parse_report report) with
  | None => None
  | Some packages => Some (fix_all specs_dir packages (arg_dry_run args))
  end.

End FixDepsMain.

(** * Vocabulary of the properties *)

(** ** Predicates on strings *)

Module PyStrPreds.
Import PyStr.

(** Every character of [s] satisfies [p]. *)
Fixpoint all_chars (p : ascii → bool) (s : string) : bool :=
  match s with
  | "" => true
  | String c r => p c && all_chars p r
  end.

(** [s] does not begin with whitespace. *)
Definition no_lead_space (s : string) : Prop :=
  match s with
  | "" => True
  | String c _ => is_space c = false
  end.

(** A string that is one line of a split text. *)
Definition no_newline (s : string) : Prop := has_char newline s = false.

(** A string without line terminators. *)
Definition line_text (s : string) : bool :=
  negb (has_char newline s) && negb (has_char carriage_return s).

(** A text that is empty or ends with a newline. *)
Definition terminated (s : string) : Prop :=
  s = "" ∨ ∃ a, s = a +:+ String newline "".

End PyStrPreds.

(** ** Vocabulary for the checker *)

Module CheckDepsPreds.
Import PyStr PyStrPreds CheckDeps.

(** A character that does not start a version constraint. *)
Definition not_constraint (c : ascii) : bool := negb (is_constraint_char c).

(** A .rook record with the given dependency tables. *)
Definition rook_with (deps build optional : gmap string string)
    : RookPackageInfo :=
  {| rook_name := "pkg"; rook_version := "1.0";
     rook_depends := deps; rook_build_depends := build;
     rook_optional_depends := optional |}.

(** An Arch record with the given dependency lists. *)
Definition arch_with (deps make opt : list string) : ArchPackageInfo :=
  {| arch_name := "pkg"; arch_version := "1.0";
     arch_depends := deps; arch_makedepends := make; arch_optdepends := opt;
     arch_provides := [] |}.

End CheckDepsPreds.

(** ** Vocabulary for the patcher *)

Module FixDepsPreds.
Import PyStr PyStrPreds FixDeps.

(** A stripped line that opens a top-level table. *)
Definition top_level (line : string) : bool :=
  startswith line "[" && negb (startswith line "[[").

(** A line inside a section: neither the wanted header nor the start of
    another top-level table. *)
Definition body_line (header line : string) : Prop :=
  String.eqb (strip line) header = false ∧ top_level (strip line) = false.

(** How a section ends: with the text, or before the line [k] that opens
    the next top-level table. *)
Definition ends_at (header : string) (rest : list string)
    (found_end : option nat) (k : nat) : Prop :=
  (rest = [] ∧ found_end = None) ∨
  (∃ t rest', rest = t :: rest' ∧ String.eqb (strip t) header = false ∧
              top_level (strip t) = true ∧ found_end = Some k).

(** The lines [pre ++ header_line :: body ++ rest] hold the section that
    [find_section_end] finds: [header_line] is its header and [body] its
    lines. *)
Record section_at (header : string) (pre : list string) (header_line : string)
    (body rest : list string) (found_end : option nat) : Prop := {
  sec_pre : ∃ st, scan_section header pre 0 None = (st, None);
  sec_header : strip header_line = header;
  sec_body : Forall (body_line header) body;
  sec_end : ends_at header rest found_end (length pre + 1 + length body)
}.

(** The header line of a section, stripped. *)
Definition header_of (section_name : string) : string :=
  "[" +:+ section_name +:+ "]".

(** A stripped line that declares a key. *)
Definition is_entry (line : string) : bool :=
  is_content line && has_char "=" line.

(** A blank line or a comment. *)
Definition not_content (line : string) : Prop :=
  is_content (strip line) = false.

(** [kept] is empty or ends with a content line. *)
Definition ends_with_content (kept : list string) : Prop :=
  kept = [] ∨ ∃ kept' last, kept = kept' ++ [last] ∧
                            is_content (strip last) = true.

(** The message printed for a section that is not there. *)
Definition warning (section_name : string) : string :=
  "    Warning: Section [" +:+ section_name +:+ "] not found".

(** The names [add_deps_to_section] still has to add. *)
Definition new_deps (content section_name : string) (deps : list string)
    : list string :=
  filter (λ d, d ∉ get_existing_deps content section_name) deps.

(** A name the patcher can write and read back: not empty, no surrounding
    whitespace, no [=] and no newline inside, not starting like a comment
    or a table header, no double quote at either end. *)
Definition plain_key (d : string) : bool :=
  negb (String.eqb d "") && String.eqb (strip d) d &&
  negb (has_char "=" d) && negb (has_char newline d) &&
  negb (startswith d "#") && negb (startswith d "[") &&
  negb (startswith d (String dquote "")) &&
  negb (endswith d (String dquote "")).

(** [known_versions.get(dep, "1.0")] *)
Definition version_of (dep : string) : string :=
  default "1.0" (dict_get known_versions dep).

(** A small .rook text. *)
Definition sample_rook : string :=
  join_nl ["[package]"; "name = x"; ""; "[depends]"; "# libraries";
           "zlib = v"; ""; "[build_depends]"; "cmake = v"].

(** Some line of [body] declares the key [d]: it is neither blank nor a
    comment, holds a [=], and the text before its first [=], trimmed and
    unquoted, is [d]. *)
Definition declared_in (body : list string) (d : string) : bool :=
  existsb (λ line, is_entry (strip line) &&
                   String.eqb (entry_key (strip line)) d) body.

(** No section of the header ends inside [pre]: a line that follows a
    header line there is a header line again or opens no top-level
    table. *)
Definition no_end_before (header : string) (pre : list string) : Prop :=
  ∀ a x b, pre = a ++ x :: b → strip x = header →
           Forall (λ t, strip t = header ∨ top_level (strip t) = false) b.

(** A text with the three dependency sections, [zlib] declared in the
    first. *)
Definition three_sections : string :=
  join_nl ["[depends]"; "zlib = x"; "[build_depends]"; "[optional_depends]"].

(** A name in double quotes. *)
Definition quoted (d : string) : string :=
  String dquote (d +:+ String dquote "").

(** [after] is [before] with entry lines for [names] inserted in one place,
    and [d] is not among the names. *)
Definition inserts_without (d before after : string) : Prop :=
  ∃ pre post names,
    split_nl before = pre ++ post ∧
    after = join_nl (pre ++ map entry_line names ++ post) ∧
    d ∉ names.

End FixDepsPreds.

(** ** Vocabulary for the report *)

Module ReportPreds.
Import PyStr PyStrPreds.

(** [s] holds one of the three section headers of the report. *)
Definition mentions_header (s : string) : bool :=
  contains s "Missing runtime dependencies:" ||
  contains s "Missing build dependencies:" ||
  contains s "Missing optional dependencies:".

(** A package name the report can carry: one line, not empty, no
    surrounding whitespace. *)
Definition clean_name (n : string) : bool :=
  negb (String.eqb n "") && String.eqb (strip n) n && line_text n.

(** A dependency the report can carry: a clean name that holds none of the
    three section headers. *)
Definition clean_token (t : string) : bool :=
  clean_name t && negb (mentions_header t).

(** A diff result the report can carry. *)
Definition clean_item (it : CheckDeps.ReportItem) : bool :=
  clean_name (CheckDeps.item_rook_name it) &&
  line_text (CheckDeps.item_arch_name it) &&
  line_text (CheckDeps.item_arch_version it) &&
  forallb clean_token (CheckDeps.missing_depends (CheckDeps.item_diff it)) &&
  forallb clean_token
          (CheckDeps.missing_build_depends (CheckDeps.item_diff it)) &&
  forallb clean_token (CheckDeps.missing_optional (CheckDeps.item_diff it)).

(** The record the parser builds for a printed package. *)
Definition issues_of (it : CheckDeps.ReportItem) : FixDeps.PackageIssues :=
  {| FixDeps.name := CheckDeps.item_rook_name it;
     FixDeps.missing_depends :=
       sorted (CheckDeps.missing_depends (CheckDeps.item_diff it));
     FixDeps.missing_build_depends :=
       sorted (CheckDeps.missing_build_depends (CheckDeps.item_diff it));
     FixDeps.missing_optional :=
       sorted (CheckDeps.missing_optional (CheckDeps.item_diff it)) |}.

(** A parsed record and a diff result agree: same package, and in each
    category the same tokens, their order apart. *)
Definition same_record (pkg : FixDeps.PackageIssues)
    (it : CheckDeps.ReportItem) : Prop :=
  FixDeps.name pkg = CheckDeps.item_rook_name it ∧
  FixDeps.missing_depends pkg ≡ₚ
    CheckDeps.missing_depends (CheckDeps.item_diff it) ∧
  FixDeps.missing_build_depends pkg ≡ₚ
    CheckDeps.missing_build_depends (CheckDeps.item_diff it) ∧
  FixDeps.missing_optional pkg ≡ₚ
    CheckDeps.missing_optional (CheckDeps.item_diff it).

(** A state of the parser. *)
Definition St (p : list FixDeps.PackageIssues) (c : option FixDeps.PackageIssues)
    (s : option FixDeps.section) : FixDeps.ParseState :=
  {| FixDeps.packages := p; FixDeps.current_pkg := c;
     FixDeps.current_section := s |}.

(** The parser's state after reading [text] from the state [st]. *)
Definition run (st : FixDeps.ParseState) (text : string) : FixDeps.ParseState :=
  foldl FixDeps.parse_line st (readlines text).

(** The newline [print] appends. *)
Definition nl : string := String newline "".

(** The header line printed for a category. *)
Definition header_for (sec : FixDeps.section) : string :=
  match sec with
  | FixDeps.Depends => "  Missing runtime dependencies:"
  | FixDeps.BuildDepends => "  Missing build dependencies:"
  | FixDeps.Optional => "  Missing optional dependencies:"
  end.

(** The state [parse_report] starts in. *)
Definition init : FixDeps.ParseState := St [] None None.

(** A diff result for a package known to Arch under the same name. *)
Definition item (rook_name : string) (deps build optional : list string)
    : CheckDeps.ReportItem :=
  {| CheckDeps.item_rook_name := rook_name;
     CheckDeps.item_arch_name := rook_name;
     CheckDeps.item_arch_version := "1.0-1";
     CheckDeps.item_diff :=
       {| CheckDeps.missing_depends := deps;
          CheckDeps.missing_build_depends := build;
          CheckDeps.missing_optional := optional;
          CheckDeps.extra_depends := [];
          CheckDeps.extra_build_depends := [] |} |}.

End ReportPreds.

(** ** Vocabulary for the further properties *)

Module ExtraPreds.
Import PyStr PyStrPreds.

(** The number of names a diff reports. *)
Definition missing_count (it : CheckDeps.ReportItem) : nat :=
  length (CheckDeps.missing_depends (CheckDeps.item_diff it)) +
  length (CheckDeps.missing_build_depends (CheckDeps.item_diff it)) +
  length (CheckDeps.missing_optional (CheckDeps.item_diff it)).

(** A string that is not empty and has no surrounding whitespace. *)
Definition trimmed (s : string) : Prop := s ≠ "" ∧ strip s = s.

(** A record of the parser whose name and tokens are all trimmed. *)
Definition record_trimmed (pkg : FixDeps.PackageIssues) : Prop :=
  trimmed (FixDeps.name pkg) ∧
  Forall trimmed (FixDeps.missing_depends pkg) ∧
  Forall trimmed (FixDeps.missing_build_depends pkg) ∧
  Forall trimmed (FixDeps.missing_optional pkg).

(** A line of the report that opens a package, after [rstrip]. *)
Definition is_package_line (raw : string) : bool :=
  startswith (rstrip raw) "Package: ".

(** The name such a line carries. *)
Definition package_line_name (raw : string) : string :=
  strip (slice_from 9 (rstrip raw)).

(** The lines of the section [find_section_end] finds, when it finds
    one. *)
Definition section_lines (header : string) (lines : list string)
    : option (list string) :=
  match FixDeps.scan_section header lines 0 None with
  | (Some section_start, found_end) =>
      Some (FixDeps.slice (section_start + 1)
                          (default (length lines) found_end) lines)
  | (None, _) => None
  end.

(** The keys [get_existing_deps] reads off the lines of a section. *)
Definition keys_of_section (body : option (list string)) : gset string :=
  foldl FixDeps.add_existing ∅
        (split_nl (match body with
                   | Some body => strip (join_nl body)
                   | None => ""
                   end)).

(** The keys of the three dependency sections of a text, as
    [fix_rook_file] collects them. *)
Definition all_existing_of (content : string) : gset string :=
  FixDeps.get_existing_deps content "depends" ∪
  FixDeps.get_existing_deps content "build_depends" ∪
  FixDeps.get_existing_deps content "optional_depends".

(** Every name of the three lists of a record is a well-formed key. *)
Definition plain_issues (pkg : FixDeps.PackageIssues) : Prop :=
  Forall (λ d, FixDepsPreds.plain_key d = true) (FixDeps.missing_depends pkg) ∧
  Forall (λ d, FixDepsPreds.plain_key d = true)
         (FixDeps.missing_build_depends pkg) ∧
  Forall (λ d, FixDepsPreds.plain_key d = true) (FixDeps.missing_optional pkg).

(** The file [fix_rook_file] works on: the package's own, or the one
    named without the [kf6-] prefix when the own one is not there. *)
Definition rook_path_of (specs_dir : gmap string string)
    (pkg : FixDeps.PackageIssues) : string :=
  if bool_decide (is_Some (specs_dir !! (FixDeps.name pkg +:+ ".rook")))
  then FixDeps.name pkg +:+ ".rook"
  else if startswith (FixDeps.name pkg) "kf6-"
       then slice_from 4 (FixDeps.name pkg) +:+ ".rook"
       else FixDeps.name pkg +:+ ".rook".

(** The keys a patch of section [s] with [deps] adds: all of them when
    the section is there, none otherwise. *)
Definition added_keys (content s : string) (deps : list string)
    : gset string :=
  match FixDeps.find_section_end content s with
  | Some _ => list_to_set deps
  | None => ∅
  end.

(** Nothing is left to add to section [s] of a text for a record: every
    name of [deps] that passes the filter is a key of the section, when the
    section is there. *)
Definition settled_section (content : string) (pkg : FixDeps.PackageIssues)
    (s : string) (deps : list string) : Prop :=
  FixDeps.find_section_end content s ≠ None →
  ∀ d, d ∈ deps →
       FixDeps.keep_dep (all_existing_of content) (FixDeps.name pkg) d = true →
       d ∈ FixDeps.get_existing_deps content s.

Definition settled (content : string) (pkg : FixDeps.PackageIssues) : Prop :=
  settled_section content pkg "depends" (FixDeps.missing_depends pkg) ∧
  settled_section content pkg "build_depends"
                  (FixDeps.missing_build_depends pkg) ∧
  settled_section content pkg "optional_depends"
                  (FixDeps.missing_optional pkg).

(** The file of a record, when there is one, is settled for it. *)
Definition file_settled (specs_dir : gmap string string)
    (pkg : FixDeps.PackageIssues) : Prop :=
  ∀ old, specs_dir !! rook_path_of specs_dir pkg = Some old → settled old pkg.

Definition plain_sample : FixDeps.PackageIssues :=
  {| FixDeps.name := "x"; FixDeps.missing_depends := ["openssl"; "zlib"];
     FixDeps.missing_build_depends := ["openssl"; "ninja"];
     FixDeps.missing_optional := ["brotli"] |}.

(** A name whose suggested entry does not read as a list entry of the
    report. *)
Definition not_entry_like (t : string) : bool :=
  negb (startswith (t +:+ " ") "- ").

(** The diffs the loop of the checker's [main] computes: one for each file
    that parses and whose package the catalog knows. *)
Definition items_of (fetch : string → option CheckDeps.ArchPackageInfo)
    (files : list (string * option CheckDeps.RookPackageInfo))
    : list CheckDeps.ReportItem :=
  omap (λ file,
          match file.2 with
          | None => None
          | Some rook_pkg =>
              match fetch (CheckDepsFetch.arch_lookup_name
                             (CheckDeps.rook_name rook_pkg)) with
              | None => None
              | Some arch_pkg => Some (CheckDepsMain.item_of rook_pkg arch_pkg)
              end
          end) files.

(** What the report needs of a file under the options given: a one-line
    package name when [--verbose] prints it, a clean diff when one is
    printed, and with [--fix] a one-line file name and no name that reads
    as a list entry. *)
Definition clean_file (args : CheckDepsMain.Args)
    (fetch : string → option CheckDeps.ArchPackageInfo)
    (file : string * option CheckDeps.RookPackageInfo) : bool :=
  match file.2 with
  | None => true
  | Some rook_pkg =>
      implb (CheckDepsMain.arg_verbose args)
            (line_text (CheckDeps.rook_name rook_pkg)) &&
      match fetch (CheckDepsFetch.arch_lookup_name
                     (CheckDeps.rook_name rook_pkg)) with
      | None => true
      | Some arch_pkg =>
          let it := CheckDepsMain.item_of rook_pkg arch_pkg in
          ReportPreds.clean_item it &&
          implb (CheckDepsMain.arg_fix args)
                (line_text file.1 &&
                 forallb not_entry_like
                   (CheckDeps.missing_depends (CheckDeps.item_diff it)) &&
                 forallb not_entry_like
                   (CheckDeps.missing_build_depends (CheckDeps.item_diff it)) &&
                 forallb not_entry_like
                   (CheckDeps.missing_optional (CheckDeps.item_diff it)))
      end
  end.

(** The parser, having read the text [out] from its first line, holds the
    records [pkgs], the last of them possibly still open. *)
Definition reads (out : string) (pkgs : list FixDeps.PackageIssues) : Prop :=
  terminated out ∧
  ∃ p c s, ReportPreds.run ReportPreds.init out = ReportPreds.St p c s ∧
           p ++ option_list c = pkgs.

(** A catalog that knows one package, three files of which one does not
    parse and one is not in the catalog, and both options set. *)
Definition sample_fetch (n : string) : option CheckDeps.ArchPackageInfo :=
  if String.eqb n "pkg"
  then Some (CheckDepsPreds.arch_with ["zlib"; "openssl"] ["cmake"] ["brotli"])
  else None.

Definition sample_files : list (string * option CheckDeps.RookPackageInfo) :=
  [("pkg.rook", Some (CheckDepsPreds.rook_with {[ "zlib" := "1.3" ]} ∅ ∅));
   ("broken.rook", None);
   ("kf6-other.rook",
    Some {| CheckDeps.rook_name := "kf6-other";
            CheckDeps.rook_version := "6.0";
            CheckDeps.rook_depends := ∅;
            CheckDeps.rook_build_depends := ∅;
            CheckDeps.rook_optional_depends := ∅ |})].

Definition loud_args : CheckDepsMain.Args :=
  {| CheckDepsMain.arg_verbose := true; CheckDepsMain.arg_fix := true |}.

(** The number of names a record of the parser lists. *)
Definition issue_count (pkg : FixDeps.PackageIssues) : nat :=
  length (FixDeps.missing_depends pkg) +
  length (FixDeps.missing_build_depends pkg) +
  length (FixDeps.missing_optional pkg).

(** Every file of [after] holds the lines it holds in [before], in
    order, possibly with lines in between. *)
Definition lines_kept (before after : gmap string string) : Prop :=
  ∀ path old new,
    before !! path = Some old → after !! path = Some new →
    split_nl old `sublist_of` split_nl new.

(** A package name that is a plain file name: with a [/] in it, the path
    [specs_dir / f"{name}.rook"] leaves the directory or names a file of
    it a second time. *)
Definition simple_name (n : string) : bool := negb (has_char "/" n).

Definition simple_names (pkgs : list FixDeps.PackageIssues) : Prop :=
  Forall (λ pkg, simple_name (FixDeps.name pkg) = true) pkgs.

(** The command line with [--dry-run] set or cleared. *)
Definition set_dry_run (dry_run : bool) (args : FixDepsMain.Args)
    : FixDepsMain.Args :=
  {| FixDepsMain.arg_package := FixDepsMain.arg_package args;
     FixDepsMain.arg_limit := FixDepsMain.arg_limit args;
     FixDepsMain.arg_skip_optional := FixDepsMain.arg_skip_optional args;
     FixDepsMain.arg_skip_build := FixDepsMain.arg_skip_build args;
     FixDepsMain.arg_dry_run := dry_run |}.

(** No option given. *)
Definition no_args : FixDepsMain.Args :=
  {| FixDepsMain.arg_package := None; FixDepsMain.arg_limit := None;
     FixDepsMain.arg_skip_optional := false;
     FixDepsMain.arg_skip_build := false;
     FixDepsMain.arg_dry_run := false |}.

(** A report on one package and a specs directory with its file. *)
Definition sample_report : string :=
  CheckDeps.format_report 1
    [ReportPreds.item "x" ["zlib"; "openssl"] ["openssl"; "ninja"]
                      ["brotli"]].

Definition sample_specs : gmap string string :=
  {[ "x.rook" := FixDepsPreds.sample_rook ]}.

(** A report on two packages and a directory with a file for each and a
    third file. *)
Definition two_reports : string :=
  CheckDeps.format_report 2
    [ReportPreds.item "x" ["openssl"] [] [];
     ReportPreds.item "kf6-y" ["zlib"; "curl"] ["ninja"] []].

Definition three_specs : gmap string string :=
  {[ "x.rook" := FixDepsPreds.sample_rook;
     "y.rook" := FixDepsPreds.sample_rook;
     "z.rook" := FixDepsPreds.sample_rook ]}.

End ExtraPreds.

(** * Properties *)

(** ** Facts about the string primitives *)

Module PyStrFacts.
Import PyStr PyStrPreds.

(** *** The primitives on sample inputs *)

Example strip_sample : strip "  libfoo 	" = "libfoo".
Proof. reflexivity. Qed.

Example rstrip_sample : rstrip " a b  " = " a b" ∧ lstrip " a b  " = "a b  ".
Proof. split; reflexivity. Qed.

Example strip_char_sample :
  strip_char "q" "qqaqbqq" = "aqb" ∧ strip_char "q" "qq" = "".
Proof. split; reflexivity. Qed.

Example before_first_sample :
  before_first (Ascii.eqb "=") "key = value = x" = "key " ∧
  before_first (Ascii.eqb "=") "novalue" = "novalue".
Proof. split; reflexivity. Qed.

Example endswith_sample :
  endswith "libz.so" ".so" = true ∧ endswith "so" ".so" = false ∧
  endswith "libz.so.6" ".so" = false.
Proof. repeat split; reflexivity. Qed.

Example contains_sample :
  contains "  Missing build dependencies:" "Missing build" = true ∧
  contains "abc" "bd" = false ∧ contains "abc" "" = true.
Proof. repeat split; reflexivity. Qed.

Example drop_last_sample :
  drop_last 3 "libz.so" = "libz" ∧ drop_last 3 "so" = "".
Proof. split; reflexivity. Qed.

Example split_nl_sample :
  split_nl (String "a" (String newline (String newline "b"))) = ["a"; ""; "b"] ∧
  split_nl "" = [""] ∧
  split_nl (String "a" (String newline "")) = ["a"; ""].
Proof. repeat split; reflexivity. Qed.

Example join_nl_sample :
  join_nl ["a"; ""; "b"] = String "a" (String newline (String newline "b")) ∧
  join_nl [] = "" ∧ join_nl ["a"] = "a".
Proof. repeat split; reflexivity. Qed.

Example readlines_sample :
  readlines (String "a" (String carriage_return (String newline
              (String "b" (String carriage_return "c"))))) =
  [String "a" (String newline ""); String "b" (String newline ""); "c"].
Proof. reflexivity. Qed.

Example sorted_sample :
  sorted ["zlib"; "Zlib"; "glibc"; "gl"; "zlib"] =
  ["Zlib"; "gl"; "glibc"; "zlib"; "zlib"].
Proof. reflexivity. Qed.

Example str_of_nat_sample :
  str_of_nat 0 = "0" ∧ str_of_nat 7 = "7" ∧ str_of_nat 1203 = "1203".
Proof. repeat split; reflexivity. Qed.

Example dict_get_sample :
  dict_get [("a", 1); ("b", 2); ("a", 3)] "a" = Some 3 ∧
  dict_get [("a", 1); ("b", 2); ("a", 3)] "c" = None.
Proof. split; reflexivity. Qed.

(** *** Appending and comparing *)

Lemma str_app_nil_l (s : string) : "" +:+ s = s.
Proof. reflexivity. Qed.

Lemma str_app_cons (c : ascii) (a b : string) :
  String c a +:+ b = String c (a +:+ b).
Proof. reflexivity. Qed.

Lemma str_app_nil_r (s : string) : s +:+ "" = s.
Proof. induction s as [|c s IH]; [done|]. by rewrite str_app_cons, IH. Qed.

Lemma str_app_assoc (a b c : string) : (a +:+ b) +:+ c = a +:+ (b +:+ c).
Proof. induction a as [|x a IH]; [done|]. by rewrite !str_app_cons, IH. Qed.

Lemma str_length_app (a b : string) :
  String.length (a +:+ b) = String.length a + String.length b.
Proof. induction a as [|x a IH]; [done|]. rewrite str_app_cons. simpl. by rewrite IH. Qed.

Lemma str_eqb_eq (a b : string) : String.eqb a b = true ↔ a = b.
Proof. apply String.eqb_eq. Qed.

Lemma str_eqb_neq (a b : string) : String.eqb a b = false ↔ a ≠ b.
Proof. apply String.eqb_neq. Qed.

(** *** Stripping *)

Lemma rstrip_unfold c r :
  rstrip (String c r) =
  match rstrip r with
  | "" => if is_space c then "" else String c ""
  | r' => String c r'
  end.
Proof. reflexivity. Qed.


Lemma lstrip_no_lead (s : string) : no_lead_space (lstrip s).
Proof.
  induction s as [|c s IH]; simpl; [done|].
  destruct (is_space c) eqn:Hc; [done|]. by simpl.
Qed.

Lemma lstrip_id (s : string) : no_lead_space s → lstrip s = s.
Proof. destruct s as [|c s]; simpl; [done|]. by intros ->. Qed.

Lemma lstrip_id_inv (s : string) : lstrip s = s → no_lead_space s.
Proof. intros <-. apply lstrip_no_lead. Qed.

Lemma rstrip_no_lead (s : string) : no_lead_space s → no_lead_space (rstrip s).
Proof.
  destruct s as [|c s]; simpl; [done|]. intros Hc.
  destruct (rstrip s); simpl; by rewrite ?Hc.
Qed.

Lemma rstrip_length (s : string) : String.length (rstrip s) ≤ String.length s.
Proof.
  induction s as [|c s IH]; simpl; [done|].
  destruct (rstrip s); [destruct (is_space c)|]; simpl in *; lia.
Qed.

Lemma rstrip_idem (s : string) : rstrip (rstrip s) = rstrip s.
Proof.
  induction s as [|c s IH]; simpl; [done|].
  destruct (rstrip s) as [|d r] eqn:Hr.
  - destruct (is_space c) eqn:Hc; simpl; [done|]. by rewrite Hc.
  - simpl in *. by rewrite IH.
Qed.

Lemma strip_no_lead (s : string) : no_lead_space (strip s).
Proof. apply rstrip_no_lead, lstrip_no_lead. Qed.

Lemma strip_rstrip_id (s : string) : rstrip (strip s) = strip s.
Proof. apply rstrip_idem. Qed.

Lemma strip_id (s : string) : no_lead_space s → rstrip s = s → strip s = s.
Proof. intros H1 H2. unfold strip. by rewrite lstrip_id. Qed.

Lemma strip_idem (s : string) : strip (strip s) = strip s.
Proof. apply strip_id; [apply strip_no_lead | apply strip_rstrip_id]. Qed.

Lemma strip_id_inv (s : string) :
  strip s = s → no_lead_space s ∧ rstrip s = s.
Proof.
  intros H. split.
  - rewrite <- H. apply strip_no_lead.
  - rewrite <- H. apply strip_rstrip_id.
Qed.

(** *** Characters of substrings *)

Lemma all_chars_lstrip p s :
  all_chars p s = true → all_chars p (lstrip s) = true.
Proof.
  induction s as [|c s IH]; simpl; [done|].
  intros [Hc Hs]%andb_true_iff. destruct (is_space c); [by apply IH|].
  simpl. by rewrite Hc, Hs.
Qed.

Lemma all_chars_rstrip p s :
  all_chars p s = true → all_chars p (rstrip s) = true.
Proof.
  induction s as [|c s IH]; simpl; [done|].
  intros [Hc Hs]%andb_true_iff. specialize (IH Hs).
  destruct (rstrip s); [destruct (is_space c)|]; simpl in *;
    rewrite ?Hc, ?IH; done.
Qed.

Lemma all_chars_strip p s :
  all_chars p s = true → all_chars p (strip s) = true.
Proof. intros. by apply all_chars_rstrip, all_chars_lstrip. Qed.

Lemma all_chars_slice_to p n s :
  all_chars p s = true → all_chars p (slice_to n s) = true.
Proof.
  revert n. induction s as [|c s IH]; intros [|n]; simpl; try done.
  intros [Hc Hs]%andb_true_iff. by rewrite Hc, IH.
Qed.

Lemma all_chars_app p a b :
  all_chars p (a +:+ b) = all_chars p a && all_chars p b.
Proof.
  induction a as [|c a IH]; [done|]. rewrite str_app_cons. simpl.
  by rewrite IH, andb_assoc.
Qed.

Lemma before_first_all sep s :
  all_chars (λ c, negb (sep c)) (before_first sep s) = true.
Proof.
  induction s as [|c s IH]; simpl; [done|].
  destruct (sep c) eqn:Hc; simpl; [done|]. by rewrite Hc.
Qed.

Lemma before_first_id sep s :
  all_chars (λ c, negb (sep c)) s = true → before_first sep s = s.
Proof.
  induction s as [|c s IH]; simpl; [done|].
  intros [Hc Hs]%andb_true_iff. destruct (sep c); [done|]. by rewrite IH.
Qed.

(** *** Slices, prefixes and suffixes *)

Lemma slice_to_length n s : String.length (slice_to n s) = n `min` String.length s.
Proof.
  revert n. induction s as [|c s IH]; intros [|n]; simpl; try done.
  by rewrite IH.
Qed.

Lemma slice_to_no_lead n s : no_lead_space s → no_lead_space (slice_to n s).
Proof. destruct s, n; simpl; done. Qed.

Lemma endswith_unfold s suf :
  endswith s suf =
  String.eqb s suf ||
  match s with "" => false | String _ r => endswith r suf end.
Proof. by destruct s. Qed.

Lemma endswith_length s suf :
  endswith s suf = true → String.length suf ≤ String.length s.
Proof.
  induction s as [|c s IH]; rewrite endswith_unfold.
  - rewrite orb_false_r. by intros ->%str_eqb_eq.
  - intros [->%str_eqb_eq | H]%orb_true_iff; [done|].
    specialize (IH H). simpl. lia.
Qed.

Lemma startswith_app s pre : startswith (pre +:+ s) pre = true.
Proof.
  induction pre as [|c pre IH]; [reflexivity|]. rewrite str_app_cons. simpl.
  rewrite Ascii.eqb_refl. exact IH.
Qed.

Lemma slice_from_app s pre : slice_from (String.length pre) (pre +:+ s) = s.
Proof.
  induction pre as [|c pre IH]; [by destruct s|]. rewrite str_app_cons. exact IH.
Qed.

(** *** Appending *)

Lemma rstrip_snoc_nonspace a c :
  is_space c = false → rstrip (a +:+ String c "") = a +:+ String c "".
Proof.
  intros Hc. induction a as [|x a IH].
  - simpl. by rewrite Hc.
  - rewrite str_app_cons, rstrip_unfold, IH. by destruct a.
Qed.

Lemma rstrip_snoc_space a c :
  is_space c = true → rstrip (a +:+ String c "") = rstrip a.
Proof.
  intros Hc. induction a as [|x a IH].
  - simpl. by rewrite Hc.
  - rewrite str_app_cons, !rstrip_unfold, IH. done.
Qed.

Lemma has_char_app ch a b :
  has_char ch (a +:+ b) = has_char ch a || has_char ch b.
Proof.
  induction a as [|x a IH]; [done|]. rewrite str_app_cons. simpl.
  by rewrite IH, orb_assoc.
Qed.

Lemma before_first_app sep a b :
  all_chars (λ c, negb (sep c)) a = true →
  before_first sep (a +:+ b) = a +:+ before_first sep b.
Proof.
  induction a as [|x a IH]; [done|]. rewrite !str_app_cons. simpl.
  intros [Hx Ha]%andb_true_iff. destruct (sep x); [done|]. by rewrite IH.
Qed.

Lemma lstrip_char_id ch s :
  startswith s (String ch "") = false → lstrip_char ch s = s.
Proof.
  destruct s as [|c s]; [done|]. simpl. rewrite andb_true_r. by intros ->.
Qed.

Lemma rstrip_char_id ch s :
  endswith s (String ch "") = false → rstrip_char ch s = s.
Proof.
  induction s as [|c s IH]; [done|]. rewrite endswith_unfold.
  intros [Hc Hs]%orb_false_iff. simpl. destruct s as [|c' s].
  - simpl. destruct (Ascii.eqb c ch) eqn:Heq; [|done].
    apply Ascii.eqb_eq in Heq as ->. by rewrite String.eqb_refl in Hc.
  - rewrite IH by done. done.
Qed.

Lemma snoc_inj_last a b c d :
  a +:+ String c "" = b +:+ String d "" → c = d.
Proof.
  revert b. induction a as [|x a IH]; intros [|y b]; rewrite ?str_app_cons.
  - by intros [= ->].
  - intros [= _ H]. by destruct b.
  - intros [= _ H]. by destruct a.
  - intros [= _ H]. by apply IH in H.
Qed.

Lemma dict_get_forall {V} (P : V → bool) (d : list (string * V)) k v :
  forallb (λ kv, P kv.2) d = true → dict_get d k = Some v → P v = true.
Proof.
  induction d as [|[k' v'] d IH]; [done|]. simpl.
  intros [Hv Hd]%andb_true_iff.
  destruct (dict_get d k) as [w|] eqn:Hw.
  - intros [= <-]. by apply IH.
  - destruct (String.eqb k' k); [|done]. by intros [= <-].
Qed.

(** *** Lines *)

Lemma split_nl_unfold c r :
  split_nl (String c r) =
  if Ascii.eqb c newline then "" :: split_nl r
  else match split_nl r with
       | [] => [String c ""]
       | l :: ls => String c l :: ls
       end.
Proof. reflexivity. Qed.

Lemma split_nl_not_nil s : split_nl s ≠ [].
Proof.
  destruct s as [|c r]; [done|]. rewrite split_nl_unfold.
  destruct (Ascii.eqb c newline); [done|]. by destruct (split_nl r).
Qed.

Lemma join_nl_cons l ls :
  ls ≠ [] → join_nl (l :: ls) = l +:+ String newline (join_nl ls).
Proof. by destruct ls. Qed.

Lemma join_split s : join_nl (split_nl s) = s.
Proof.
  induction s as [|c r IH]; [done|]. rewrite split_nl_unfold.
  destruct (Ascii.eqb c newline) eqn:Hc.
  - apply Ascii.eqb_eq in Hc as ->.
    rewrite join_nl_cons by apply split_nl_not_nil. by rewrite IH.
  - pose proof (split_nl_not_nil r) as Hne.
    destruct (split_nl r) as [|l ls]; [done|].
    destruct ls as [|l' ls]; simpl in *; [by rewrite IH|].
    rewrite <- IH. reflexivity.
Qed.

Lemma split_nl_no_newline s : Forall no_newline (split_nl s).
Proof.
  induction s as [|c r IH]; [by repeat constructor|].
  rewrite split_nl_unfold. destruct (Ascii.eqb c newline) eqn:Hc.
  - by constructor.
  - pose proof (split_nl_not_nil r) as Hne.
    destruct (split_nl r) as [|l ls]; [done|].
    inversion IH as [|?? Hl Hls]; subst. constructor; [|done].
    unfold no_newline in *. simpl. by rewrite Hc, Hl.
Qed.

Lemma split_nl_line l : no_newline l → split_nl l = [l].
Proof.
  unfold no_newline. induction l as [|c r IH]; [done|].
  simpl. intros [Hc Hr]%orb_false_iff. rewrite Hc, IH; done.
Qed.

Lemma split_nl_app_newline l r :
  no_newline l → split_nl (l +:+ String newline r) = l :: split_nl r.
Proof.
  unfold no_newline. induction l as [|c l IH]; [done|].
  rewrite str_app_cons. simpl. intros [Hc Hr]%orb_false_iff.
  rewrite Hc. fold split_nl. by rewrite IH.
Qed.

Lemma split_join ls :
  ls ≠ [] → Forall no_newline ls → split_nl (join_nl ls) = ls.
Proof.
  induction ls as [|l ls IH]; [done|]. intros _ Hall.
  inversion Hall as [|?? Hl Hls]; subst.
  destruct ls as [|l' ls]; [by apply split_nl_line|].
  rewrite join_nl_cons by done. rewrite split_nl_app_newline by done.
  by rewrite IH.
Qed.

Lemma join_nl_app xs ys :
  xs ≠ [] → ys ≠ [] →
  join_nl (xs ++ ys) = join_nl xs +:+ String newline (join_nl ys).
Proof.
  intros Hx Hy. induction xs as [|x xs IH]; [done|].
  destruct xs as [|x' xs].
  - simpl app. by rewrite join_nl_cons.
  - change ((x :: x' :: xs) ++ ys) with (x :: ((x' :: xs) ++ ys)).
    rewrite !join_nl_cons by done. rewrite IH by done.
    by rewrite str_app_assoc.
Qed.

(** *** Stripping a text and then splitting it into lines *)

Lemma rstrip_nil_lstrip s : rstrip s = "" → lstrip s = "".
Proof.
  induction s as [|c r IH]; [done|]. rewrite rstrip_unfold. simpl.
  destruct (rstrip r); [|done]. destruct (is_space c); [auto|done].
Qed.

Lemma lstrip_rstrip s : lstrip (rstrip s) = rstrip (lstrip s).
Proof.
  induction s as [|c r IH]; [done|]. rewrite rstrip_unfold. simpl lstrip at 2.
  destruct (is_space c) eqn:Hc.
  - destruct (rstrip r) as [|d r'] eqn:Hr.
    + rewrite rstrip_nil_lstrip by done. done.
    + rewrite <- IH. simpl. by rewrite Hc.
  - rewrite rstrip_unfold. destruct (rstrip r); simpl; by rewrite Hc.
Qed.

Lemma strip_alt s : strip s = lstrip (rstrip s).
Proof. by rewrite lstrip_rstrip. Qed.

Lemma lstrip_lines t :
  ∃ m, map lstrip (split_nl t) =
       replicate m "" ++ map lstrip (split_nl (lstrip t)).
Proof.
  induction t as [|c r IH]; [by exists 0|].
  simpl lstrip. destruct (is_space c) eqn:Hc; [|by exists 0].
  destruct IH as [m IH]. rewrite split_nl_unfold.
  destruct (Ascii.eqb c newline).
  - exists (S m). simpl. by rewrite IH.
  - exists m. pose proof (split_nl_not_nil r) as Hne.
    destruct (split_nl r) as [|l ls]; [done|].
    rewrite <- IH. simpl. by rewrite Hc.
Qed.

Lemma rstrip_lines t :
  ∃ m, map rstrip (split_nl t) =
       map rstrip (split_nl (rstrip t)) ++ replicate m "".
Proof.
  induction t as [|c r IH]; [by exists 0|].
  destruct IH as [m IH]. rewrite rstrip_unfold, split_nl_unfold.
  pose proof (split_nl_not_nil r) as Hne.
  destruct (rstrip r) as [|d r'] eqn:Hr.
  - simpl in IH. destruct (is_space c) eqn:Hc.
    + destruct (Ascii.eqb c newline).
      * exists (S m). simpl. by rewrite IH.
      * exists m. destruct (split_nl r) as [|l ls]; [done|].
        simpl in *. injection IH as Hl Hls. rewrite Hl, Hls.
        by rewrite Hc.
    + assert (Hn : Ascii.eqb c newline = false).
      { destruct (Ascii.eqb c newline) eqn:Hn; [|done].
        apply Ascii.eqb_eq in Hn as ->. done. }
      rewrite Hn. exists m. destruct (split_nl r) as [|l ls]; [done|].
      simpl in *. injection IH as Hl Hls. rewrite Hl, Hls, Hn. simpl.
      by rewrite Hc.
  - rewrite split_nl_unfold. destruct (Ascii.eqb c newline).
    + exists m. simpl. by rewrite IH.
    + exists m. pose proof (split_nl_not_nil (String d r')) as Hne'.
      destruct (split_nl r) as [|l ls]; [done|].
      destruct (split_nl (String d r')) as [|l' ls']; [done|].
      simpl in *. injection IH as Hl Hls. by rewrite Hl, Hls.
Qed.

Lemma strip_lines t :
  ∃ m1 m2, map strip (split_nl t) =
           replicate m1 "" ++ map strip (split_nl (strip t)) ++
           replicate m2 "".
Proof.
  destruct (lstrip_lines t) as [m1 H1].
  destruct (rstrip_lines (lstrip t)) as [m2 H2].
  exists m1, m2.
  assert (Hrep : ∀ (f : string → string) m,
            f "" = "" → map f (replicate m "") = replicate m "").
  { intros f m Hf. induction m as [|m IH]; simpl; [done|]. by rewrite Hf, IH. }
  transitivity (map rstrip (map lstrip (split_nl t))).
  { rewrite map_map. done. }
  rewrite H1, map_app, Hrep, map_map by done. f_equal.
  transitivity (map lstrip (map rstrip (split_nl (lstrip t)))).
  { rewrite map_map. apply map_ext. intros a. by rewrite lstrip_rstrip. }
  rewrite H2, map_app, Hrep, map_map by done. f_equal.
  apply map_ext. intros a. by rewrite lstrip_rstrip.
Qed.

(** A stripped string occurs among the stripped lines of a stripped text
    exactly when it occurs among the stripped lines of the text, the empty
    string apart. *)
Lemma elem_of_strip_lines t x :
  x ≠ "" →
  x ∈ map strip (split_nl (strip t)) ↔ x ∈ map strip (split_nl t).
Proof.
  intros Hx. destruct (strip_lines t) as (m1 & m2 & ->).
  rewrite !elem_of_app. split; [by auto|].
  intros [H|[H|H]]; [|done|]; by apply elem_of_replicate in H as [? _].
Qed.

(** *** More on stripping and prefixes *)

Lemma rstrip_prefix s : ∃ w, s = rstrip s +:+ w.
Proof.
  induction s as [|c r [w IH]]; [by exists ""|]. rewrite rstrip_unfold.
  destruct (rstrip r) as [|d r'] eqn:Hr.
  - destruct (is_space c).
    + by exists (String c r).
    + exists r. done.
  - exists w. rewrite str_app_cons. by rewrite <- IH.
Qed.

Lemma startswith_app_l a w p :
  startswith a p = true → startswith (a +:+ w) p = true.
Proof.
  revert a. induction p as [|x p IH]; intros a; [done|].
  destruct a as [|c a]; [done|]. rewrite str_app_cons. simpl.
  intros [-> H]%andb_true_iff. simpl. by apply IH.
Qed.

Lemma startswith_rstrip s p :
  startswith s p = false → startswith (rstrip s) p = false.
Proof.
  intros Hs. destruct (startswith (rstrip s) p) eqn:Hr; [|done].
  destruct (rstrip_prefix s) as [w Hw].
  apply (startswith_app_l _ w) in Hr. rewrite <- Hw in Hr. congruence.
Qed.

Lemma rstrip_app_keep a b :
  rstrip b = b → b ≠ "" → rstrip (a +:+ b) = a +:+ b.
Proof.
  intros Hb Hne. induction a as [|x a IH]; [done|].
  rewrite str_app_cons, rstrip_unfold, IH.
  destruct (a +:+ b) eqn:Hab; [|done]. destruct a; [done|discriminate].
Qed.

(** *** Reading a text line by line *)

Lemma readlines_unfold c r :
  readlines (String c r) =
  if Ascii.eqb c newline then String newline "" :: readlines r
  else if Ascii.eqb c carriage_return then
    String newline "" ::
    match r with
    | String c' r' => if Ascii.eqb c' newline then readlines r' else readlines r
    | "" => []
    end
  else match readlines r with
       | [] => [String c ""]
       | l :: ls => String c l :: ls
       end.
Proof. reflexivity. Qed.

Lemma readlines_not_nil c r : readlines (String c r) ≠ [].
Proof.
  rewrite readlines_unfold.
  destruct (Ascii.eqb c newline); [done|].
  destruct (Ascii.eqb c carriage_return); [done|].
  by destruct (readlines r).
Qed.

Lemma readlines_app_newline a b :
  readlines (a +:+ String newline b) =
  readlines (a +:+ String newline "") ++ readlines b.
Proof.
  induction a as [|c a IH]; [done|].
  rewrite !str_app_cons, !readlines_unfold.
  destruct (Ascii.eqb c newline); [by rewrite IH|].
  destruct (Ascii.eqb c carriage_return).
  - destruct a as [|c' a']; [done|].
    rewrite !str_app_cons in *.
    destruct (Ascii.eqb c' newline) eqn:Hc'; [|by rewrite IH].
    rewrite !readlines_unfold, Hc' in IH. simpl in IH.
    by injection IH as ->.
  - rewrite IH. pose proof (readlines_not_nil newline "") as Hne.
    destruct (readlines (a +:+ String newline "")) as [|l ls] eqn:Hl; [|done].
    destruct a; [done|]. by apply readlines_not_nil in Hl.
Qed.

Lemma readlines_app_terminated out b :
  terminated out → readlines (out +:+ b) = readlines out ++ readlines b.
Proof.
  intros [->|[a ->]]; [reflexivity|].
  rewrite str_app_assoc. change (String newline "" +:+ b) with (String newline b).
  apply readlines_app_newline.
Qed.

Lemma readlines_line l :
  line_text l = true →
  readlines (l +:+ String newline "") = [l +:+ String newline ""].
Proof.
  unfold line_text. rewrite andb_true_iff, !negb_true_iff.
  induction l as [|c l IH]; [done|]. simpl has_char.
  intros [[Hn Hl]%orb_false_iff [Hr Hl']%orb_false_iff].
  rewrite str_app_cons, readlines_unfold, Hn, Hr, IH by done. done.
Qed.

Lemma line_text_app a b :
  line_text (a +:+ b) = line_text a && line_text b.
Proof.
  unfold line_text. rewrite !has_char_app.
  destruct (has_char newline a), (has_char newline b),
    (has_char carriage_return a), (has_char carriage_return b); done.
Qed.

(** *** Decimal numerals *)

Lemma digit_line_text k acc :
  line_text acc = true → line_text (String (digit (k mod 10)) acc) = true.
Proof.
  intros Hacc. change (String ?c acc) with (String c "" +:+ acc).
  rewrite line_text_app, Hacc, andb_true_r.
  assert (Hk : k mod 10 < 10) by (apply Nat.mod_upper_bound; lia).
  remember (k mod 10) as m eqn:Hm. clear Hm.
  do 10 (destruct m as [|m]; [reflexivity|]). lia.
Qed.

Lemma str_of_nat_go_line_text fuel n acc :
  line_text acc = true → line_text (str_of_nat_go fuel n acc) = true.
Proof.
  revert n acc. induction fuel as [|fuel IH]; intros n acc Hacc; [done|].
  change (str_of_nat_go (S fuel) n acc) with
    (if n / 10 =? 0 then String (digit (n mod 10)) acc
     else str_of_nat_go fuel (n / 10) (String (digit (n mod 10)) acc)).
  destruct (n / 10 =? 0); [|apply IH]; by apply digit_line_text.
Qed.

Lemma str_of_nat_line_text n : line_text (str_of_nat n) = true.
Proof. by apply str_of_nat_go_line_text. Qed.

End PyStrFacts.

(** ** The name normaliser, the mapper and the diff engine *)

Module CheckDepsSpec.
Import PyStr PyStrPreds PyStrFacts CheckDeps CheckDepsPreds.

Lemma strip_version_constraint_chars dep :
  all_chars not_constraint (strip_version_constraint dep) = true.
Proof. apply all_chars_strip, before_first_all. Qed.

Lemma strip_version_constraint_no_lead dep :
  no_lead_space (strip_version_constraint dep).
Proof. apply strip_no_lead. Qed.

Lemma normalize_chars dep :
  all_chars not_constraint (normalize_dep_name dep) = true.
Proof.
  unfold normalize_dep_name.
  destruct (endswith _ _); [apply all_chars_slice_to|];
    apply strip_version_constraint_chars.
Qed.

Lemma normalize_no_lead dep : no_lead_space (normalize_dep_name dep).
Proof.
  unfold normalize_dep_name.
  destruct (endswith _ _); [apply slice_to_no_lead|];
    apply strip_version_constraint_no_lead.
Qed.

(** On a name without constraint characters and without leading
    whitespace, normalising only strips on the right and drops one [.so]. *)
Lemma normalize_of_name n :
  all_chars not_constraint n = true → no_lead_space n →
  normalize_dep_name n =
  if endswith (rstrip n) ".so" then drop_last 3 (rstrip n) else rstrip n.
Proof.
  intros Hc Hl. unfold normalize_dep_name, strip_version_constraint, strip.
  by rewrite before_first_id, lstrip_id.
Qed.

Lemma normalize_fixed_iff n :
  all_chars not_constraint n = true → no_lead_space n →
  normalize_dep_name n = n ↔ rstrip n = n ∧ endswith n ".so" = false.
Proof.
  intros Hc Hl. rewrite normalize_of_name by done. split.
  - destruct (endswith (rstrip n) ".so") eqn:He.
    + intros Heq. exfalso.
      apply endswith_length in He. simpl in He.
      assert (Hlen : String.length (drop_last 3 (rstrip n)) = String.length n)
        by (by rewrite Heq).
      unfold drop_last in Hlen. rewrite slice_to_length in Hlen.
      pose proof (rstrip_length n). lia.
    + intros Heq. rewrite Heq in He. done.
  - intros [Hr He]. rewrite Hr, He. done.
Qed.

(** Membership in the set one mapping loop builds. *)
Lemma elem_of_foldl_add_mapped (deps : list string) (acc : gset string) c :
  c ∈ foldl add_mapped acc deps ↔
  c ∈ acc ∨ (c ≠ "" ∧ ∃ dep, dep ∈ deps ∧ map_arch_to_rookery dep = Some c).
Proof.
  revert acc. induction deps as [|d deps IH]; intros acc; simpl.
  - split; [by left|]. intros [H|(_ & dep & Hin & _)]; [done|].
    by apply elem_of_nil in Hin.
  - rewrite IH. unfold add_mapped.
    destruct (map_arch_to_rookery d) as [m|] eqn:Hm.
    + destruct (String.eqb m "") eqn:Hempty.
      * apply str_eqb_eq in Hempty. subst m. split.
        -- intros [H|(Hne & dep & Hin & Hd)]; [by left|].
           right. split; [done|]. exists dep. split; [by right|done].
        -- intros [H|(Hne & dep & Hin & Hd)]; [by left|].
           apply elem_of_cons in Hin as [-> |Hin]; [congruence|].
           right. split; [done|]. by exists dep.
      * apply str_eqb_neq in Hempty. rewrite elem_of_union, elem_of_singleton.
        split.
        -- intros [[H| ->]|(Hne & dep & Hin & Hd)]; [by left| |].
           ++ right. split; [done|]. exists d. split; [by left|done].
           ++ right. split; [done|]. exists dep. split; [by right|done].
        -- intros [H|(Hne & dep & Hin & Hd)]; [by left; left|].
           apply elem_of_cons in Hin as [-> |Hin].
           ++ left. right. congruence.
           ++ right. split; [done|]. by exists dep.
    + split.
      * intros [H|(Hne & dep & Hin & Hd)]; [by left|].
        right. split; [done|]. exists dep. split; [by right|done].
      * intros [H|(Hne & dep & Hin & Hd)]; [by left|].
        apply elem_of_cons in Hin as [-> |Hin]; [congruence|].
        right. split; [done|]. by exists dep.
Qed.

Lemma elem_of_mapped_set deps c :
  c ∈ mapped_set deps ↔
  c ≠ "" ∧ ∃ dep, dep ∈ deps ∧ map_arch_to_rookery dep = Some c.
Proof.
  unfold mapped_set. rewrite elem_of_foldl_add_mapped.
  split; [intros [H|H]; [set_solver|done] | by right].
Qed.

Lemma elem_of_missing_depends rook_pkg arch_pkg d :
  d ∈ missing_depends (compare_dependencies rook_pkg arch_pkg) ↔
  (d ∈ mapped_set (arch_depends arch_pkg)) ∧
  (d ∉ dom (rook_depends rook_pkg)) ∧ (d ∉ dom (rook_build_depends rook_pkg)).
Proof.
  unfold compare_dependencies; simpl.
  rewrite list_elem_of_filter, elem_of_elements. tauto.
Qed.

Lemma elem_of_missing_build_depends rook_pkg arch_pkg d :
  d ∈ missing_build_depends (compare_dependencies rook_pkg arch_pkg) ↔
  (d ∈ mapped_set (arch_makedepends arch_pkg)) ∧
  (d ∉ dom (rook_build_depends rook_pkg)) ∧ (d ∉ dom (rook_depends rook_pkg)).
Proof.
  unfold compare_dependencies; simpl.
  rewrite list_elem_of_filter, elem_of_elements. tauto.
Qed.

Lemma elem_of_missing_optional rook_pkg arch_pkg d :
  d ∈ missing_optional (compare_dependencies rook_pkg arch_pkg) ↔
  (d ∈ mapped_set (arch_optdepends arch_pkg)) ∧
  (d ∉ dom (rook_optional_depends rook_pkg)) ∧ (d ∉ dom (rook_depends rook_pkg)).
Proof.
  unfold compare_dependencies; simpl.
  rewrite list_elem_of_filter, elem_of_elements. tauto.
Qed.

(** C1, as the code has it: a name declared in [depends] or in
    [build_depends] of the .rook file is reported neither as a missing
    runtime nor as a missing build dependency, and a name declared in
    [depends] is not reported as a missing optional dependency. *)
Theorem declared_dependency_not_missing rook_pkg arch_pkg d :
  d ∈ dom (rook_depends rook_pkg) ∨ d ∈ dom (rook_build_depends rook_pkg) →
  let diff := compare_dependencies rook_pkg arch_pkg in
  (d ∉ missing_depends diff) ∧
  (d ∉ missing_build_depends diff) ∧
  (d ∈ dom (rook_depends rook_pkg) → d ∉ missing_optional diff).
Proof.
  intros Hd diff. subst diff.
  rewrite elem_of_missing_depends, elem_of_missing_build_depends,
    elem_of_missing_optional.
  tauto.
Qed.

Lemma declared_dependency_not_missing_witness :
  let rook_pkg := rook_with {[ "qt6" := ">=1.0" ]} ∅ ∅ in
  let arch_pkg := arch_with ["qt6-base"] ["qt6-base"] ["qt6-base"] in
  let diff := compare_dependencies rook_pkg arch_pkg in
  ("qt6" ∉ missing_depends diff) ∧
  ("qt6" ∉ missing_build_depends diff) ∧
  ("qt6" ∈ dom (rook_depends rook_pkg) → "qt6" ∉ missing_optional diff).
Proof.
  intros rook_pkg arch_pkg.
  apply (declared_dependency_not_missing rook_pkg arch_pkg "qt6").
  left. apply elem_of_dom. exists ">=1.0". reflexivity.
Defined.

(** C1 as stated fails for the optional category: a name declared only in
    [build_depends] is still reported as a missing optional dependency. *)
Lemma build_dependency_reported_missing_optional :
  let rook_pkg := rook_with ∅ {[ "zzz" := ">= 1.0" ]} ∅ in
  let arch_pkg := arch_with [] [] ["zzz"] in
  "zzz" ∈ dom (rook_build_depends rook_pkg) ∧
  "zzz" ∈ missing_optional (compare_dependencies rook_pkg arch_pkg).
Proof.
  intros rook_pkg arch_pkg. split.
  - apply elem_of_dom. exists ">= 1.0". reflexivity.
  - apply elem_of_missing_optional. split; [|split].
    + apply elem_of_mapped_set. split; [done|].
      exists "zzz". split; [by left|]. vm_compute. reflexivity.
    + simpl. rewrite dom_empty. apply not_elem_of_empty.
    + simpl. rewrite dom_empty. apply not_elem_of_empty.
Qed.

(** C2, as the code has it: normalising a second time changes nothing
    exactly when the normalised name neither ends in whitespace nor in
    [.so]. *)
Theorem normalize_dep_name_idempotent_iff t :
  normalize_dep_name (normalize_dep_name t) = normalize_dep_name t ↔
  rstrip (normalize_dep_name t) = normalize_dep_name t ∧
  endswith (normalize_dep_name t) ".so" = false.
Proof.
  apply normalize_fixed_iff; [apply normalize_chars | apply normalize_no_lead].
Qed.

Lemma normalize_dep_name_idempotent_witness :
  normalize_dep_name (normalize_dep_name "libncursesw.so>=6.4") =
  normalize_dep_name "libncursesw.so>=6.4".
Proof.
  apply (normalize_dep_name_idempotent_iff "libncursesw.so>=6.4").
  split; reflexivity.
Defined.

(** C2 as stated fails: a doubled suffix loses one [.so] per pass, and the
    name left of a [.so] may end in whitespace. *)
Lemma normalize_dep_name_not_idempotent :
  normalize_dep_name "a.so.so" = "a.so" ∧
  normalize_dep_name (normalize_dep_name "a.so.so") = "a" ∧
  normalize_dep_name (normalize_dep_name "a.so.so")
    ≠ normalize_dep_name "a.so.so" ∧
  normalize_dep_name (normalize_dep_name "a .so") ≠ normalize_dep_name "a .so".
Proof. repeat split; try reflexivity; vm_compute; discriminate. Qed.

(** C6: no missing runtime dependency is reported when every mapped
    runtime candidate is declared in [depends] or [build_depends]; in the
    scenario of the specification the list is empty, both Qt modules map to
    [qt6] and the unknown shared library maps to nothing. *)
Theorem no_missing_depends_when_declared :
  (∀ rook_pkg arch_pkg,
     (∀ c, c ∈ mapped_set (arch_depends arch_pkg) →
           c ∈ dom (rook_depends rook_pkg) ∨
           c ∈ dom (rook_build_depends rook_pkg)) →
     missing_depends (compare_dependencies rook_pkg arch_pkg) = []) ∧
  missing_depends
    (compare_dependencies
       (rook_with {[ "qt6" := ">=1.0" ]} ∅ ∅)
       (arch_with ["qt6-declarative"; "unknown-lib.so"; "qt6-base"] [] []))
    = [] ∧
  map_arch_to_rookery "qt6-declarative" = Some "qt6" ∧
  map_arch_to_rookery "qt6-base" = Some "qt6" ∧
  map_arch_to_rookery "unknown-lib.so" = None ∧
  (∀ c, c ∈ mapped_set ["qt6-declarative"; "unknown-lib.so"; "qt6-base"] ↔
        c = "qt6").
Proof.
  assert (Hgen : ∀ rook_pkg arch_pkg,
     (∀ c, c ∈ mapped_set (arch_depends arch_pkg) →
           c ∈ dom (rook_depends rook_pkg) ∨
           c ∈ dom (rook_build_depends rook_pkg)) →
     missing_depends (compare_dependencies rook_pkg arch_pkg) = []).
  { intros rook_pkg arch_pkg Hall.
    destruct (missing_depends _) as [|d l] eqn:Hl; [done|].
    assert (Hd : d ∈ missing_depends (compare_dependencies rook_pkg arch_pkg))
      by (rewrite Hl; by left).
    apply elem_of_missing_depends in Hd as (Hm & H1 & H2).
    destruct (Hall d Hm); done. }
  assert (Hset : ∀ c,
     c ∈ mapped_set ["qt6-declarative"; "unknown-lib.so"; "qt6-base"] ↔
     c = "qt6").
  { intros c. rewrite elem_of_mapped_set. split.
    - intros (_ & dep & Hin & Hmap).
      repeat (apply elem_of_cons in Hin as [-> |Hin]);
        [vm_compute in Hmap; congruence ..|by apply elem_of_nil in Hin].
    - intros ->. split; [done|]. exists "qt6-base".
      split; [|reflexivity]. do 2 right. by left. }
  split; [exact Hgen|]. split;
    [|split; [|split; [|split]]; [reflexivity .. | exact Hset]].
  apply Hgen. intros c Hc. apply Hset in Hc as ->.
  left. apply elem_of_dom. exists ">=1.0". reflexivity.
Qed.

Lemma no_missing_depends_when_declared_witness :
  missing_depends
    (compare_dependencies
       (rook_with {[ "glib2" := ">= 2.78" ]} {[ "zlib" := ">= 1.3" ]} ∅)
       (arch_with ["libglib-2.0.so"; "libz.so"] [] []))
    = [].
Proof.
  apply (proj1 no_missing_depends_when_declared).
  intros c (_ & dep & Hin & Hmap)%elem_of_mapped_set.
  repeat (apply elem_of_cons in Hin as [-> |Hin]);
    [| |by apply elem_of_nil in Hin].
  - vm_compute in Hmap. injection Hmap as <-.
    left. apply elem_of_dom. exists ">= 2.78". reflexivity.
  - vm_compute in Hmap. injection Hmap as <-.
    right. apply elem_of_dom. exists ">= 1.3". reflexivity.
Defined.

(** C7: the four results of the mapper named by the specification, each
    with the table that decides it.  The [-devel] rule looks the stripped
    name up in the explicit table and nowhere else: [qt6-base-devel] maps
    as [qt6-base] does, while [gperf-devel] yields [gperf] although the
    mapper has no package for [gperf] itself. *)
Theorem map_arch_to_rookery_examples :
  (map_arch_to_rookery "libpng16.so" = Some "libpng" ∧
   dict_get ARCH_TO_ROOKERY "libpng16" = None ∧
   dict_get lib_mappings "libpng16" = Some (Some "libpng")) ∧
  (map_arch_to_rookery "qt6-declarative" = Some "qt6" ∧
   dict_get ARCH_TO_ROOKERY "qt6-declarative" = Some (Some "qt6")) ∧
  map_arch_to_rookery "python-pytest" = None ∧
  (map_arch_to_rookery "foo-devel" = Some "foo" ∧
   dict_get ARCH_TO_ROOKERY "foo-devel" = None ∧
   dict_get ARCH_TO_ROOKERY "foo" = None ∧
   map_by_name_rules "foo-devel" = Some (drop_last 6 "foo-devel")) ∧
  (map_arch_to_rookery "qt6-base-devel" = Some "qt6" ∧
   map_arch_to_rookery "gperf" = None ∧
   map_arch_to_rookery "gperf-devel" = Some "gperf").
Proof. repeat split; vm_compute; reflexivity. Qed.

(** The keys of the explicit table that end in [.so]. *)
Lemma explicit_so_keys :
  filter (λ k, endswith k ".so" = true) (ARCH_TO_ROOKERY.*1) =
  ["libavcodec.so"; "libavformat.so"; "libavutil.so"; "libswscale.so";
   "libswresample.so"].
Proof. vm_compute. reflexivity. Qed.

(** C8: the explicit table is consulted with the normalised name; when it
    has no entry, the shared-library table is consulted exactly when the
    token as given ends in [.so], and a name it lacks maps to nothing;
    otherwise the name rules decide.  So an explicit entry whose key ends
    in [.so] never applies to the token spelled like its key, which the
    shared-library table maps instead ([libavcodec.so] to [ffmpeg], not to
    nothing), and a versioned [libz.so=1-64] skips the shared-library
    table. *)
Theorem shared_library_branch_asymmetry :
  (∀ arch_dep,
     set_has IGNORE_PACKAGES (normalize_dep_name arch_dep) = false →
     match dict_get ARCH_TO_ROOKERY (normalize_dep_name arch_dep) with
     | Some result => map_arch_to_rookery arch_dep = result
     | None =>
         if endswith arch_dep ".so" then
           match dict_get lib_mappings (normalize_dep_name arch_dep) with
           | Some result => map_arch_to_rookery arch_dep = result
           | None => map_arch_to_rookery arch_dep = None
           end
         else
           map_arch_to_rookery arch_dep =
           map_by_name_rules (normalize_dep_name arch_dep)
     end) ∧
  (∀ k, k ∈ ARCH_TO_ROOKERY.*1 → endswith k ".so" = true →
        dict_get ARCH_TO_ROOKERY k = Some None ∧
        dict_get ARCH_TO_ROOKERY (normalize_dep_name k) = None ∧
        map_arch_to_rookery k =
        default None (dict_get lib_mappings (normalize_dep_name k)) ∧
        map_arch_to_rookery k = Some "ffmpeg") ∧
  (map_arch_to_rookery "libz.so" = Some "zlib" ∧
   normalize_dep_name "libz.so=1-64" = "libz" ∧
   endswith "libz.so=1-64" ".so" = false ∧
   map_arch_to_rookery "libz.so=1-64" = Some "libz").
Proof.
  split; [|split; [|repeat split; vm_compute; reflexivity]].
  - intros arch_dep Hign. unfold map_arch_to_rookery. rewrite Hign.
    destruct (dict_get ARCH_TO_ROOKERY _); [done|].
    destruct (endswith arch_dep ".so"); [|done].
    by destruct (dict_get lib_mappings _).
  - intros k Hk Hso.
    assert (Hin : k ∈ filter (λ k, endswith k ".so" = true)
                             (ARCH_TO_ROOKERY.*1))
      by (by apply list_elem_of_filter).
    rewrite explicit_so_keys in Hin.
    repeat (apply elem_of_cons in Hin as [-> |Hin]);
      [repeat split; vm_compute; reflexivity ..|by apply elem_of_nil in Hin].
Qed.

Lemma shared_library_branch_asymmetry_witness :
  map_arch_to_rookery "libfoo.so" = None.
Proof.
  exact (proj1 shared_library_branch_asymmetry "libfoo.so" eq_refl).
Defined.

End CheckDepsSpec.

(** ** The section patcher *)

Module FixDepsSpec.
Import PyStr PyStrPreds PyStrFacts FixDeps FixDepsPreds.

(** *** The patcher on a sample text *)

Example find_section_end_sample :
  find_section_end sample_rook "depends" =
    Some (3, 7, join_nl ["# libraries"; "zlib = v"]) ∧
  find_section_end sample_rook "build_depends" = Some (7, 9, "cmake = v") ∧
  find_section_end sample_rook "optional_depends" = None.
Proof. repeat split; reflexivity. Qed.

Example get_existing_deps_sample :
  get_existing_deps sample_rook "depends" = {[ "zlib" ]} ∧
  get_existing_deps sample_rook "optional_depends" = ∅.
Proof. split; vm_compute; reflexivity. Qed.

Example entry_line_sample :
  entry_line "zlib" = "zlib = " +:+ String dquote (">= 1.3" +:+ String dquote "") ∧
  entry_line "attr" = "attr = " +:+ String dquote (">= 2.5" +:+ String dquote "") ∧
  entry_line "foo" = "foo = " +:+ String dquote (">= 1.0" +:+ String dquote "").
Proof. repeat split; reflexivity. Qed.

Example add_deps_to_section_sample :
  add_deps_to_section sample_rook "depends" ["openssl"; "zlib"; "attr"] =
  (join_nl ["[package]"; "name = x"; ""; "[depends]"; "# libraries";
            "zlib = v"; entry_line "attr"; entry_line "openssl"; "";
            "[build_depends]"; "cmake = v"], []).
Proof. vm_compute. reflexivity. Qed.

Example fix_content_sample :
  fix_content sample_rook
    {| name := "x"; missing_depends := ["cmake"; "x"; "libz"; "curl"];
       missing_build_depends := ["curl"]; missing_optional := ["zlib"] |} =
  join_nl ["[package]"; "name = x"; ""; "[depends]"; "# libraries";
           "zlib = v"; entry_line "curl"; ""; "[build_depends]"; "cmake = v";
           entry_line "curl"].
Proof. vm_compute. reflexivity. Qed.

Lemma scan_section_cons header line rest i st :
  scan_section header (line :: rest) i st =
  if String.eqb (strip line) header then
    scan_section header rest (S i) (Some i)
  else if bool_decide (is_Some st) && top_level (strip line) then (st, Some i)
  else scan_section header rest (S i) st.
Proof. simpl. unfold top_level. by rewrite andb_assoc. Qed.

Lemma scan_section_app header A B i st :
  scan_section header (A ++ B) i st =
  match scan_section header A i st with
  | (st', Some k) => (st', Some k)
  | (st', None) => scan_section header B (i + length A) st'
  end.
Proof.
  revert i st. induction A as [|a A IH]; intros i st.
  - simpl. by rewrite Nat.add_0_r.
  - rewrite <- app_comm_cons, !scan_section_cons.
    replace (i + length (a :: A)) with (S i + length A) by (simpl; lia).
    destruct (String.eqb (strip a) header); [apply IH|].
    destruct (bool_decide (is_Some st) && top_level (strip a)); [done|].
    apply IH.
Qed.

Lemma scan_section_body header body rest i s found_end :
  Forall (body_line header) body →
  ends_at header rest found_end (i + length body) →
  scan_section header (body ++ rest) i (Some s) = (Some s, found_end).
Proof.
  revert i. induction body as [|l body IH]; intros i Hbody Hend.
  - simpl in *. rewrite Nat.add_0_r in Hend.
    destruct Hend as [[-> ->]|(t & rest' & -> & Ht & Htop & ->)]; [done|].
    rewrite scan_section_cons, Ht, Htop.
    rewrite bool_decide_eq_true_2 by eauto. done.
  - inversion Hbody as [|?? [Hl Htop] Hbody']; subst.
    rewrite <- app_comm_cons, scan_section_cons, Hl, Htop, andb_false_r.
    apply IH; [done|]. by replace (S i + length body)
      with (i + length (l :: body)) by (simpl; lia).
Qed.

Lemma scan_section_found header lines i st s found_end :
  scan_section header lines i st = (Some s, found_end) →
  (st = Some s ∧
   ∃ body rest, lines = body ++ rest ∧ Forall (body_line header) body ∧
                ends_at header rest found_end (i + length body)) ∨
  (∃ pre h body rest st',
     lines = pre ++ h :: body ++ rest ∧ s = i + length pre ∧
     scan_section header pre i st = (st', None) ∧ strip h = header ∧
     Forall (body_line header) body ∧
     ends_at header rest found_end (s + 1 + length body)).
Proof.
  revert i st. induction lines as [|line lines IH]; intros i st.
  - simpl. intros [= -> <-]. left. split; [done|].
    exists [], []. split; [done|]. split; [constructor|by left].
  - rewrite scan_section_cons.
    destruct (String.eqb (strip line) header) eqn:Hh.
    + intros Hscan. right.
      destruct (IH _ _ Hscan)
        as [([= <-] & body & rest & -> & Hbody & Hend)
           |(pre & h & body & rest & st' & -> & -> & Hpre & Hhdr & Hbody & Hend)].
      * exists [], line, body, rest, st. simpl.
        rewrite Nat.add_0_r. apply str_eqb_eq in Hh.
        replace (i + 1 + length body) with (S i + length body) by lia.
        done.
      * exists (line :: pre), h, body, rest, st'.
        rewrite scan_section_cons, Hh. simpl.
        replace (i + S (length pre)) with (S i + length pre) by lia.
        done.
    + destruct (bool_decide (is_Some st) && top_level (strip line)) eqn:Hb.
      * intros [= -> <-]. left. split; [done|].
        apply andb_true_iff in Hb as [_ Htop].
        exists [], (line :: lines). split; [done|]. split; [constructor|].
        right. exists line, lines. simpl. by rewrite Nat.add_0_r.
      * intros Hscan.
        destruct (IH _ _ Hscan)
          as [(-> & body & rest & -> & Hbody & Hend)
             |(pre & h & body & rest & st' & -> & -> & Hpre & Hhdr & Hbody & Hend)].
        -- left. split; [done|].
           rewrite bool_decide_eq_true_2 in Hb by eauto. simpl in Hb.
           exists (line :: body), rest. split; [done|]. split.
           ++ constructor; [by split|done].
           ++ by replace (i + length (line :: body))
                with (S i + length body) by (simpl; lia).
        -- right. exists (line :: pre), h, body, rest, st'.
           rewrite scan_section_cons, Hh, Hb. simpl.
           replace (i + S (length pre)) with (S i + length pre) by lia.
           done.
Qed.

Lemma scan_section_at header lines s found_end :
  scan_section header lines 0 None = (Some s, found_end) →
  ∃ pre h body rest,
    lines = pre ++ h :: body ++ rest ∧ s = length pre ∧
    section_at header pre h body rest found_end.
Proof.
  intros Hscan. apply scan_section_found in Hscan
    as [([=] & _)|(pre & h & body & rest & st' & -> & -> & Hpre & Hh & Hb & He)].
  exists pre, h, body, rest. simpl in *. split; [done|]. split; [done|].
  split; eauto.
Qed.

Lemma section_at_scan header pre h body rest found_end :
  section_at header pre h body rest found_end →
  scan_section header (pre ++ h :: body ++ rest) 0 None =
  (Some (length pre), found_end).
Proof.
  intros [[st Hpre] Hh Hbody Hend].
  rewrite scan_section_app, Hpre. change (0 + length pre) with (length pre).
  rewrite scan_section_cons. apply str_eqb_eq in Hh. rewrite Hh.
  apply scan_section_body; [done|].
  by replace (S (length pre) + length body)
    with (length pre + 1 + length body) by lia.
Qed.

(** Without a header line there is no section. *)
Lemma scan_section_absent header lines i :
  Forall (λ l, strip l ≠ header) lines →
  scan_section header lines i None = (None, None).
Proof.
  revert i. induction lines as [|l lines IH]; intros i Hl; [done|].
  inversion Hl as [|?? Hne Hl']; subst. apply str_eqb_neq in Hne.
  rewrite scan_section_cons, Hne. simpl. by apply IH.
Qed.

(** *** [find_section_end] *)

Lemma slice_body {A} (pre : list A) h body rest :
  slice (length pre + 1) (length pre + 1 + length body)
        (pre ++ h :: body ++ rest) = body.
Proof.
  unfold slice.
  replace (length pre + 1 + length body - (length pre + 1))
    with (length body) by lia.
  replace (pre ++ h :: body ++ rest) with ((pre ++ [h]) ++ body ++ rest)
    by (by rewrite <- app_assoc).
  rewrite drop_app_length' by (rewrite length_app; simpl; lia).
  by rewrite take_app_length.
Qed.

Lemma find_section_end_at content section_name pre h body rest found_end :
  split_nl content = pre ++ h :: body ++ rest →
  section_at (header_of section_name) pre h body rest found_end →
  find_section_end content section_name =
  Some (length pre, length pre + 1 + length body, strip (join_nl body)).
Proof.
  intros Hlines Hsec. unfold find_section_end. fold (header_of section_name).
  rewrite Hlines, (section_at_scan _ _ _ _ _ _ Hsec).
  assert (Hend : default (length (pre ++ h :: body ++ rest)) found_end =
                 length pre + 1 + length body).
  { destruct Hsec as [_ _ _ [[-> ->]|(t & rest' & _ & _ & _ & ->)]]; [|done].
    simpl. rewrite length_app. simpl. rewrite length_app. simpl. lia. }
  rewrite Hend, slice_body. done.
Qed.

Lemma find_section_end_some content section_name s e c :
  find_section_end content section_name = Some (s, e, c) →
  ∃ pre h body rest found_end,
    split_nl content = pre ++ h :: body ++ rest ∧
    section_at (header_of section_name) pre h body rest found_end ∧
    s = length pre ∧ e = length pre + 1 + length body ∧
    c = strip (join_nl body).
Proof.
  intros Hfind. pose proof Hfind as Hfind'. unfold find_section_end in Hfind.
  fold (header_of section_name) in Hfind.
  destruct (scan_section _ _ 0 None) as [[s'|] fe] eqn:Hscan; [|done].
  apply scan_section_at in Hscan as (pre & h & body & rest & Hl & -> & Hsec).
  exists pre, h, body, rest, fe. split; [done|]. split; [done|].
  rewrite (find_section_end_at _ _ _ _ _ _ _ Hl Hsec) in Hfind'.
  by injection Hfind' as <- <- <-.
Qed.

Lemma find_section_end_absent content section_name :
  Forall (λ l, strip l ≠ header_of section_name) (split_nl content) →
  find_section_end content section_name = None.
Proof.
  intros H. unfold find_section_end. fold (header_of section_name).
  by rewrite scan_section_absent.
Qed.

(** *** [get_existing_deps] *)

Lemma elem_of_foldl_add_existing (lines : list string) (acc : gset string) k :
  k ∈ foldl add_existing acc lines ↔
  k ∈ acc ∨ ∃ l, l ∈ lines ∧ is_entry (strip l) = true ∧
                 k = entry_key (strip l).
Proof.
  revert acc. induction lines as [|l lines IH]; intros acc; simpl.
  - split; [by left|]. intros [H|(l & Hin & _)]; [done|].
    by apply elem_of_nil in Hin.
  - rewrite IH. unfold add_existing. fold (is_entry (strip l)).
    destruct (is_entry (strip l)) eqn:He.
    + rewrite elem_of_union, elem_of_singleton. split.
      * intros [[H| ->]|(l' & Hin & He' & ->)]; [by left| |].
        -- right. exists l. split; [by left|done].
        -- right. exists l'. split; [by right|done].
      * intros [H|(l' & Hin & He' & ->)]; [by left; left|].
        apply elem_of_cons in Hin as [-> |Hin]; [by left; right|].
        right. exists l'. done.
    + split.
      * intros [H|(l' & Hin & He' & ->)]; [by left|].
        right. exists l'. split; [by right|done].
      * intros [H|(l' & Hin & He' & ->)]; [by left|].
        apply elem_of_cons in Hin as [-> |Hin]; [congruence|].
        right. exists l'. done.
Qed.

(** The keys found in a section are those of its entry lines. *)
Lemma elem_of_section_keys (body : list string) k :
  Forall no_newline body →
  k ∈ foldl add_existing ∅ (split_nl (strip (join_nl body))) ↔
  ∃ l, l ∈ body ∧ is_entry (strip l) = true ∧ k = entry_key (strip l).
Proof.
  intros Hnl. rewrite elem_of_foldl_add_existing.
  assert (Hne : ∀ x, is_entry x = true → x ≠ "") by (by intros x Hx ->).
  split.
  - intros [H|(l & Hin & He & ->)]; [set_solver|].
    assert (Hs : strip l ∈ map strip (split_nl (strip (join_nl body))))
      by (apply list_elem_of_fmap; eauto).
    apply (proj1 (elem_of_strip_lines _ _ (Hne _ He))) in Hs.
    apply list_elem_of_fmap in Hs as (l' & Heq & Hin').
    destruct body as [|b body].
    + simpl in Hin'. apply list_elem_of_singleton in Hin' as ->.
      rewrite Heq in He. done.
    + rewrite split_join in Hin' by done.
      exists l'. rewrite <- Heq. done.
  - intros (l & Hin & He & ->). right.
    assert (Hs : strip l ∈ map strip (split_nl (strip (join_nl body)))).
    { apply (proj2 (elem_of_strip_lines _ _ (Hne _ He))).
      rewrite split_join; [by apply list_elem_of_fmap; eauto| |done].
      intros ->. by apply elem_of_nil in Hin. }
    apply list_elem_of_fmap in Hs as (l' & Heq & Hin').
    exists l'. rewrite <- Heq. done.
Qed.

Lemma section_body_no_newline content (pre : list string) h body rest :
  split_nl content = pre ++ h :: body ++ rest → Forall no_newline body.
Proof.
  intros Hl. pose proof (split_nl_no_newline content) as Hall.
  rewrite Hl in Hall.
  apply Forall_app in Hall as [_ Hall]. apply Forall_cons in Hall as [_ Hall].
  by apply Forall_app in Hall as [Hall _].
Qed.

Lemma elem_of_get_existing_deps content section_name pre h body rest fe k :
  split_nl content = pre ++ h :: body ++ rest →
  section_at (header_of section_name) pre h body rest fe →
  k ∈ get_existing_deps content section_name ↔
  ∃ l, l ∈ body ∧ is_entry (strip l) = true ∧ k = entry_key (strip l).
Proof.
  intros Hl Hsec. unfold get_existing_deps.
  rewrite (find_section_end_at _ _ _ _ _ _ _ Hl Hsec).
  apply elem_of_section_keys. by eapply section_body_no_newline.
Qed.

Lemma get_existing_deps_absent content section_name :
  find_section_end content section_name = None →
  get_existing_deps content section_name = ∅.
Proof. intros H. unfold get_existing_deps. by rewrite H. Qed.

(** *** The insertion point *)

Lemma insert_point_loop (lines body : list string) (base : nat) :
  (∀ j l, body !! j = Some l → lines !! (base + j) = Some l) →
  ∃ kept tail,
    body = kept ++ tail ∧
    foldl (λ insert_at i,
             if is_content (strip (default "" (lines !! i)))
             then i + 1 else insert_at)
          base (seq base (length body)) = base + length kept ∧
    Forall not_content tail ∧ ends_with_content kept.
Proof.
  induction body as [|x body IH] using rev_ind; intros Hlook.
  - exists [], []. simpl. rewrite Nat.add_0_r.
    repeat split; [constructor|by left].
  - destruct IH as (kept & tail & -> & Hfold & Htail & Hkept).
    { intros j l Hj. apply Hlook. by apply lookup_app_l_Some. }
    rewrite length_app. simpl length. rewrite seq_app, foldl_app. simpl.
    rewrite Hfold.
    rewrite (Hlook (length (kept ++ tail)) x)
      by (rewrite lookup_app_r, Nat.sub_diag by lia; done).
    simpl. destruct (is_content (strip x)) eqn:Hx.
    + exists ((kept ++ tail) ++ [x]), [].
      rewrite app_nil_r.
      split; [done|]. split; [rewrite !length_app; simpl; lia|].
      split; [constructor|].
      right. eauto.
    + exists kept, (tail ++ [x]). rewrite <- app_assoc.
      split; [done|]. split; [done|]. split; [|done].
      apply Forall_app. split; [done|]. by repeat constructor.
Qed.

Lemma find_insert_at_section (pre : list string) h body rest :
  ∃ kept tail,
    body = kept ++ tail ∧
    find_insert_at (pre ++ h :: body ++ rest)
                   (length pre) (length pre + 1 + length body) =
    length pre + 1 + length kept ∧
    Forall not_content tail ∧ ends_with_content kept.
Proof.
  unfold find_insert_at.
  replace (length pre + 1 + length body - (length pre + 1))
    with (length body) by lia.
  apply insert_point_loop. intros j l Hj.
  replace (pre ++ h :: body ++ rest) with ((pre ++ [h]) ++ body ++ rest)
    by (by rewrite <- app_assoc).
  rewrite lookup_app_r by (rewrite length_app; simpl; lia).
  rewrite length_app. simpl.
  replace (length pre + 1 + j - (length pre + 1)) with j by lia.
  by apply lookup_app_l_Some.
Qed.

Lemma insert_lines_loop (new_lines lines : list string) (i : nat) :
  i ≤ length lines →
  foldl (λ '(lines, insert_at) new_line,
           (list_insert_at insert_at new_line lines, insert_at + 1))
        (lines, i) new_lines =
  (take i lines ++ new_lines ++ drop i lines, i + length new_lines).
Proof.
  revert lines i. induction new_lines as [|x new_lines IH]; intros lines i Hi.
  - simpl. by rewrite take_drop, Nat.add_0_r.
  - simpl. unfold list_insert_at at 2. rewrite IH.
    + f_equal; [|lia].
      replace (i + 1) with (length (take i lines) + 1)
        by (rewrite length_take; lia).
      replace (take i lines ++ x :: drop i lines)
        with ((take i lines ++ [x]) ++ drop i lines)
        by (by rewrite <- app_assoc).
      rewrite take_app_length', drop_app_length'
        by (rewrite length_app; simpl; lia).
      by rewrite <- app_assoc.
    + rewrite length_app, length_take. simpl. rewrite length_drop. lia.
Qed.

(** *** [add_deps_to_section], case by case *)

Lemma add_deps_to_section_cases content section_name deps :
  (new_deps content section_name deps = [] ∧
   add_deps_to_section content section_name deps = (content, [])) ∨
  (new_deps content section_name deps ≠ [] ∧
   find_section_end content section_name = None ∧
   add_deps_to_section content section_name deps =
   (content, [warning section_name])) ∨
  (new_deps content section_name deps ≠ [] ∧
   ∃ pre h kept tail rest found_end,
     split_nl content = pre ++ h :: (kept ++ tail) ++ rest ∧
     section_at (header_of section_name) pre h (kept ++ tail) rest found_end ∧
     Forall not_content tail ∧ ends_with_content kept ∧
     add_deps_to_section content section_name deps =
     (join_nl (pre ++ h :: kept ++
               map entry_line (sorted (new_deps content section_name deps)) ++
               tail ++ rest), [])).
Proof.
  unfold add_deps_to_section. fold (new_deps content section_name deps).
  destruct deps as [|d0 deps0] eqn:Hdeps; [by left|]. rewrite <- Hdeps.
  destruct (new_deps content section_name deps) as [|n0 new0] eqn:Hnew;
    [by left|].
  rewrite <- Hnew. right.
  assert (Hne : new_deps content section_name deps ≠ []) by (by rewrite Hnew).
  destruct (find_section_end content section_name) as [[[s e] c]|] eqn:Hfind;
    [right|by left].
  split; [done|].
  apply find_section_end_some
    in Hfind as (pre & h & body & rest & fe & Hl & Hsec & -> & -> & _).
  destruct (find_insert_at_section pre h body rest)
    as (kept & tail & -> & Hins & Htail & Hkept).
  exists pre, h, kept, tail, rest, fe.
  split; [done|]. split; [done|]. split; [done|]. split; [done|].
  rewrite Hl, Hins, insert_lines_loop.
  - f_equal. f_equal.
    replace (pre ++ h :: (kept ++ tail) ++ rest)
      with ((pre ++ h :: kept) ++ tail ++ rest)
      by (by rewrite <- !app_assoc).
    rewrite take_app_length', drop_app_length'
      by (rewrite length_app; simpl; lia).
    by rewrite <- app_assoc.
  - rewrite !length_app. simpl. rewrite !length_app. lia.
Qed.

Lemma sorted_nil (l : list string) : sorted l = [] → l = [].
Proof.
  intros H. apply Permutation_nil_r. rewrite <- H. unfold sorted.
  symmetry. apply merge_sort_Permutation.
Qed.

Lemma elem_of_sorted (l : list string) x : x ∈ sorted l ↔ x ∈ l.
Proof. unfold sorted. by rewrite merge_sort_Permutation. Qed.

(** Inserting a block of lines is inserting a piece of text. *)
Lemma join_nl_insert (A added B : list string) :
  A ≠ [] → added ≠ [] →
  ∃ before inserted after,
    join_nl (A ++ B) = before +:+ after ∧
    join_nl (A ++ added ++ B) = before +:+ inserted +:+ after ∧
    ((inserted = String newline (join_nl added) ∧ after = "") ∨
     inserted = join_nl added +:+ String newline "").
Proof.
  intros HA Hadd. destruct B as [|b B].
  - exists (join_nl A), (String newline (join_nl added)), "".
    rewrite !app_nil_r, !str_app_nil_r. split; [done|].
    split; [by apply join_nl_app|by left].
  - exists (join_nl A +:+ String newline ""),
           (join_nl added +:+ String newline ""), (join_nl (b :: B)).
    split; [|split; [|by right]].
    + rewrite join_nl_app by done. by rewrite str_app_assoc.
    + rewrite join_nl_app by (try done; by destruct added).
      rewrite join_nl_app by done. by rewrite !str_app_assoc.
Qed.

(** C9: when no line of the text, stripped, is the header of the section,
    the text comes back unchanged; the call returns normally and prints the
    warning (when it was given a name to add; no existing key can hide one,
    since an absent section has none). *)
Theorem absent_section_unchanged content section_name deps :
  Forall (λ line, strip line ≠ "[" +:+ section_name +:+ "]")
         (split_nl content) →
  add_deps_to_section content section_name deps =
  (content,
   match deps with
   | [] => []
   | _ :: _ => ["    Warning: Section [" +:+ section_name +:+ "] not found"]
   end).
Proof.
  intros Habs. apply find_section_end_absent in Habs.
  unfold add_deps_to_section.
  rewrite (get_existing_deps_absent _ _ Habs), Habs.
  destruct deps as [|d deps]; [done|].
  by rewrite filter_cons_True by set_solver.
Qed.

Lemma absent_section_unchanged_witness :
  let content := join_nl ["[package]"; "name = x"; ""; "[depends]"; "a = b"] in
  add_deps_to_section content "build_depends" ["cmake"] =
  (content, ["    Warning: Section [build_depends] not found"]).
Proof.
  intros content.
  apply (absent_section_unchanged content "build_depends" ["cmake"]).
  vm_compute. repeat constructor; discriminate.
Defined.

(** *** Entry lines of well-formed keys *)

Lemma version_of_no_newline dep : no_newline (version_of dep).
Proof.
  unfold version_of, no_newline.
  destruct (dict_get known_versions dep) as [v|] eqn:Hv; [|done].
  apply negb_true_iff.
  apply (dict_get_forall (λ v, negb (has_char newline v)) known_versions dep);
    [reflexivity|exact Hv].
Qed.

Lemma entry_line_snoc dep :
  entry_line dep =
  (dep +:+ " = " +:+ String dquote (">= " +:+ version_of dep)) +:+
  String dquote "".
Proof.
  unfold entry_line. fold (version_of dep). by rewrite !str_app_assoc.
Qed.

Lemma has_char_false_all ch s :
  has_char ch s = false → all_chars (λ c, negb (Ascii.eqb ch c)) s = true.
Proof.
  induction s as [|c s IH]; [done|]. simpl.
  intros [Hc Hs]%orb_false_iff. rewrite IH by done.
  by rewrite Ascii.eqb_sym, Hc.
Qed.

Lemma header_of_snoc section_name :
  header_of section_name = ("[" +:+ section_name) +:+ "]".
Proof. unfold header_of. by rewrite str_app_assoc. Qed.

Lemma entry_line_plain dep :
  plain_key dep = true →
  no_newline (entry_line dep) ∧
  strip (entry_line dep) = entry_line dep ∧
  is_entry (entry_line dep) = true ∧
  entry_key (entry_line dep) = dep ∧
  ∀ section_name, body_line (header_of section_name) (entry_line dep).
Proof.
  unfold plain_key. rewrite !andb_true_iff, !negb_true_iff.
  intros [[[[[[[Hne Hstrip] Heq] Hnl] Hhash] Hbr] Hq1] Hq2].
  apply str_eqb_neq in Hne. apply str_eqb_eq in Hstrip.
  apply strip_id_inv in Hstrip as [Hlead Hrs].
  destruct dep as [|c0 dep']; [done|]. simpl in Hlead.
  assert (Hs : strip (entry_line (String c0 dep')) = entry_line (String c0 dep')).
  { apply strip_id; [exact Hlead|].
    rewrite entry_line_snoc. by apply rstrip_snoc_nonspace. }
  split; [|split; [done|split; [|split]]].
  - unfold no_newline, entry_line. fold (version_of (String c0 dep')).
    rewrite has_char_app, Hnl.
    transitivity (has_char newline
                    (version_of (String c0 dep') +:+ String dquote ""));
      [reflexivity|].
    rewrite has_char_app. by rewrite version_of_no_newline.
  - unfold is_entry, is_content, entry_line. rewrite has_char_app.
    apply andb_true_iff. split; [|by rewrite orb_true_r].
    simpl in Hhash |- *. by rewrite Hhash.
  - unfold entry_key, entry_line.
    rewrite before_first_app by (by apply has_char_false_all).
    change (before_first _ (" = " +:+ _)) with " ".
    unfold strip. rewrite lstrip_id by exact Hlead.
    rewrite rstrip_snoc_space, Hrs by done.
    unfold strip_char. by rewrite lstrip_char_id, rstrip_char_id.
  - intros section_name. unfold body_line. rewrite Hs. split.
    + apply str_eqb_neq. rewrite entry_line_snoc, header_of_snoc.
      intros Habs%snoc_inj_last. discriminate.
    + unfold top_level, entry_line. simpl in Hbr |- *. by rewrite Hbr.
Qed.

(** After a patch, every name that was asked for is a key of the section. *)
Lemma patched_section_has_keys content section_name deps
    pre h kept tail rest found_end :
  Forall (λ d, plain_key d = true) deps →
  split_nl content = pre ++ h :: (kept ++ tail) ++ rest →
  section_at (header_of section_name) pre h (kept ++ tail) rest found_end →
  new_deps
    (join_nl (pre ++ h :: kept ++
              map entry_line (sorted (new_deps content section_name deps)) ++
              tail ++ rest))
    section_name deps = [].
Proof.
  intros Hplain Hl Hsec.
  set (added := map entry_line (sorted (new_deps content section_name deps))).
  set (content' := join_nl (pre ++ h :: kept ++ added ++ tail ++ rest)).
  assert (Hadded : ∀ l, l ∈ added → ∃ d, l = entry_line d ∧ d ∈ deps ∧
                                         plain_key d = true).
  { intros l (d & -> & Hd)%list_elem_of_fmap. exists d. split; [done|].
    apply elem_of_sorted, list_elem_of_filter in Hd as [_ Hd].
    split; [done|]. by apply (proj1 (Forall_forall _ _) Hplain). }
  assert (Hnl : Forall no_newline (pre ++ h :: kept ++ added ++ tail ++ rest)).
  { pose proof (split_nl_no_newline content) as Hall. rewrite Hl in Hall.
    apply Forall_app in Hall as [Hpre Hall].
    apply Forall_cons in Hall as [Hh Hall].
    apply Forall_app in Hall as [Hbody Hrest].
    apply Forall_app in Hbody as [Hkept Htail].
    apply Forall_app. split; [done|]. apply Forall_cons. split; [done|].
    apply Forall_app. split; [done|]. apply Forall_app. split.
    - apply Forall_forall. intros l (d & -> & _ & Hd)%Hadded.
      by apply entry_line_plain.
    - apply Forall_app. done. }
  assert (Hl' : split_nl content' =
                pre ++ h :: (kept ++ added ++ tail) ++ rest).
  { unfold content'. rewrite split_join by (done || by destruct pre).
    by rewrite <- !app_assoc. }
  destruct Hsec as [Hpre Hh Hbody Hend].
  apply Forall_app in Hbody as [Hkept Htail].
  assert (Hsec' : ∃ fe', section_at (header_of section_name) pre h
                           (kept ++ added ++ tail) rest fe').
  { exists (match found_end with
            | Some _ => Some (length pre + 1 + length (kept ++ added ++ tail))
            | None => None
            end).
    split; [done|done| |].
    - apply Forall_app. split; [done|]. apply Forall_app. split; [|done].
      apply Forall_forall. intros l (d & -> & _ & Hd)%Hadded.
      by apply entry_line_plain.
    - destruct Hend as [[-> ->]|(t & rest' & -> & Ht & Htop & ->)];
        [by left|].
      right. exists t, rest'. done. }
  destruct Hsec' as [fe' Hsec'].
  unfold new_deps. fold content'.
  destruct (filter _ deps) as [|d l] eqn:Hf; [done|]. exfalso.
  assert (Hd : d ∈ filter (λ d, d ∉ get_existing_deps content' section_name)
                          deps) by (rewrite Hf; by left).
  apply list_elem_of_filter in Hd as [Hnot Hd]. apply Hnot.
  apply (elem_of_get_existing_deps _ _ _ _ _ _ _ _ Hl' Hsec').
  destruct (decide (d ∈ get_existing_deps content section_name)) as [Hex|Hex].
  - apply (elem_of_get_existing_deps _ _ pre h (kept ++ tail) rest found_end)
      in Hex as (l0 & Hin & He & Hk); [|done|by split; [| |apply Forall_app|]].
    exists l0. split; [|done].
    rewrite elem_of_app in Hin. rewrite !elem_of_app. tauto.
  - exists (entry_line d).
    assert (Hp : plain_key d = true)
      by (by apply (proj1 (Forall_forall _ _) Hplain)).
    destruct (entry_line_plain d Hp) as (_ & Hs & He & Hk & _).
    rewrite Hs. split; [|done].
    rewrite !elem_of_app. right. left. apply list_elem_of_fmap.
    exists d. split; [done|]. apply elem_of_sorted, list_elem_of_filter. done.
Qed.

(** C4, as the code has it: patching twice with the same well-formed names
    is patching once. *)
Theorem patch_idempotent content section_name deps :
  Forall (λ d, plain_key d = true) deps →
  (add_deps_to_section
     (add_deps_to_section content section_name deps).1 section_name deps).1 =
  (add_deps_to_section content section_name deps).1.
Proof.
  intros Hplain.
  destruct (add_deps_to_section_cases content section_name deps)
    as [[Hnew Heq]|[(Hnew & Hfind & Heq)
       |(Hnew & pre & h & kept & tail & rest & fe & Hl & Hsec & Htail
         & Hkept & Heq)]].
  - rewrite Heq. simpl. by rewrite Heq.
  - rewrite Heq. simpl. by rewrite Heq.
  - rewrite Heq. simpl.
    pose proof (patched_section_has_keys _ _ _ _ _ _ _ _ _ Hplain Hl Hsec)
      as Hnone.
    destruct (add_deps_to_section_cases
                (join_nl (pre ++ h :: kept ++
                   map entry_line (sorted (new_deps content section_name deps))
                   ++ tail ++ rest)) section_name deps)
      as [[_ ->]|[(Hnew' & _)|(Hnew' & _)]]; done.
Qed.

Lemma patch_idempotent_witness :
  let content := join_nl ["[depends]"; "glibc = x"; ""; "[build_depends]"] in
  (add_deps_to_section
     (add_deps_to_section content "depends" ["zlib"; "glibc"]).1
     "depends" ["zlib"; "glibc"]).1 =
  (add_deps_to_section content "depends" ["zlib"; "glibc"]).1.
Proof.
  intros content.
  apply (patch_idempotent content "depends" ["zlib"; "glibc"]).
  repeat constructor.
Defined.

(** C4 as stated fails for names the section parser reads back differently:
    a second patch adds the entry again. *)
Lemma patch_not_idempotent :
  let content := "[depends]" in
  let once := (add_deps_to_section content "depends" ["a=b"]).1 in
  let twice := (add_deps_to_section once "depends" ["a=b"]).1 in
  once = join_nl ["[depends]"; entry_line "a=b"] ∧
  twice = join_nl ["[depends]"; entry_line "a=b"; entry_line "a=b"] ∧
  twice ≠ once.
Proof. vm_compute. repeat split; discriminate. Qed.

(** *** The cross-section filter of [fix_rook_file] *)

Lemma add_deps_to_section_inserts content section_name deps d :
  d ∉ deps →
  inserts_without d content (add_deps_to_section content section_name deps).1.
Proof.
  intros Hd.
  assert (Hnoop : inserts_without d content content).
  { exists (split_nl content), [], []. simpl.
    rewrite app_nil_r, join_split. split; [done|]. split; [done|].
    apply not_elem_of_nil. }
  destruct (add_deps_to_section_cases content section_name deps)
    as [[_ ->]|[(_ & _ & ->)
       |(_ & pre & h & kept & tail & rest & fe & Hl & _ & _ & _ & ->)]];
    [done|done|].
  exists (pre ++ h :: kept), (tail ++ rest),
         (sorted (new_deps content section_name deps)).
  rewrite Hl, <- !app_assoc. simpl. split; [done|]. split; [done|].
  rewrite elem_of_sorted. unfold new_deps. rewrite list_elem_of_filter. tauto.
Qed.

Lemma patch_section_inserts content section_name deps d :
  d ∉ deps →
  inserts_without d content (patch_section section_name deps content).
Proof.
  intros Hd. unfold patch_section. destruct deps as [|d0 deps0] eqn:Hdeps.
  - exists (split_nl content), [], []. simpl.
    rewrite app_nil_r, join_split. split; [done|]. split; [done|].
    apply not_elem_of_nil.
  - rewrite <- Hdeps in *. by apply add_deps_to_section_inserts.
Qed.

Lemma keep_dep_true all_existing pkg_name d :
  keep_dep all_existing pkg_name d = true ↔
  d ≠ pkg_name ∧ (d ∉ all_existing) ∧
  ∀ p, dict_get lib_to_pkg d = Some p → p ∉ all_existing.
Proof.
  unfold keep_dep. destruct (String.eqb d pkg_name) eqn:Hn.
  { apply str_eqb_eq in Hn. split; [done|]. by intros [? _]. }
  apply str_eqb_neq in Hn.
  destruct (dict_get lib_to_pkg d) as [p|].
  - destruct (bool_decide (p ∈ all_existing)) eqn:Hp.
    + apply bool_decide_eq_true in Hp. split; [done|].
      intros (_ & _ & H). by destruct (H p eq_refl).
    + apply bool_decide_eq_false in Hp.
      destruct (bool_decide (d ∈ all_existing)) eqn:Hd.
      * apply bool_decide_eq_true in Hd. split; [done|]. by intros (_ & ? & _).
      * apply bool_decide_eq_false in Hd. split; [|done]. intros _.
        split; [done|]. split; [done|]. by intros ? [= <-].
  - destruct (bool_decide (d ∈ all_existing)) eqn:Hd.
    + apply bool_decide_eq_true in Hd. split; [done|]. by intros (_ & ? & _).
    + apply bool_decide_eq_false in Hd. split; [|done]. intros _. done.
Qed.

Lemma elem_of_filter_deps all_existing deps pkg_name d :
  d ∈ filter_deps all_existing deps pkg_name ↔
  keep_dep all_existing pkg_name d = true ∧ d ∈ deps.
Proof.
  unfold filter_deps. rewrite list_elem_of_filter, Is_true_true. done.
Qed.

(** The file [fix_rook_file] leaves behind holds either what it held or
    the text [fix_content] makes of it. *)
Lemma fix_rook_file_content specs_dir pkg dry_run path :
  (fix_rook_file specs_dir pkg dry_run).1 !! path = specs_dir !! path ∨
  ∃ old, specs_dir !! path = Some old ∧
         (fix_rook_file specs_dir pkg dry_run).1 !! path =
         Some (fix_content old pkg).
Proof.
  unfold fix_rook_file.
  set (rook_path := if bool_decide _ then _ else _).
  destruct (specs_dir !! rook_path) as [old|] eqn:Hold; [|by left].
  destruct (String.eqb _ old); [by left|].
  destruct dry_run; [by left|]. simpl.
  destruct (decide (rook_path = path)) as [<-|Hne].
  - right. exists old. by rewrite lookup_insert_eq.
  - left. by rewrite lookup_insert_ne.
Qed.

(** A name that is the package itself, that is a key of one of the three
    sections of the file as read, or whose alias in [lib_to_pkg] is such a
    key, is dropped from all three lists, and none of the three patches
    inserts an entry line for it; the file is rewritten with that result
    only. *)
Lemma filtered_name_not_inserted content pkg d :
  let all_existing :=
    get_existing_deps content "depends" ∪
    get_existing_deps content "build_depends" ∪
    get_existing_deps content "optional_depends" in
  d = name pkg ∨ d ∈ all_existing ∨
  (∃ p, dict_get lib_to_pkg d = Some p ∧ p ∈ all_existing) →
  (d ∉ filter_deps all_existing (missing_depends pkg) (name pkg)) ∧
  (d ∉ filter_deps all_existing (missing_build_depends pkg) (name pkg)) ∧
  (d ∉ filter_deps all_existing (missing_optional pkg) (name pkg)) ∧
  (∃ content1 content2,
     inserts_without d content content1 ∧
     inserts_without d content1 content2 ∧
     inserts_without d content2 (fix_content content pkg)) ∧
  (∀ specs_dir dry_run path,
     (fix_rook_file specs_dir pkg dry_run).1 !! path = specs_dir !! path ∨
     ∃ old, specs_dir !! path = Some old ∧
            (fix_rook_file specs_dir pkg dry_run).1 !! path =
            Some (fix_content old pkg)).
Proof.
  intros all_existing Hd.
  assert (Hdrop : ∀ deps, d ∉ filter_deps all_existing deps (name pkg)).
  { intros deps [Hkeep _]%elem_of_filter_deps.
    apply keep_dep_true in Hkeep as (Hn & Hex & Hlib).
    destruct Hd as [Hd|[Hd|(p & Hp & Hd)]]; [done|done|].
    by apply (Hlib p). }
  split; [apply Hdrop|]. split; [apply Hdrop|]. split; [apply Hdrop|].
  split; [|intros; apply fix_rook_file_content].
  unfold fix_content. fold all_existing.
  eexists _, _. split; [|split]; apply patch_section_inserts, Hdrop.
Qed.

End FixDepsSpec.

(** ** The report: printed by check_deps.py, parsed by fix_deps.py *)

Module ReportSpec.
Import PyStr PyStrPreds PyStrFacts ReportPreds.

(** *** A sample report *)

Example format_report_sample :
  CheckDeps.format_report 3 [item "curl" ["zlib"; "openssl"] [] ["brotli"];
                             item "bash" [] [] []] =
  join_nl [""; CheckDeps.rule;
           "Package: curl";
           "Arch equivalent: curl (1.0-1)";
           "";
           "  Missing runtime dependencies:";
           "    - openssl";
           "    - zlib";
           "";
           "  Missing optional dependencies:";
           "    - brotli";
           ""; CheckDeps.rule;
           "Summary:";
           "  Packages checked: 3";
           "  Packages with issues: 1";
           "  Total missing dependencies: 3";
           ""].
Proof. vm_compute. reflexivity. Qed.

Example parse_report_sample :
  FixDeps.parse_report
    (join_nl ["Package: curl"; "  Missing runtime dependencies:";
              "    - openssl"; "  - zlib "; "====";
              "    - ignored"; "Package:  bash "; "- ignored too";
              "Missing build dependencies: yes"; "-   cmake"]) =
  [{| FixDeps.name := "curl"; FixDeps.missing_depends := ["openssl"; "zlib"];
      FixDeps.missing_build_depends := []; FixDeps.missing_optional := [] |};
   {| FixDeps.name := "bash"; FixDeps.missing_depends := [];
      FixDeps.missing_build_depends := ["cmake"];
      FixDeps.missing_optional := [] |}].
Proof. vm_compute. reflexivity. Qed.

Lemma run_app st out b :
  terminated out → run st (out +:+ b) = run (run st out) b.
Proof.
  intros H. unfold run. by rewrite readlines_app_terminated, foldl_app.
Qed.

Lemma print_terminated out s : terminated (CheckDeps.print out s).
Proof.
  right. exists (out +:+ s). unfold CheckDeps.print, CheckDeps.nl.
  by rewrite str_app_assoc.
Qed.

Lemma run_print st out s :
  terminated out →
  run st (CheckDeps.print out s) = run (run st out) (s +:+ nl).
Proof. intros H. unfold CheckDeps.print. by rewrite run_app. Qed.

Lemma run_line st l :
  line_text l = true → run st (l +:+ nl) = FixDeps.parse_line st (l +:+ nl).
Proof. intros H. unfold run, nl. by rewrite readlines_line. Qed.

Lemma run_nl_line st l :
  line_text l = true →
  run st ((nl +:+ l) +:+ nl) =
  FixDeps.parse_line (FixDeps.parse_line st nl) (l +:+ nl).
Proof.
  intros H. unfold run, nl.
  change ((String newline "" +:+ l) +:+ String newline "")
    with (String newline (l +:+ String newline "")).
  rewrite readlines_unfold. simpl Ascii.eqb. cbv iota.
  by rewrite readlines_line.
Qed.

(** *** One line at a time *)

Lemma clean_name_inv n :
  clean_name n = true → n ≠ "" ∧ strip n = n ∧ rstrip n = n ∧ line_text n = true.
Proof.
  unfold clean_name. rewrite !andb_true_iff, negb_true_iff.
  intros [[Hne Hs] Hl]. apply str_eqb_neq in Hne. apply str_eqb_eq in Hs.
  pose proof (strip_id_inv _ Hs) as [_ Hr]. done.
Qed.

Lemma parse_line_package p c s n :
  clean_name n = true →
  FixDeps.parse_line (St p c s) (("Package: " +:+ n) +:+ nl) =
  St (p ++ option_list c)
     (Some {| FixDeps.name := n; FixDeps.missing_depends := [];
              FixDeps.missing_build_depends := [];
              FixDeps.missing_optional := [] |})
     None.
Proof.
  intros (Hne & Hs & Hr & _)%clean_name_inv. unfold FixDeps.parse_line, nl.
  rewrite rstrip_snoc_space by done. rewrite rstrip_app_keep by done.
  rewrite startswith_app.
  change 9 with (String.length "Package: "). rewrite slice_from_app, Hs.
  done.
Qed.

Lemma parse_line_other p c s raw :
  startswith raw "Package: " = false →
  startswith (lstrip raw) "- " = false →
  ∃ s', FixDeps.parse_line (St p c s) raw = St p c s'.
Proof.
  intros H1 H2. unfold FixDeps.parse_line.
  rewrite (startswith_rstrip _ _ H1).
  destruct (contains _ _); [by eexists|].
  destruct (contains _ _); [by eexists|].
  destruct (contains _ _); [by eexists|].
  assert (H3 : startswith (strip (rstrip raw)) "- " = false).
  { unfold strip. rewrite lstrip_rstrip, rstrip_idem.
    by apply startswith_rstrip. }
  rewrite H3. destruct (startswith (rstrip raw) "===="); by eexists.
Qed.

Lemma parse_line_entry p pkg sec t :
  clean_token t = true →
  FixDeps.parse_line (St p (Some pkg) (Some sec)) (("    - " +:+ t) +:+ nl) =
  St p (Some (FixDeps.append_dep sec t pkg)) (Some sec).
Proof.
  unfold clean_token, mentions_header.
  rewrite andb_true_iff, negb_true_iff, !orb_false_iff.
  intros [(Hne & Hs & Hr & _)%clean_name_inv [[Hc1 Hc2] Hc3]].
  unfold FixDeps.parse_line, nl.
  rewrite rstrip_snoc_space by done. rewrite rstrip_app_keep by done.
  change (startswith ("    - " +:+ t) "Package: ") with false.
  change (contains ("    - " +:+ t) "Missing runtime dependencies:")
    with (contains t "Missing runtime dependencies:").
  change (contains ("    - " +:+ t) "Missing build dependencies:")
    with (contains t "Missing build dependencies:").
  change (contains ("    - " +:+ t) "Missing optional dependencies:")
    with (contains t "Missing optional dependencies:").
  rewrite Hc1, Hc2, Hc3. cbv iota.
  change (strip ("    - " +:+ t)) with (rstrip ("- " +:+ t)).
  rewrite rstrip_app_keep by done.
  change (startswith ("- " +:+ t) "- ") with true.
  change (slice_from 2 ("- " +:+ t)) with t.
  rewrite Hs. done.
Qed.

Lemma parse_line_header p c s sec :
  FixDeps.parse_line (FixDeps.parse_line (St p c s) nl)
                     (header_for sec +:+ nl) =
  St p c (Some sec).
Proof. by destruct sec. Qed.

(** *** The printing loops, read back *)

Lemma line_text_entry t :
  clean_token t = true → line_text ("    - " +:+ t) = true.
Proof.
  unfold clean_token. intros [(_ & _ & _ & Hl)%clean_name_inv _]%andb_true_iff.
  by rewrite line_text_app, Hl.
Qed.

Lemma entries_run sec (deps : list string) :
  ∀ ms p pkg,
    terminated (CheckDeps.stdout ms) →
    run init (CheckDeps.stdout ms) = St p (Some pkg) (Some sec) →
    forallb clean_token deps = true →
    terminated (CheckDeps.stdout (foldl CheckDeps.print_entry ms deps)) ∧
    run init (CheckDeps.stdout (foldl CheckDeps.print_entry ms deps)) =
    St p (Some (foldl (λ pk d, FixDeps.append_dep sec d pk) pkg deps))
       (Some sec).
Proof.
  induction deps as [|d deps IH]; intros ms p pkg Hterm Hrun Hclean; [done|].
  simpl in Hclean. apply andb_true_iff in Hclean as [Hd Hdeps].
  simpl. apply IH; [apply print_terminated| |done].
  simpl. rewrite run_print, Hrun by done.
  rewrite run_line by (by apply line_text_entry).
  by apply parse_line_entry.
Qed.

Lemma forallb_sorted (P : string → bool) (l : list string) :
  forallb P l = true → forallb P (sorted l) = true.
Proof.
  rewrite !forallb_forall. intros H x Hx. apply H.
  apply list_elem_of_In. apply list_elem_of_In in Hx.
  unfold sorted in Hx. by rewrite merge_sort_Permutation in Hx.
Qed.

Lemma print_missing_run sec deps ms p pkg s :
  terminated (CheckDeps.stdout ms) →
  run init (CheckDeps.stdout ms) = St p (Some pkg) s →
  forallb clean_token deps = true →
  terminated (CheckDeps.stdout
                (CheckDeps.print_missing (header_for sec) deps ms)) ∧
  ∃ s', run init (CheckDeps.stdout
                    (CheckDeps.print_missing (header_for sec) deps ms)) =
        St p (Some (foldl (λ pk d, FixDeps.append_dep sec d pk) pkg
                          (sorted deps))) s'.
Proof.
  intros Hterm Hrun Hclean. unfold CheckDeps.print_missing.
  destruct deps as [|d0 deps0] eqn:Hdeps;
    [split; [done|exists s; rewrite Hrun; reflexivity]|].
  rewrite <- Hdeps in *.
  destruct (entries_run sec (sorted deps)
              {| CheckDeps.stdout :=
                   CheckDeps.print (CheckDeps.stdout ms)
                                   (CheckDeps.nl +:+ header_for sec);
                 CheckDeps.total_missing := CheckDeps.total_missing ms;
                 CheckDeps.packages_with_issues :=
                   CheckDeps.packages_with_issues ms |} p pkg)
    as [Ht Hr].
  - apply print_terminated.
  - simpl. rewrite run_print, Hrun by done.
    rewrite run_nl_line by (by destruct sec).
    apply parse_line_header.
  - by apply forallb_sorted.
  - split; [done|]. by exists (Some sec).
Qed.

Lemma foldl_append_dep sec n a b c (l : list string) :
  foldl (λ pk d, FixDeps.append_dep sec d pk)
        {| FixDeps.name := n; FixDeps.missing_depends := a;
           FixDeps.missing_build_depends := b;
           FixDeps.missing_optional := c |} l =
  match sec with
  | FixDeps.Depends =>
      {| FixDeps.name := n; FixDeps.missing_depends := a ++ l;
         FixDeps.missing_build_depends := b; FixDeps.missing_optional := c |}
  | FixDeps.BuildDepends =>
      {| FixDeps.name := n; FixDeps.missing_depends := a;
         FixDeps.missing_build_depends := b ++ l;
         FixDeps.missing_optional := c |}
  | FixDeps.Optional =>
      {| FixDeps.name := n; FixDeps.missing_depends := a;
         FixDeps.missing_build_depends := b;
         FixDeps.missing_optional := c ++ l |}
  end.
Proof.
  revert a b c. induction l as [|x l IH]; intros a b c.
  - destruct sec; by rewrite app_nil_r.
  - simpl. destruct sec; simpl; rewrite IH, <- app_assoc; done.
Qed.

Lemma clean_item_inv it :
  clean_item it = true →
  clean_name (CheckDeps.item_rook_name it) = true ∧
  line_text (CheckDeps.item_arch_name it) = true ∧
  line_text (CheckDeps.item_arch_version it) = true ∧
  forallb clean_token
    (CheckDeps.missing_depends (CheckDeps.item_diff it)) = true ∧
  forallb clean_token
    (CheckDeps.missing_build_depends (CheckDeps.item_diff it)) = true ∧
  forallb clean_token
    (CheckDeps.missing_optional (CheckDeps.item_diff it)) = true.
Proof. unfold clean_item. rewrite !andb_true_iff. tauto. Qed.

(** The two lines of a rule keep the packages read so far. *)
Lemma run_rule p c s :
  ∃ s', run (St p c s) ((CheckDeps.nl +:+ CheckDeps.rule) +:+ nl) = St p c s'.
Proof.
  rewrite run_nl_line by done.
  destruct (parse_line_other p c s nl) as [s1 ->]; [done|done|].
  apply parse_line_other; done.
Qed.

Lemma report_item_run it ms p c s :
  terminated (CheckDeps.stdout ms) →
  run init (CheckDeps.stdout ms) = St p c s →
  clean_item it = true →
  terminated (CheckDeps.stdout (CheckDeps.report_item ms it)) ∧
  ∃ p' c' s',
    run init (CheckDeps.stdout (CheckDeps.report_item ms it)) = St p' c' s' ∧
    p' ++ option_list c' =
    (p ++ option_list c) ++
    (if CheckDeps.has_issues (CheckDeps.item_diff it)
     then [issues_of it] else []).
Proof.
  intros Hterm Hrun
    (Hname & Han & Hav & Hmd & Hmb & Hmo)%clean_item_inv.
  unfold CheckDeps.report_item.
  destruct (CheckDeps.has_issues (CheckDeps.item_diff it)).
  2:{ split; [done|]. exists p, c, s. by rewrite app_nil_r. }
  set (out1 := CheckDeps.print (CheckDeps.stdout ms)
                               (CheckDeps.nl +:+ CheckDeps.rule)).
  set (out2 := CheckDeps.print out1 _).
  set (out3 := CheckDeps.print out2 _).
  destruct (run_rule p c s) as [s1 Hrule].
  assert (H1 : run init out1 = St p c s1).
  { unfold out1. by rewrite run_print, Hrun. }
  assert (H2 : run init out2 =
               St (p ++ option_list c)
                  (Some {| FixDeps.name := CheckDeps.item_rook_name it;
                           FixDeps.missing_depends := [];
                           FixDeps.missing_build_depends := [];
                           FixDeps.missing_optional := [] |}) None).
  { unfold out2. rewrite run_print, H1 by apply print_terminated.
    apply clean_name_inv in Hname as Hn. destruct Hn as (_ & _ & _ & Hl).
    rewrite run_line by (by rewrite line_text_app, Hl).
    by apply parse_line_package. }
  assert (H3 : ∃ s3, run init out3 =
               St (p ++ option_list c)
                  (Some {| FixDeps.name := CheckDeps.item_rook_name it;
                           FixDeps.missing_depends := [];
                           FixDeps.missing_build_depends := [];
                           FixDeps.missing_optional := [] |}) s3).
  { unfold out3. rewrite run_print, H2 by apply print_terminated.
    rewrite run_line by (by rewrite !line_text_app, Han, Hav).
    apply parse_line_other; done. }
  destruct H3 as [s3 H3].
  set (ms3 := {| CheckDeps.stdout := out3;
                 CheckDeps.total_missing := _;
                 CheckDeps.packages_with_issues := _ |}).
  destruct (print_missing_run FixDeps.Depends
              (CheckDeps.missing_depends (CheckDeps.item_diff it))
              ms3 _ _ _ (print_terminated _ _) H3 Hmd) as [Ht4 [s4 H4]].
  destruct (print_missing_run FixDeps.BuildDepends
              (CheckDeps.missing_build_depends (CheckDeps.item_diff it))
              _ _ _ _ Ht4 H4 Hmb) as [Ht5 [s5 H5]].
  destruct (print_missing_run FixDeps.Optional
              (CheckDeps.missing_optional (CheckDeps.item_diff it))
              _ _ _ _ Ht5 H5 Hmo) as [Ht6 [s6 H6]].
  split; [exact Ht6|].
  eexists _, _, _. split; [exact H6|].
  rewrite !foldl_append_dep. simpl. done.
Qed.

Lemma report_items_run (items : list CheckDeps.ReportItem) :
  ∀ ms p c s,
    terminated (CheckDeps.stdout ms) →
    run init (CheckDeps.stdout ms) = St p c s →
    forallb clean_item items = true →
    terminated (CheckDeps.stdout (foldl CheckDeps.report_item ms items)) ∧
    ∃ p' c' s',
      run init (CheckDeps.stdout (foldl CheckDeps.report_item ms items)) =
      St p' c' s' ∧
      p' ++ option_list c' =
      (p ++ option_list c) ++
      map issues_of
          (filter (λ it, CheckDeps.has_issues (CheckDeps.item_diff it)) items).
Proof.
  induction items as [|it items IH]; intros ms p c s Hterm Hrun Hclean.
  - split; [done|]. exists p, c, s. simpl. by rewrite app_nil_r.
  - simpl in Hclean. apply andb_true_iff in Hclean as [Hit Hitems].
    destruct (report_item_run it ms p c s Hterm Hrun Hit)
      as (Ht1 & p1 & c1 & s1 & Hr1 & Heq1).
    destruct (IH _ _ _ _ Ht1 Hr1 Hitems) as (Ht2 & p2 & c2 & s2 & Hr2 & Heq2).
    split; [exact Ht2|]. exists p2, c2, s2. split; [exact Hr2|].
    rewrite Heq2, Heq1, <- app_assoc. f_equal.
    destruct (CheckDeps.has_issues (CheckDeps.item_diff it)) eqn:Hi.
    + rewrite filter_cons_True by (by rewrite Hi). done.
    + rewrite filter_cons_False by (rewrite Hi; simpl; tauto). done.
Qed.

(** What the parser returns for a printed report. *)
Lemma parse_format_report checked items :
  forallb clean_item items = true →
  FixDeps.parse_report (CheckDeps.format_report checked items) =
  map issues_of
      (filter (λ it, CheckDeps.has_issues (CheckDeps.item_diff it)) items).
Proof.
  intros Hclean.
  destruct (report_items_run items
              {| CheckDeps.stdout := ""; CheckDeps.total_missing := 0;
                 CheckDeps.packages_with_issues := 0 |}
              [] None None) as (Ht & p & c & s & Hr & Heq);
    [by left|done|done|].
  change (FixDeps.parse_report ?t)
    with (FixDeps.packages (run init t) ++
          option_list (FixDeps.current_pkg (run init t))).
  unfold CheckDeps.format_report, CheckDeps.print_summary.
  set (ms := foldl CheckDeps.report_item _ items) in *.
  rewrite run_print by (repeat apply print_terminated).
  rewrite run_print by (repeat apply print_terminated).
  rewrite run_print by (repeat apply print_terminated).
  rewrite run_print by (repeat apply print_terminated).
  rewrite run_print, Hr by done.
  destruct (run_rule p c s) as [s1 ->].
  rewrite (run_line _ "Summary:") by done.
  destruct (parse_line_other p c s1 ("Summary:" +:+ nl)) as [s2 ->];
    [done|done|].
  rewrite (run_line _ ("  Packages checked: " +:+ str_of_nat checked))
    by (by rewrite line_text_app, str_of_nat_line_text).
  destruct (parse_line_other p c s2
              (("  Packages checked: " +:+ str_of_nat checked) +:+ nl))
    as [s3 ->]; [done|done|].
  rewrite (run_line _ ("  Packages with issues: " +:+
                       str_of_nat (CheckDeps.packages_with_issues ms)))
    by (by rewrite line_text_app, str_of_nat_line_text).
  destruct (parse_line_other p c s3
              (("  Packages with issues: " +:+
                str_of_nat (CheckDeps.packages_with_issues ms)) +:+ nl))
    as [s4 ->]; [done|done|].
  rewrite (run_line _ ("  Total missing dependencies: " +:+
                       str_of_nat (CheckDeps.total_missing ms)))
    by (by rewrite line_text_app, str_of_nat_line_text).
  destruct (parse_line_other p c s4
              (("  Total missing dependencies: " +:+
                str_of_nat (CheckDeps.total_missing ms)) +:+ nl))
    as [s5 ->]; [done|done|].
  simpl. by rewrite Heq.
Qed.

Lemma same_record_issues_of it : same_record (issues_of it) it.
Proof.
  unfold same_record, issues_of, sorted. simpl.
  by rewrite !merge_sort_Permutation.
Qed.

(** C3, as the code has it: when every diff result reports something and
    its names and tokens are clean (one line, not empty, no surrounding
    whitespace, no section header inside a token), parsing the printed
    report gives one record per result, in order, with the same package
    name and, in each category, the same tokens. *)
Theorem report_round_trip checked items :
  Forall (λ it, clean_item it = true ∧
                CheckDeps.has_issues (CheckDeps.item_diff it) = true) items →
  Forall2 same_record
          (FixDeps.parse_report (CheckDeps.format_report checked items))
          items.
Proof.
  intros Hall.
  assert (Hclean : forallb clean_item items = true).
  { apply forallb_forall. intros it Hit%list_elem_of_In.
    by apply (proj1 (Forall_forall _ _) Hall). }
  rewrite parse_format_report by done.
  induction Hall as [|it items [_ Hi] Hall IH]; [constructor|].
  simpl in Hclean. apply andb_true_iff in Hclean as [_ Hclean].
  rewrite filter_cons_True by (by rewrite Hi). simpl.
  constructor; [apply same_record_issues_of|by apply IH].
Qed.

Lemma report_round_trip_witness :
  Forall2 same_record
    (FixDeps.parse_report
       (CheckDeps.format_report 2
          [item "kf6-kio" ["qt6"; "kf6-solid"] [] ["kf6-kwallet"];
           item "curl" [] ["cmake"] []]))
    [item "kf6-kio" ["qt6"; "kf6-solid"] [] ["kf6-kwallet"];
     item "curl" [] ["cmake"] []].
Proof.
  apply (report_round_trip 2).
  repeat constructor.
Defined.

(** C3 as stated fails: a result that reports nothing is not printed, and
    a token that ends in whitespace (the mapper returns one for
    ["a .so=1"]) is read back trimmed. *)
Lemma report_round_trip_fails :
  (FixDeps.parse_report (CheckDeps.format_report 1 [item "curl" [] [] []])
   = [] ∧
   ¬ Forall2 same_record
       (FixDeps.parse_report
          (CheckDeps.format_report 1 [item "curl" [] [] []]))
       [item "curl" [] [] []]) ∧
  (CheckDeps.map_arch_to_rookery "a .so=1" = Some "a " ∧
   FixDeps.parse_report (CheckDeps.format_report 1 [item "curl" ["a "] [] []])
   = [{| FixDeps.name := "curl"; FixDeps.missing_depends := ["a"];
         FixDeps.missing_build_depends := [];
         FixDeps.missing_optional := [] |}] ∧
   ¬ Forall2 same_record
       (FixDeps.parse_report
          (CheckDeps.format_report 1 [item "curl" ["a "] [] []]))
       [item "curl" ["a "] [] []]).
Proof.
  split.
  - assert (H : FixDeps.parse_report
                  (CheckDeps.format_report 1 [item "curl" [] [] []]) = [])
      by (vm_compute; reflexivity).
    split; [exact H|]. rewrite H. intros Hf. inversion Hf.
  - assert (H : FixDeps.parse_report
                  (CheckDeps.format_report 1 [item "curl" ["a "] [] []])
                = [{| FixDeps.name := "curl"; FixDeps.missing_depends := ["a"];
                      FixDeps.missing_build_depends := [];
                      FixDeps.missing_optional := [] |}])
      by (vm_compute; reflexivity).
    split; [vm_compute; reflexivity|]. split; [exact H|]. rewrite H.
    intros Hf. inversion Hf as [|???? (_ & Hp & _) _]; subst.
    simpl in Hp. apply Permutation_singleton_l in Hp. discriminate.
Qed.

End ReportSpec.

(** ** Further properties of the checker *)

Module CheckDepsExtra.
Import PyStr PyStrPreds PyStrFacts CheckDeps CheckDepsPreds CheckDepsSpec.
Import ExtraPreds.

Lemma endswith_drop_last s suf :
  endswith s suf = true →
  s = drop_last (String.length suf) s +:+ suf.
Proof.
  unfold drop_last. induction s as [|c r IH]; rewrite endswith_unfold.
  - rewrite orb_false_r. by intros <-%str_eqb_eq.
  - intros [<-%str_eqb_eq|H]%orb_true_iff.
    + by rewrite Nat.sub_diag.
    + pose proof (endswith_length _ _ H) as Hlen.
      replace (String.length (String c r) - String.length suf)
        with (S (String.length r - String.length suf)) by (simpl; lia).
      simpl. rewrite str_app_cons. f_equal. by apply IH.
Qed.

Lemma all_chars_impl (p q : ascii → bool) s :
  (∀ c, p c = true → q c = true) →
  all_chars p s = true → all_chars q s = true.
Proof.
  intros Hpq. induction s as [|c r IH]; [done|]. simpl.
  intros [Hc Hr]%andb_true_iff. by rewrite (Hpq c Hc), IH.
Qed.

Lemma space_not_constraint c : is_space c = true → not_constraint c = true.
Proof. by destruct c as [[] [] [] [] [] [] [] []]. Qed.

Lemma rstrip_app_spaces a w :
  all_chars is_space w = true → rstrip (a +:+ w) = rstrip a.
Proof.
  intros Hw. induction a as [|x a IH].
  - change ("" +:+ w) with w. induction w as [|c w IHw]; [done|].
    simpl in Hw. apply andb_true_iff in Hw as [Hc Hw].
    rewrite rstrip_unfold, IHw, Hc by done. done.
  - by rewrite str_app_cons, !rstrip_unfold, IH.
Qed.

Lemma set_has_elem (s : list string) k : set_has s k = true → k ∈ s.
Proof.
  induction s as [|x s IH]; [done|]. simpl.
  intros [->%str_eqb_eq|H]%orb_true_iff; [by left|right; auto].
Qed.

(** X1: stripping the version constraint twice is stripping it once; the
    result holds none of [<], [>], [=] and no surrounding whitespace, and
    it is the text before the first of these characters, trimmed. *)
Theorem strip_version_constraint_idempotent dep :
  strip_version_constraint (strip_version_constraint dep) =
    strip_version_constraint dep ∧
  all_chars not_constraint (strip_version_constraint dep) = true ∧
  strip (strip_version_constraint dep) = strip_version_constraint dep.
Proof.
  assert (Hs : strip (strip_version_constraint dep) =
               strip_version_constraint dep) by apply strip_idem.
  split; [|split; [apply strip_version_constraint_chars|exact Hs]].
  unfold strip_version_constraint at 1.
  rewrite before_first_id by apply strip_version_constraint_chars.
  exact Hs.
Qed.

(** X2: the normalised name is the constraint-free name, minus one final
    [.so] when it has one; it never starts with whitespace and never holds
    a constraint character. *)
Theorem normalize_dep_name_shape dep :
  (strip_version_constraint dep = normalize_dep_name dep ∧
   endswith (strip_version_constraint dep) ".so" = false ∨
   strip_version_constraint dep = normalize_dep_name dep +:+ ".so") ∧
  all_chars not_constraint (normalize_dep_name dep) = true ∧
  lstrip (normalize_dep_name dep) = normalize_dep_name dep.
Proof.
  split; [|split; [apply normalize_chars|apply lstrip_id, normalize_no_lead]].
  unfold normalize_dep_name.
  destruct (endswith (strip_version_constraint dep) ".so") eqn:He;
    [right|by left].
  by apply (endswith_drop_last _ ".so").
Qed.

(** Every ignored name is its own normal form. *)
Lemma ignored_names_normal k :
  k ∈ IGNORE_PACKAGES →
  normalize_dep_name k = k ∧ all_chars not_constraint k = true ∧ k ≠ "".
Proof.
  intros Hk.
  assert (Hall : forallb (λ k, String.eqb (normalize_dep_name k) k &&
                               all_chars not_constraint k &&
                               negb (String.eqb k ""))
                         IGNORE_PACKAGES = true) by (vm_compute; reflexivity).
  rewrite forallb_forall in Hall. apply list_elem_of_In, Hall in Hk.
  apply andb_true_iff in Hk as [[H1 H2]%andb_true_iff H3].
  apply str_eqb_eq in H1. apply negb_true_iff, str_eqb_neq in H3. done.
Qed.

Lemma normalize_with_constraint k w c v :
  all_chars not_constraint k = true → no_lead_space k → k ≠ "" →
  all_chars is_space w = true → is_constraint_char c = true →
  normalize_dep_name (k +:+ w +:+ String c v) = normalize_dep_name k.
Proof.
  intros Hk Hlead Hne Hw Hc.
  assert (Hsvc : ∀ t, strip_version_constraint t = strip k →
                      normalize_dep_name t = normalize_dep_name k).
  { intros t Ht. unfold normalize_dep_name. rewrite Ht.
    unfold strip_version_constraint. by rewrite before_first_id. }
  apply Hsvc. unfold strip_version_constraint.
  rewrite before_first_app by done.
  rewrite before_first_app
    by (by apply (all_chars_impl is_space), Hw; apply space_not_constraint).
  simpl before_first. rewrite Hc, str_app_nil_r.
  unfold strip. rewrite (lstrip_id k) by done.
  destruct k as [|k0 k']; [done|]. rewrite str_app_cons.
  rewrite lstrip_id by exact Hlead. rewrite <- str_app_cons.
  by apply rstrip_app_spaces.
Qed.

(** X3: a name of the ignore set maps to nothing, whatever version
    constraint follows it (after optional whitespace) and whatever the
    explicit table says about it. *)
Theorem ignored_with_any_version k w c v :
  set_has IGNORE_PACKAGES k = true →
  all_chars is_space w = true → is_constraint_char c = true →
  map_arch_to_rookery k = None ∧
  map_arch_to_rookery (k +:+ w +:+ String c v) = None.
Proof.
  intros Hk Hw Hc. pose proof (set_has_elem _ _ Hk) as Hin.
  destruct (ignored_names_normal k Hin) as (Hn & Hchars & Hne).
  assert (Hlead : no_lead_space k) by (rewrite <- Hn; apply normalize_no_lead).
  unfold map_arch_to_rookery.
  rewrite normalize_with_constraint, Hn, Hk by done. done.
Qed.

Lemma ignored_with_any_version_witness :
  map_arch_to_rookery "cmake" = None ∧
  map_arch_to_rookery ("cmake" +:+ " " +:+ String ">" "=3.28") = None ∧
  dict_get ARCH_TO_ROOKERY "cmake" = Some (Some "cmake").
Proof.
  destruct (ignored_with_any_version "cmake" " " ">" "=3.28")
    as [H1 H2]; [reflexivity..|].
  split; [exact H1|]. split; [exact H2|reflexivity].
Defined.

(** X4: each list of the diff holds exactly the non-empty names that some
    token of the corresponding Arch list maps to and that the .rook file
    declares neither in the category itself nor in [depends] (for the
    runtime list: neither in [depends] nor in [build_depends]). *)
Theorem missing_lists_exact rook_pkg arch_pkg d :
  let diff := compare_dependencies rook_pkg arch_pkg in
  (d ∈ missing_depends diff ↔
   d ≠ "" ∧
   (∃ tok, tok ∈ arch_depends arch_pkg ∧ map_arch_to_rookery tok = Some d) ∧
   (d ∉ dom (rook_depends rook_pkg)) ∧
   (d ∉ dom (rook_build_depends rook_pkg))) ∧
  (d ∈ missing_build_depends diff ↔
   d ≠ "" ∧
   (∃ tok, tok ∈ arch_makedepends arch_pkg ∧
           map_arch_to_rookery tok = Some d) ∧
   (d ∉ dom (rook_build_depends rook_pkg)) ∧
   (d ∉ dom (rook_depends rook_pkg))) ∧
  (d ∈ missing_optional diff ↔
   d ≠ "" ∧
   (∃ tok, tok ∈ arch_optdepends arch_pkg ∧
           map_arch_to_rookery tok = Some d) ∧
   (d ∉ dom (rook_optional_depends rook_pkg)) ∧
   (d ∉ dom (rook_depends rook_pkg))).
Proof.
  intros diff. subst diff.
  rewrite elem_of_missing_depends, elem_of_missing_build_depends,
    elem_of_missing_optional, !elem_of_mapped_set.
  tauto.
Qed.

(** X5: no list of the diff names a dependency twice. *)
Theorem missing_lists_NoDup rook_pkg arch_pkg :
  let diff := compare_dependencies rook_pkg arch_pkg in
  NoDup (missing_depends diff) ∧
  NoDup (missing_build_depends diff) ∧
  NoDup (missing_optional diff).
Proof.
  unfold compare_dependencies. simpl.
  repeat split; apply NoDup_filter, NoDup_elements.
Qed.

Lemma mapped_set_same_tokens deps deps' :
  (∀ tok, tok ∈ deps ↔ tok ∈ deps') → mapped_set deps = mapped_set deps'.
Proof.
  intros H. apply set_eq. intros c. rewrite !elem_of_mapped_set.
  split; intros (Hne & tok & Hin & Hmap); (split; [done|]); exists tok;
    (split; [by apply H|done]).
Qed.

(** X6: the diff depends on each Arch list as a set only: when two Arch
    records hold the same tokens, in whatever order and however often,
    each of the three lists of the one diff holds the names of the same
    list of the other, each once.  (The order inside a list is the
    iteration order of a Python set and is not compared.) *)
Theorem compare_dependencies_token_sets rook_pkg arch_pkg arch_pkg' :
  (∀ tok, tok ∈ arch_depends arch_pkg ↔ tok ∈ arch_depends arch_pkg') →
  (∀ tok, tok ∈ arch_makedepends arch_pkg ↔
          tok ∈ arch_makedepends arch_pkg') →
  (∀ tok, tok ∈ arch_optdepends arch_pkg ↔ tok ∈ arch_optdepends arch_pkg') →
  let diff := compare_dependencies rook_pkg arch_pkg in
  let diff' := compare_dependencies rook_pkg arch_pkg' in
  missing_depends diff ≡ₚ missing_depends diff' ∧
  missing_build_depends diff ≡ₚ missing_build_depends diff' ∧
  missing_optional diff ≡ₚ missing_optional diff'.
Proof.
  intros H1 H2 H3 diff diff'. subst diff diff'.
  split; [|split];
    (apply NoDup_Permutation;
     [unfold compare_dependencies; simpl; apply NoDup_filter, NoDup_elements
     |unfold compare_dependencies; simpl; apply NoDup_filter, NoDup_elements
     |]);
    intros d.
  - rewrite !elem_of_missing_depends.
    by rewrite (mapped_set_same_tokens _ _ H1).
  - rewrite !elem_of_missing_build_depends.
    by rewrite (mapped_set_same_tokens _ _ H2).
  - rewrite !elem_of_missing_optional.
    by rewrite (mapped_set_same_tokens _ _ H3).
Qed.

Lemma compare_dependencies_token_sets_witness :
  let diff := compare_dependencies (rook_with ∅ ∅ ∅)
                (arch_with ["zlib"; "openssl"; "zlib"] ["ninja"] ["brotli"]) in
  let diff' := compare_dependencies (rook_with ∅ ∅ ∅)
                 (arch_with ["openssl"; "zlib"] ["ninja"; "ninja"]
                            ["brotli"]) in
  missing_depends diff ≡ₚ missing_depends diff' ∧
  missing_build_depends diff ≡ₚ missing_build_depends diff' ∧
  missing_optional diff ≡ₚ missing_optional diff'.
Proof.
  apply (compare_dependencies_token_sets (rook_with ∅ ∅ ∅)
           (arch_with ["zlib"; "openssl"; "zlib"] ["ninja"] ["brotli"])
           (arch_with ["openssl"; "zlib"] ["ninja"; "ninja"] ["brotli"]));
    simpl; intros tok; rewrite ?elem_of_cons; tauto.
Defined.

(** X7: declaring more never reports more.  When the second .rook record
    declares every key of the first, category by category, each of its
    missing lists holds only names the first one's list holds too. *)
Theorem more_declared_less_missing rook_pkg rook_pkg' arch_pkg d :
  dom (rook_depends rook_pkg) ⊆ dom (rook_depends rook_pkg') →
  dom (rook_build_depends rook_pkg) ⊆ dom (rook_build_depends rook_pkg') →
  dom (rook_optional_depends rook_pkg) ⊆
    dom (rook_optional_depends rook_pkg') →
  let diff := compare_dependencies rook_pkg arch_pkg in
  let diff' := compare_dependencies rook_pkg' arch_pkg in
  (d ∈ missing_depends diff' → d ∈ missing_depends diff) ∧
  (d ∈ missing_build_depends diff' → d ∈ missing_build_depends diff) ∧
  (d ∈ missing_optional diff' → d ∈ missing_optional diff).
Proof.
  intros H1 H2 H3 diff diff'. subst diff diff'.
  rewrite !elem_of_missing_depends, !elem_of_missing_build_depends,
    !elem_of_missing_optional.
  assert (Hn : ∀ X Y : gset string, X ⊆ Y → d ∉ Y → d ∉ X)
    by (intros X Y HXY Hy Hx; apply Hy, HXY, Hx).
  split; [|split]; intros (Hm & Ha & Hb); (split; [done|]); split; eauto.
Qed.

Lemma more_declared_less_missing_witness :
  let arch_pkg := arch_with ["zlib"; "openssl"; "curl"] ["python"; "expat"]
                            ["brotli"] in
  let rook_pkg := rook_with {[ "zlib" := "1.3" ]} ∅ ∅ in
  let rook_pkg' := rook_with {[ "zlib" := "1.3"; "curl" := "8.0" ]}
                             {[ "python" := "3.12" ]} ∅ in
  missing_depends (compare_dependencies rook_pkg' arch_pkg) = ["openssl"] ∧
  "openssl" ∈ missing_depends (compare_dependencies rook_pkg arch_pkg) ∧
  missing_build_depends (compare_dependencies rook_pkg' arch_pkg) =
    ["expat"] ∧
  "expat" ∈ missing_build_depends (compare_dependencies rook_pkg arch_pkg) ∧
  missing_optional (compare_dependencies rook_pkg' arch_pkg) = ["brotli"] ∧
  "brotli" ∈ missing_optional (compare_dependencies rook_pkg arch_pkg).
Proof.
  intros arch_pkg rook_pkg rook_pkg'.
  assert (Hsub : dom (rook_depends rook_pkg) ⊆ dom (rook_depends rook_pkg') ∧
                 dom (rook_build_depends rook_pkg) ⊆
                   dom (rook_build_depends rook_pkg') ∧
                 dom (rook_optional_depends rook_pkg) ⊆
                   dom (rook_optional_depends rook_pkg')).
  { split; [|split]; apply (bool_decide_unpack _); vm_compute; exact I. }
  destruct Hsub as (S1 & S2 & S3).
  assert (E1 : missing_depends (compare_dependencies rook_pkg' arch_pkg) =
               ["openssl"]) by (vm_compute; reflexivity).
  assert (E2 : missing_build_depends (compare_dependencies rook_pkg' arch_pkg)
               = ["expat"]) by (vm_compute; reflexivity).
  assert (E3 : missing_optional (compare_dependencies rook_pkg' arch_pkg) =
               ["brotli"]) by (vm_compute; reflexivity).
  split; [exact E1|]. split.
  { apply (more_declared_less_missing rook_pkg rook_pkg' arch_pkg "openssl"
             S1 S2 S3).
    rewrite E1. by left. }
  split; [exact E2|]. split.
  { apply (more_declared_less_missing rook_pkg rook_pkg' arch_pkg "expat"
             S1 S2 S3).
    rewrite E2. by left. }
  split; [exact E3|].
  apply (more_declared_less_missing rook_pkg rook_pkg' arch_pkg "brotli"
           S1 S2 S3).
  rewrite E3. by left.
Defined.

(** *** The counters of [main] *)

Lemma sorted_length (l : list string) : length (sorted l) = length l.
Proof. unfold sorted. by rewrite merge_sort_Permutation. Qed.

Lemma print_entries_counters (deps : list string) st :
  total_missing (foldl print_entry st deps) = total_missing st + length deps ∧
  packages_with_issues (foldl print_entry st deps) = packages_with_issues st.
Proof.
  revert st. induction deps as [|d deps IH]; intros st; simpl; [lia|].
  destruct (IH (print_entry st d)) as [-> ->]. simpl. lia.
Qed.

Lemma print_missing_counters header deps st :
  total_missing (print_missing header deps st) =
    total_missing st + length deps ∧
  packages_with_issues (print_missing header deps st) =
    packages_with_issues st.
Proof.
  unfold print_missing. destruct deps as [|d0 deps0] eqn:Hd; [simpl; lia|].
  rewrite <- Hd.
  destruct (print_entries_counters (sorted deps)
              {| stdout := print (stdout st) (nl +:+ header);
                 total_missing := total_missing st;
                 packages_with_issues := packages_with_issues st |})
    as [-> ->].
  simpl. by rewrite sorted_length.
Qed.

Lemma has_issues_false_count it :
  has_issues (item_diff it) = false → missing_count it = 0.
Proof.
  unfold has_issues, missing_count.
  rewrite !orb_false_iff, !negb_false_iff.
  intros [[->%bool_decide_eq_true ->%bool_decide_eq_true]
          ->%bool_decide_eq_true]. done.
Qed.

Lemma report_item_counters st it :
  total_missing (report_item st it) = total_missing st + missing_count it ∧
  packages_with_issues (report_item st it) =
    packages_with_issues st +
    (if has_issues (item_diff it) then 1 else 0).
Proof.
  unfold report_item. destruct (has_issues (item_diff it)) eqn:Hi.
  - repeat match goal with
           | |- context [print_missing ?h ?d ?s] =>
               let H1 := fresh in let H2 := fresh in
               destruct (print_missing_counters h d s) as [H1 H2];
               rewrite H1, H2; clear H1 H2
           end.
    simpl. unfold missing_count. lia.
  - rewrite has_issues_false_count by done. lia.
Qed.

Lemma report_items_counters items st :
  packages_with_issues (foldl report_item st items) =
    packages_with_issues st +
    length (filter (λ it, has_issues (item_diff it)) items) ∧
  total_missing (foldl report_item st items) =
    total_missing st + sum_list (map missing_count items).
Proof.
  revert st. induction items as [|it items IH]; intros st; simpl; [lia|].
  destruct (IH (report_item st it)) as [-> ->].
  destruct (report_item_counters st it) as [-> ->].
  destruct (has_issues (item_diff it)) eqn:Hi.
  - rewrite filter_cons_True by (by rewrite Hi). simpl. lia.
  - rewrite filter_cons_False by (rewrite Hi; simpl; tauto). lia.
Qed.

(** X8: the two counters [main] prints in its summary: the number of
    packages with issues is the number of diffs with a non-empty list, and
    the total is the number of names over all three lists of all diffs. *)
Theorem summary_counters items :
  let st := foldl report_item
                  {| stdout := ""; total_missing := 0;
                     packages_with_issues := 0 |} items in
  packages_with_issues st =
    length (filter (λ it, has_issues (item_diff it)) items) ∧
  total_missing st = sum_list (map missing_count items).
Proof.
  intros st. subst st.
  destruct (report_items_counters items
              {| stdout := ""; total_missing := 0;
                 packages_with_issues := 0 |}) as [-> ->].
  simpl. lia.
Qed.

End CheckDepsExtra.

(** ** Further properties of the report parser *)

Module ReportExtra.
Import PyStr PyStrPreds PyStrFacts FixDeps ExtraPreds.

Lemma startswith_split s p :
  startswith s p = true → s = p +:+ slice_from (String.length p) s.
Proof.
  revert s. induction p as [|x p IH]; intros s; [by destruct s|].
  destruct s as [|c s]; [done|]. simpl.
  intros [->%Ascii.eqb_eq H]%andb_true_iff.
  rewrite str_app_cons. f_equal. by apply IH.
Qed.

Lemma rstrip_nil_spaces s : rstrip s = "" → all_chars is_space s = true.
Proof.
  induction s as [|c r IH]; [done|]. rewrite rstrip_unfold. simpl.
  destruct (rstrip r); [|done]. destruct (is_space c); [auto|done].
Qed.

Lemma rstrip_spaces_nil s : all_chars is_space s = true → rstrip s = "".
Proof.
  induction s as [|c r IH]; [done|]. simpl.
  intros [Hc Hr]%andb_true_iff. by rewrite IH, Hc.
Qed.

Lemma rstrip_app_nil a r : rstrip r = "" → rstrip (a +:+ r) = rstrip a.
Proof.
  intros Hr. induction a as [|x a IH]; [done|].
  by rewrite str_app_cons, !rstrip_unfold, IH.
Qed.

Lemma strip_nil_rstrip s : strip s = "" → rstrip s = "".
Proof.
  rewrite strip_alt. intros H.
  assert (Hsp : all_chars is_space (rstrip s) = true).
  { generalize dependent (rstrip s). intros t.
    induction t as [|c t IH]; [done|]. simpl.
    destruct (is_space c); [auto|done]. }
  apply rstrip_spaces_nil in Hsp. by rewrite rstrip_idem in Hsp.
Qed.

(** What follows a prefix that ends in a blank, in a right-stripped
    string, is not blank. *)
Lemma after_prefix_trimmed s p :
  rstrip s = s → startswith s p = true →
  String.length (rstrip p) < String.length p →
  trimmed (strip (slice_from (String.length p) s)).
Proof.
  intros Hs Hp Hlen. split; [|apply strip_idem].
  intros Hnil%strip_nil_rstrip.
  apply startswith_split in Hp.
  assert (Hr : rstrip s = rstrip p)
    by (rewrite Hp at 1; by apply rstrip_app_nil).
  rewrite Hs in Hr.
  assert (String.length s = String.length (rstrip p)) by (by rewrite Hr).
  assert (String.length p ≤ String.length s)
    by (rewrite Hp, str_length_app; lia).
  lia.
Qed.

Lemma strip_rstrip_fixed s : rstrip (strip s) = strip s.
Proof. apply strip_rstrip_id. Qed.

Lemma append_dep_trimmed sec dep pkg :
  trimmed dep → record_trimmed pkg → record_trimmed (append_dep sec dep pkg).
Proof.
  intros Hd (Hn & H1 & H2 & H3).
  assert (Hadd : ∀ l, Forall trimmed l → Forall trimmed (l ++ [dep]))
    by (intros l Hl; apply Forall_app; split;
          [done|apply Forall_cons; split; [done|apply Forall_nil_2]]).
  destruct sec; (split; [exact Hn|split; [|split]]); simpl; auto.
Qed.

(** The invariant of the loop of [parse_report]. *)
Lemma parse_line_trimmed st raw :
  Forall record_trimmed (packages st ++ option_list (current_pkg st)) →
  Forall record_trimmed
    (packages (parse_line st raw) ++
     option_list (current_pkg (parse_line st raw))).
Proof.
  intros Hst. unfold parse_line.
  destruct (startswith (rstrip raw) "Package: ") eqn:Hpkg.
  { simpl. apply Forall_app. split; [done|]. apply Forall_singleton.
    split; [|by simpl].
    apply (after_prefix_trimmed (rstrip raw) "Package: ");
      [apply rstrip_idem|done|simpl; lia]. }
  destruct (contains _ _); [done|].
  destruct (contains _ _); [done|].
  destruct (contains _ _); [done|].
  destruct (startswith (strip (rstrip raw)) "- ") eqn:Hentry.
  2:{ by destruct (startswith (rstrip raw) "===="). }
  destruct (current_pkg st) as [pkg|] eqn:Hcur;
    [|destruct (startswith (rstrip raw) "===="); simpl; rewrite ?Hcur;
      exact Hst].
  destruct (current_section st) as [sec|];
    [|destruct (startswith (rstrip raw) "===="); simpl; rewrite ?Hcur;
      exact Hst].
  cbn [packages current_pkg option_list] in *.
  apply Forall_app in Hst as [Hp Hc].
  apply Forall_app. split; [done|]. apply Forall_singleton.
  apply (proj1 (Forall_singleton _ _)) in Hc.
  apply append_dep_trimmed; [|exact Hc].
  apply (after_prefix_trimmed (strip (rstrip raw)) "- ");
    [apply strip_rstrip_fixed|done|simpl; lia].
Qed.

(** X9: whatever the text, every record [parse_report] returns has a
    non-empty name, every token it lists is non-empty, and none of them
    has whitespace at either end. *)
Theorem parse_report_trimmed report :
  Forall record_trimmed (parse_report report).
Proof.
  unfold parse_report.
  assert (H : ∀ lines st,
    Forall record_trimmed (packages st ++ option_list (current_pkg st)) →
    Forall record_trimmed
      (packages (foldl parse_line st lines) ++
       option_list (current_pkg (foldl parse_line st lines)))).
  { induction lines as [|l lines IH]; intros st Hst; [done|].
    simpl. by apply IH, parse_line_trimmed. }
  apply H. constructor.
Qed.

Lemma append_dep_name sec dep pkg : name (append_dep sec dep pkg) = name pkg.
Proof. by destruct sec. Qed.

Lemma parse_line_names st raw :
  map name (packages (parse_line st raw) ++
            option_list (current_pkg (parse_line st raw))) =
  map name (packages st ++ option_list (current_pkg st)) ++
  (if is_package_line raw then [package_line_name raw] else []).
Proof.
  unfold parse_line, is_package_line, package_line_name.
  destruct (startswith (rstrip raw) "Package: ") eqn:Hpkg.
  { simpl. by rewrite !map_app. }
  rewrite app_nil_r.
  destruct (contains _ _); [done|].
  destruct (contains _ _); [done|].
  destruct (contains _ _); [done|].
  destruct (startswith (strip (rstrip raw)) "- ") eqn:Hentry.
  2:{ by destruct (startswith (rstrip raw) "===="). }
  destruct (current_pkg st) as [pkg|] eqn:Hcur;
    [|destruct (startswith (rstrip raw) "===="); simpl; by rewrite ?Hcur].
  destruct (current_section st) as [sec|];
    [|destruct (startswith (rstrip raw) "===="); simpl; by rewrite ?Hcur].
  simpl. by rewrite !map_app, !(map_cons name), append_dep_name.
Qed.

(** X10: the records [parse_report] returns are the lines that start with
    [Package: ], one record per such line and in their order, each named by
    the rest of its line, trimmed; a text without such a line gives no
    record, whatever else it holds. *)
Theorem parse_report_names report :
  map name (parse_report report) =
  map package_line_name (filter (λ l, is_package_line l) (readlines report)).
Proof.
  unfold parse_report.
  assert (H : ∀ lines st,
    map name (packages (foldl parse_line st lines) ++
              option_list (current_pkg (foldl parse_line st lines))) =
    map name (packages st ++ option_list (current_pkg st)) ++
    map package_line_name (filter (λ l, is_package_line l) lines)).
  { induction lines as [|l lines IH]; intros st; simpl;
      [by rewrite app_nil_r|].
    rewrite IH, parse_line_names, <- app_assoc. f_equal.
    destruct (is_package_line l) eqn:Hl.
    - rewrite filter_cons_True by (by rewrite Hl). done.
    - rewrite filter_cons_False by (rewrite Hl; simpl; tauto). done. }
  by rewrite H.
Qed.

End ReportExtra.

(** ** Further properties of the patcher *)

Module FixDepsExtra.
Import PyStr PyStrPreds PyStrFacts FixDeps FixDepsPreds FixDepsSpec ExtraPreds.

Lemma scan_section_keeps_start header lines i s :
  is_Some (scan_section header lines i (Some s)).1.
Proof.
  revert i s. induction lines as [|l lines IH]; intros i s; [by eexists|].
  rewrite scan_section_cons.
  destruct (String.eqb (strip l) header); [apply IH|].
  destruct (bool_decide _ && top_level (strip l)); [by eexists|apply IH].
Qed.

Lemma scan_section_none_inv header lines i found_end :
  scan_section header lines i None = (None, found_end) →
  Forall (λ l, strip l ≠ header) lines.
Proof.
  revert i. induction lines as [|l lines IH]; intros i; [by constructor|].
  rewrite scan_section_cons.
  destruct (String.eqb (strip l) header) eqn:Hl.
  - intros Hs. pose proof (scan_section_keeps_start header lines (S i) i) as H.
    rewrite Hs in H. by destruct H.
  - simpl. intros Hs. constructor; [by apply str_eqb_neq|by eapply IH].
Qed.

(** X11: the section is reported as not found exactly when no line of the
    text, stripped, is its header. *)
Theorem find_section_end_None_iff content section_name :
  find_section_end content section_name = None ↔
  Forall (λ line, strip line ≠ "[" +:+ section_name +:+ "]")
         (split_nl content).
Proof.
  split; [|apply find_section_end_absent].
  unfold find_section_end.
  destruct (scan_section _ _ 0 None) as [[s|] fe] eqn:Hscan; [done|].
  intros _. by eapply scan_section_none_inv.
Qed.

(** X12: when the section is found, its start is the index of a header
    line, its end lies after the start and within the text, no line in
    between is a header of this section or opens another top-level table,
    the end is the end of the text or a line that opens a top-level table,
    and the content returned is the text of the lines in between,
    stripped. *)
Theorem find_section_end_bounds content section_name s e c :
  find_section_end content section_name = Some (s, e, c) →
  let lines := split_nl content in
  let header := "[" +:+ section_name +:+ "]" in
  s < e ≤ length lines ∧
  (∃ h, lines !! s = Some h ∧ strip h = header) ∧
  (∀ j l, s < j < e → lines !! j = Some l →
          strip l ≠ header ∧ top_level (strip l) = false) ∧
  (e = length lines ∨ ∃ l, lines !! e = Some l ∧ top_level (strip l) = true) ∧
  c = strip (join_nl (slice (s + 1) e lines)).
Proof.
  intros Hfind lines header. subst lines header.
  apply find_section_end_some in Hfind
    as (pre & h & body & rest & fe & Hl & [_ Hh Hbody Hend] & -> & -> & ->).
  rewrite Hl, slice_body.
  assert (Hlen : length (pre ++ h :: body ++ rest) =
                 length pre + 1 + length body + length rest).
  { rewrite length_app. simpl. rewrite length_app. lia. }
  split; [lia|]. split.
  { exists h. split; [|done]. by rewrite lookup_app_r, Nat.sub_diag by lia. }
  split.
  { intros j l Hj Hlook.
    rewrite lookup_app_r in Hlook by lia.
    destruct (j - length pre) as [|k] eqn:Hk; [lia|]. simpl in Hlook.
    rewrite lookup_app_l in Hlook by lia.
    apply (proj1 (Forall_lookup _ _) Hbody) in Hlook as [H1 H2].
    split; [by apply str_eqb_neq|done]. }
  split; [|done].
  destruct Hend as [[-> _]|(t & rest' & -> & _ & Htop & _)].
  - left. simpl in Hlen. lia.
  - right. exists t. split; [|done].
    rewrite lookup_app_r by lia.
    replace (length pre + 1 + length body - length pre)
      with (S (length body)) by lia.
    simpl. by rewrite lookup_app_r, Nat.sub_diag by lia.
Qed.

Lemma find_section_end_bounds_witness :
  let lines := split_nl sample_rook in
  3 < 7 ≤ length lines ∧
  (∃ h, lines !! 3 = Some h ∧ strip h = "[depends]") ∧
  (∀ j l, 3 < j < 7 → lines !! j = Some l →
          strip l ≠ "[depends]" ∧ top_level (strip l) = false) ∧
  (7 = length lines ∨ ∃ l, lines !! 7 = Some l ∧ top_level (strip l) = true) ∧
  join_nl ["# libraries"; "zlib = v"] = strip (join_nl (slice (3 + 1) 7 lines)).
Proof.
  apply (find_section_end_bounds sample_rook "depends" 3 7). reflexivity.
Defined.

(** *** Keys after a patch *)

Lemma patched_section_at content section_name deps
    pre h kept tail rest found_end :
  Forall (λ d, plain_key d = true) deps →
  split_nl content = pre ++ h :: (kept ++ tail) ++ rest →
  section_at (header_of section_name) pre h (kept ++ tail) rest found_end →
  let added :=
    map entry_line (sorted (new_deps content section_name deps)) in
  split_nl (join_nl (pre ++ h :: kept ++ added ++ tail ++ rest)) =
    pre ++ h :: (kept ++ added ++ tail) ++ rest ∧
  ∃ found_end',
    section_at (header_of section_name) pre h (kept ++ added ++ tail) rest
               found_end'.
Proof.
  intros Hplain Hl Hsec added.
  assert (Hadded : ∀ l, l ∈ added → ∃ d, l = entry_line d ∧
                                         plain_key d = true).
  { intros l (d & -> & Hd)%list_elem_of_fmap. exists d. split; [done|].
    apply elem_of_sorted, list_elem_of_filter in Hd as [_ Hd].
    by apply (proj1 (Forall_forall _ _) Hplain). }
  pose proof (split_nl_no_newline content) as Hall. rewrite Hl in Hall.
  apply Forall_app in Hall as [Hpre Hall].
  apply Forall_cons in Hall as [Hh Hall].
  apply Forall_app in Hall as [Hbody Hrest].
  apply Forall_app in Hbody as [Hkept Htail].
  destruct Hsec as [Hscan Hhdr Hb Hend].
  apply Forall_app in Hb as [Hbk Hbt].
  split.
  - rewrite split_join; [by rewrite <- !app_assoc|by destruct pre|].
    apply Forall_app. split; [done|]. apply Forall_cons. split; [done|].
    apply Forall_app. split; [done|]. apply Forall_app. split.
    + apply Forall_forall. intros l (d & -> & Hd)%Hadded.
      by apply entry_line_plain.
    + by apply Forall_app.
  - exists (match found_end with
            | Some _ => Some (length pre + 1 + length (kept ++ added ++ tail))
            | None => None
            end).
    split; [done|done| |].
    + apply Forall_app. split; [done|]. apply Forall_app. split; [|done].
      apply Forall_forall. intros l (d & -> & Hd)%Hadded.
      by apply entry_line_plain.
    + destruct Hend as [[-> ->]|(t & rest' & -> & Ht & Htop & ->)];
        [by left|].
      right. by exists t, rest'.
Qed.

Lemma patched_keys_union content section_name deps :
  find_section_end content section_name ≠ None →
  Forall (λ d, plain_key d = true) deps →
  get_existing_deps (add_deps_to_section content section_name deps).1
                    section_name =
  get_existing_deps content section_name ∪ list_to_set deps.
Proof.
  intros Hfound Hplain. apply set_eq. intros k.
  rewrite elem_of_union, elem_of_list_to_set.
  destruct (add_deps_to_section_cases content section_name deps)
    as [[Hnew ->]|[(_ & Hnone & _)
       |(Hnew & pre & h & kept & tail & rest & fe & Hl & Hsec & _ & _
         & ->)]]; [|done|].
  - simpl. split; [by left|]. intros [Hk|Hk]; [done|].
    destruct (decide (k ∈ get_existing_deps content section_name))
      as [Hin|Hnot]; [done|].
    assert (Hf : k ∈ new_deps content section_name deps)
      by (by apply list_elem_of_filter).
    rewrite Hnew in Hf. by apply elem_of_nil in Hf.
  - simpl.
    destruct (patched_section_at _ _ _ _ _ _ _ _ _ Hplain Hl Hsec)
      as [Hl' [fe' Hsec']].
    rewrite (elem_of_get_existing_deps _ _ _ _ _ _ _ k Hl' Hsec').
    rewrite (elem_of_get_existing_deps _ _ _ _ _ _ _ k Hl Hsec).
    split.
    + intros (l & Hin & He & ->).
      rewrite !elem_of_app in Hin. destruct Hin as [Hin|[Hin|Hin]].
      * left. exists l. rewrite elem_of_app. auto.
      * right. apply list_elem_of_fmap in Hin as (d & -> & Hd).
        apply elem_of_sorted, list_elem_of_filter in Hd as [_ Hd].
        assert (Hp : plain_key d = true)
          by (by apply (proj1 (Forall_forall _ _) Hplain)).
        destruct (entry_line_plain d Hp) as (_ & -> & _ & -> & _). done.
      * left. exists l. rewrite elem_of_app. auto.
    + intros [(l & Hin & He & ->)|Hk].
      * exists l. split; [|done]. rewrite elem_of_app in Hin.
        rewrite !elem_of_app. tauto.
      * destruct (decide (k ∈ get_existing_deps content section_name))
          as [Hex|Hnot].
        -- apply (elem_of_get_existing_deps _ _ _ _ _ _ _ k Hl Hsec) in Hex
             as (l & Hin & He & ->).
           exists l. split; [|done]. rewrite elem_of_app in Hin.
           rewrite !elem_of_app. tauto.
        -- assert (Hp : plain_key k = true)
             by (by apply (proj1 (Forall_forall _ _) Hplain)).
           destruct (entry_line_plain k Hp) as (_ & Hs & He & Hkey & _).
           exists (entry_line k). rewrite Hs. split; [|done].
           rewrite !elem_of_app. right. left. apply list_elem_of_fmap.
           exists k. split; [done|].
           by apply elem_of_sorted, list_elem_of_filter.
Qed.

(** X13: after a patch of a section that exists, with well-formed names,
    the keys of that section are the keys it had together with the names
    given: every name asked for can be looked up, and no key is lost. *)
Theorem patched_section_keys content section_name deps :
  find_section_end content section_name ≠ None →
  Forall (λ d, plain_key d = true) deps →
  get_existing_deps (add_deps_to_section content section_name deps).1
                    section_name =
  get_existing_deps content section_name ∪ list_to_set deps.
Proof. apply patched_keys_union. Qed.

Lemma patched_section_keys_witness :
  get_existing_deps
    (add_deps_to_section sample_rook "depends" ["openssl"; "zlib"]).1
    "depends" =
  get_existing_deps sample_rook "depends" ∪ list_to_set ["openssl"; "zlib"].
Proof.
  apply (patched_section_keys sample_rook "depends" ["openssl"; "zlib"]).
  - discriminate.
  - repeat constructor.
Defined.

(** *** The other sections *)

Lemma scan_section_shift header lines i k st :
  scan_section header lines (i + k) ((λ x, x + k) <$> st) =
  (((λ x, x + k) <$> (scan_section header lines i st).1),
   ((λ x, x + k) <$> (scan_section header lines i st).2)).
Proof.
  revert i st. induction lines as [|l lines IH]; intros i st; [done|].
  rewrite !scan_section_cons.
  assert (Hsome : bool_decide (is_Some ((λ x, x + k) <$> st)) =
                  bool_decide (is_Some st)).
  { by destruct st. }
  rewrite Hsome.
  destruct (String.eqb (strip l) header).
  - apply (IH (S i) (Some i)).
  - destruct (bool_decide (is_Some st) && top_level (strip l)); [done|].
    apply (IH (S i) st).
Qed.

Lemma scan_section_skip header N B i st :
  Forall (body_line header) N →
  scan_section header (N ++ B) i st =
  scan_section header B (i + length N) st.
Proof.
  revert i. induction N as [|l N IH]; intros i HN.
  - simpl. by rewrite Nat.add_0_r.
  - inversion HN as [|?? [Hl Htop] HN']; subst.
    rewrite <- app_comm_cons, scan_section_cons, Hl, Htop, andb_false_r.
    rewrite IH by done. f_equal. simpl. lia.
Qed.

Lemma scan_section_end_some header lines i st st' k :
  scan_section header lines i st = (st', Some k) →
  is_Some st' ∧ k < i + length lines.
Proof.
  revert i st. induction lines as [|l lines IH]; intros i st; [done|].
  rewrite scan_section_cons.
  destruct (String.eqb (strip l) header).
  - intros [H1 H2]%IH. split; [done|]. simpl. lia.
  - destruct (bool_decide (is_Some st) && top_level (strip l)) eqn:Hb.
    + intros [= <- <-]. apply andb_true_iff in Hb as [Hs _].
      apply bool_decide_eq_true in Hs. split; [done|]. simpl. lia.
    + intros [H1 H2]%IH. split; [done|]. simpl. lia.
Qed.

Lemma slice_app_l {A} (a b : nat) (l1 l2 : list A) :
  a ≤ b ≤ length l1 → slice a b (l1 ++ l2) = slice a b l1.
Proof.
  intros Hab. unfold slice. rewrite drop_app_le by lia.
  apply take_app_le. rewrite length_drop. lia.
Qed.

Lemma slice_insert {A} (a b : nat) (l1 N l2 : list A) :
  length l1 ≤ a →
  slice (a + length N) (b + length N) (l1 ++ N ++ l2) = slice a b (l1 ++ l2).
Proof.
  intros Ha. unfold slice.
  replace (b + length N - (a + length N)) with (b - a) by lia.
  f_equal. rewrite app_assoc, !drop_app_ge by (rewrite ?length_app; lia).
  f_equal. rewrite length_app. lia.
Qed.

(** Inserting body lines at a point where the scan for [header] has seen
    no open section leaves the section it finds unchanged. *)
Lemma section_lines_insert header (A N B : list string) :
  Forall (body_line header) N →
  scan_section header A 0 None = (None, None) ∨
  (∃ s k, scan_section header A 0 None = (Some s, Some k)) →
  section_lines header (A ++ N ++ B) = section_lines header (A ++ B).
Proof.
  intros HN HA. unfold section_lines. rewrite !scan_section_app.
  destruct HA as [HA|(s & k & HA)]; rewrite HA.
  - rewrite scan_section_skip by done. simpl.
    pose proof (scan_section_shift header B (length A) (length N) None) as Hs.
    simpl in Hs. rewrite Hs.
    destruct (scan_section header B (length A) None) as [[s|] e] eqn:HB;
      [|done].
    simpl. f_equal.
    assert (Hge : length A ≤ s).
    { apply scan_section_found in HB
        as [([=] & _)|(pre & ? & ? & ? & ? & _ & -> & _)]. lia. }
    replace (s + length N + 1) with (s + 1 + length N) by lia.
    replace (default (length (A ++ N ++ B)) ((λ x, x + length N) <$> e))
      with (default (length (A ++ B)) e + length N)
      by (destruct e; simpl; rewrite ?length_app; lia).
    apply slice_insert. lia.
  - apply scan_section_end_some in HA as [_ Hk]. simpl in *.
    destruct (decide (s + 1 ≤ k)) as [Hle|Hgt].
    + by rewrite !slice_app_l by lia.
    + unfold slice. by replace (k - (s + 1)) with 0 by lia.
Qed.

Lemma find_section_end_lines content section_name :
  find_section_end content section_name = None ↔
  section_lines (header_of section_name) (split_nl content) = None.
Proof.
  unfold find_section_end, section_lines. fold (header_of section_name).
  by destruct (scan_section _ _ 0 None) as [[s|] e].
Qed.

Lemma get_existing_deps_lines content section_name :
  get_existing_deps content section_name =
  keys_of_section (section_lines (header_of section_name) (split_nl content)).
Proof.
  unfold get_existing_deps, find_section_end, section_lines, keys_of_section.
  fold (header_of section_name).
  by destruct (scan_section _ _ 0 None) as [[s|] e].
Qed.

Lemma top_level_header section_name :
  startswith section_name "[" = false →
  top_level (header_of section_name) = true.
Proof.
  intros H. unfold top_level, header_of.
  change (startswith ("[" +:+ section_name +:+ "]") "[") with true.
  change (startswith ("[" +:+ section_name +:+ "]") "[[")
    with (startswith (section_name +:+ "]") "[").
  destruct section_name as [|c n]; [reflexivity|].
  rewrite str_app_cons. simpl in *. by rewrite H.
Qed.

Lemma str_app_inj_r a b c : a +:+ c = b +:+ c → a = b.
Proof.
  intros H.
  assert (Hlen : String.length a = String.length b).
  { apply (f_equal String.length) in H. rewrite !str_length_app in H. lia. }
  revert b H Hlen. induction a as [|x a IH]; intros [|y b] H Hlen;
    try done.
  rewrite !str_app_cons in H. injection H as -> H. f_equal.
  apply IH; [done|]. simpl in Hlen. lia.
Qed.

Lemma header_of_inj n1 n2 : header_of n1 = header_of n2 → n1 = n2.
Proof.
  rewrite !header_of_snoc. intros H%str_app_inj_r.
  by apply (inj (String.app "[")) in H.
Qed.

(** The scan for another section, up to the place of an insertion. *)
Lemma scan_other_prefix header header' pre h (kept : list string) :
  strip h = header → header ≠ header' →
  top_level header = true → top_level header' = true →
  Forall (λ l, top_level (strip l) = false) kept →
  scan_section header' (pre ++ h :: kept) 0 None = (None, None) ∨
  ∃ s k, scan_section header' (pre ++ h :: kept) 0 None = (Some s, Some k).
Proof.
  intros Hh Hne Htop Htop' Hkept. rewrite scan_section_app.
  destruct (scan_section header' pre 0 None) as [st0 [k|]] eqn:Hpre.
  { right. apply scan_section_end_some in Hpre as Hs.
    destruct Hs as [[s ->] _]. eauto. }
  rewrite scan_section_cons.
  assert (Hh' : String.eqb (strip h) header' = false)
    by (apply str_eqb_neq; congruence).
  rewrite Hh', Hh, Htop, andb_true_r.
  destruct st0 as [s|].
  - right. rewrite bool_decide_eq_true_2 by eauto. eauto.
  - left. simpl. apply scan_section_absent.
    eapply Forall_impl; [exact Hkept|]. simpl. intros l Hl Heq.
    rewrite Heq in Hl. congruence.
Qed.

Lemma patch_other_section content section_name other deps :
  section_name ≠ other →
  startswith section_name "[" = false → startswith other "[" = false →
  Forall (λ d, plain_key d = true) deps →
  let patched := (add_deps_to_section content section_name deps).1 in
  get_existing_deps patched other = get_existing_deps content other ∧
  (find_section_end patched other = None ↔
   find_section_end content other = None).
Proof.
  intros Hne Hs Ho Hplain patched. subst patched.
  rewrite !get_existing_deps_lines, !find_section_end_lines.
  destruct (add_deps_to_section_cases content section_name deps)
    as [[_ ->]|[(_ & _ & ->)
       |(_ & pre & h & kept & tail & rest & fe & Hl & Hsec & _ & _ & ->)]];
    [done|done|].
  simpl.
  destruct (patched_section_at _ _ _ _ _ _ _ _ _ Hplain Hl Hsec) as [Hl' _].
  rewrite Hl', Hl.
  destruct Hsec as [_ Hh Hbody _]. apply Forall_app in Hbody as [Hkept _].
  assert (Heq : section_lines (header_of other)
                  (pre ++ h :: (kept ++
                     map entry_line
                         (sorted (new_deps content section_name deps)) ++
                     tail) ++ rest) =
                section_lines (header_of other)
                  (pre ++ h :: (kept ++ tail) ++ rest)).
  { replace (pre ++ h :: (kept ++ tail) ++ rest)
      with ((pre ++ h :: kept) ++ tail ++ rest)
      by (by rewrite <- !app_assoc).
    replace (pre ++ h :: (kept ++ map entry_line
               (sorted (new_deps content section_name deps)) ++ tail) ++ rest)
      with ((pre ++ h :: kept) ++
            map entry_line (sorted (new_deps content section_name deps)) ++
            tail ++ rest)
      by (by rewrite <- !app_assoc).
    apply section_lines_insert.
    - apply Forall_forall. intros l (d & -> & Hd)%list_elem_of_fmap.
      apply elem_of_sorted, list_elem_of_filter in Hd as [_ Hd].
      apply entry_line_plain. by apply (proj1 (Forall_forall _ _) Hplain).
    - apply (scan_other_prefix (header_of section_name)); try done.
      + intros Heq. by apply header_of_inj in Heq.
      + by apply top_level_header.
      + by apply top_level_header.
      + eapply Forall_impl; [exact Hkept|]. by intros l [_ ?]. }
  by rewrite Heq.
Qed.

(** X14: a patch of one section, with well-formed names, changes neither
    the keys of any other section nor whether that section is found. *)
Theorem patch_keeps_other_sections content section_name other deps :
  section_name ≠ other →
  startswith section_name "[" = false → startswith other "[" = false →
  Forall (λ d, plain_key d = true) deps →
  let patched := (add_deps_to_section content section_name deps).1 in
  get_existing_deps patched other = get_existing_deps content other ∧
  (find_section_end patched other = None ↔
   find_section_end content other = None).
Proof. apply patch_other_section. Qed.

Lemma patch_keeps_other_sections_witness :
  let patched :=
    (add_deps_to_section sample_rook "depends" ["openssl"; "cmake"]).1 in
  get_existing_deps patched "build_depends" =
    get_existing_deps sample_rook "build_depends" ∧
  (find_section_end patched "build_depends" = None ↔
   find_section_end sample_rook "build_depends" = None).
Proof.
  apply (patch_keeps_other_sections sample_rook "depends" "build_depends"
           ["openssl"; "cmake"]); try done.
  repeat constructor.
Defined.

(** *** The order of the names *)

Lemma sorted_Permutation (l1 l2 : list string) :
  l1 ≡ₚ l2 → sorted l1 = sorted l2.
Proof.
  intros H. unfold sorted.
  apply (Sorted_unique String.le); [apply Sorted_merge_sort, _..|].
  by rewrite !merge_sort_Permutation.
Qed.

(** X15: the result of a patch, text and warning, does not depend on the
    order in which the names are given. *)
Theorem add_deps_to_section_order content section_name deps deps' :
  deps ≡ₚ deps' →
  add_deps_to_section content section_name deps =
  add_deps_to_section content section_name deps'.
Proof.
  intros Hperm. unfold add_deps_to_section.
  assert (Hnew : filter (λ d, d ∉ get_existing_deps content section_name) deps
                 ≡ₚ
                 filter (λ d, d ∉ get_existing_deps content section_name) deps')
    by (by rewrite Hperm).
  pose proof (sorted_Permutation _ _ Hnew) as Hsorted.
  destruct deps as [|d0 deps0] eqn:Hd, deps' as [|d0' deps0'] eqn:Hd';
    [done|by apply Permutation_nil_cons in Hperm
    |by symmetry in Hperm; apply Permutation_nil_cons in Hperm|].
  rewrite <- Hd, <- Hd' in *.
  destruct (filter _ deps) as [|n0 new0] eqn:Hf,
           (filter _ deps') as [|n0' new0'] eqn:Hf';
    [done|by apply Permutation_nil_cons in Hnew
    |by symmetry in Hnew; apply Permutation_nil_cons in Hnew|].
  by rewrite Hsorted.
Qed.

Lemma add_deps_to_section_order_witness :
  add_deps_to_section sample_rook "depends" ["openssl"; "attr"; "curl"] =
  add_deps_to_section sample_rook "depends" ["curl"; "openssl"; "attr"].
Proof.
  apply add_deps_to_section_order. symmetry.
  apply (Permutation_cons_append ["openssl"; "attr"] "curl").
Defined.

(** *** Running the fixer twice *)

Lemma patch_section_eq section_name deps content :
  patch_section section_name deps content =
  (add_deps_to_section content section_name deps).1.
Proof. by destruct deps. Qed.

Lemma add_deps_found_same content section_name deps :
  Forall (λ d, plain_key d = true) deps →
  find_section_end (add_deps_to_section content section_name deps).1
                   section_name = None ↔
  find_section_end content section_name = None.
Proof.
  intros Hplain.
  destruct (add_deps_to_section_cases content section_name deps)
    as [[_ ->]|[(_ & _ & ->)
       |(_ & pre & h & kept & tail & rest & fe & Hl & Hsec & _ & _ & ->)]];
    [done|done|].
  simpl.
  destruct (patched_section_at _ _ _ _ _ _ _ _ _ Hplain Hl Hsec)
    as [Hl' [fe' Hsec']].
  rewrite (find_section_end_at _ _ _ _ _ _ _ Hl' Hsec').
  rewrite (find_section_end_at _ _ _ _ _ _ _ Hl Hsec). done.
Qed.

Lemma add_deps_noop content section_name deps :
  (find_section_end content section_name ≠ None →
   ∀ d, d ∈ deps → d ∈ get_existing_deps content section_name) →
  (add_deps_to_section content section_name deps).1 = content.
Proof.
  intros Hall.
  destruct (add_deps_to_section_cases content section_name deps)
    as [[_ ->]|[(_ & _ & ->)
       |(Hnew & pre & h & kept & tail & rest & fe & Hl & Hsec & _ & _ & ->)]];
    [done|done|].
  exfalso. apply Hnew. unfold new_deps.
  destruct (filter _ deps) as [|d l] eqn:Hf; [done|].
  assert (Hd : d ∈ filter (λ d, d ∉ get_existing_deps content section_name)
                          deps) by (rewrite Hf; by left).
  apply list_elem_of_filter in Hd as [Hnot Hd]. destruct Hnot.
  apply Hall; [|done]. by rewrite (find_section_end_at _ _ _ _ _ _ _ Hl Hsec).
Qed.

Lemma patch_noop section_name deps content :
  (find_section_end content section_name ≠ None →
   ∀ d, d ∈ deps → d ∈ get_existing_deps content section_name) →
  patch_section section_name deps content = content.
Proof. intros H. rewrite patch_section_eq. by apply add_deps_noop. Qed.

Lemma added_keys_found content content' s deps :
  (find_section_end content' s = None ↔ find_section_end content s = None) →
  added_keys content' s deps = added_keys content s deps.
Proof.
  unfold added_keys. intros H.
  destruct (find_section_end content' s), (find_section_end content s);
    [done|by pose proof (proj2 H eq_refl)|by pose proof (proj1 H eq_refl)
    |done].
Qed.

(** One patch neither creates nor removes a section. *)
Lemma patch_found section_name deps content s :
  startswith section_name "[" = false → startswith s "[" = false →
  Forall (λ d, plain_key d = true) deps →
  find_section_end (patch_section section_name deps content) s = None ↔
  find_section_end content s = None.
Proof.
  intros Hsec Hs Hplain. rewrite patch_section_eq.
  destruct (decide (s = section_name)) as [-> |Hne].
  - by apply add_deps_found_same.
  - apply patch_other_section; [congruence|done..].
Qed.

Lemma patch_keys_same section_name deps content :
  Forall (λ d, plain_key d = true) deps →
  get_existing_deps (patch_section section_name deps content) section_name =
  get_existing_deps content section_name ∪
  added_keys content section_name deps.
Proof.
  intros Hplain. rewrite patch_section_eq.
  destruct (find_section_end content section_name) as [r|] eqn:Hfind.
  - rewrite patched_keys_union; [|by rewrite Hfind|done].
    unfold added_keys. by rewrite Hfind.
  - rewrite add_deps_noop by (by rewrite Hfind).
    unfold added_keys. rewrite Hfind. by rewrite (right_id_L ∅ (∪)).
Qed.

Lemma patch_keys_other section_name deps content s :
  s ≠ section_name →
  startswith section_name "[" = false → startswith s "[" = false →
  Forall (λ d, plain_key d = true) deps →
  get_existing_deps (patch_section section_name deps content) s =
  get_existing_deps content s.
Proof.
  intros Hne Hsec Hs Hplain. rewrite patch_section_eq.
  apply patch_other_section; [congruence|done..].
Qed.

Lemma filter_deps_plain all_existing deps pkg_name :
  Forall (λ d, plain_key d = true) deps →
  Forall (λ d, plain_key d = true) (filter_deps all_existing deps pkg_name).
Proof.
  rewrite !Forall_forall. intros H d [_ Hd]%elem_of_filter_deps. auto.
Qed.

Lemma keep_dep_mono all_existing all_existing' pkg_name d :
  all_existing ⊆ all_existing' →
  keep_dep all_existing' pkg_name d = true →
  keep_dep all_existing pkg_name d = true.
Proof.
  intros Hsub (Hn & Hd & Hlib)%keep_dep_true. apply keep_dep_true.
  split; [done|]. split; [by intros ?%Hsub|].
  intros p Hp ?%Hsub. by apply (Hlib p).
Qed.

Lemma fix_content_unfold content pkg :
  fix_content content pkg =
  patch_section "optional_depends"
    (filter_deps (all_existing_of content) (missing_optional pkg) (name pkg))
    (patch_section "build_depends"
       (filter_deps (all_existing_of content) (missing_build_depends pkg)
                    (name pkg))
       (patch_section "depends"
          (filter_deps (all_existing_of content) (missing_depends pkg)
                       (name pkg))
          content)).
Proof. reflexivity. Qed.

(** What the three patches of [fix_rook_file] do together. *)
Lemma fix_content_effect content pkg :
  plain_issues pkg →
  (∀ s, s ∈ ["depends"; "build_depends"; "optional_depends"] →
        find_section_end (fix_content content pkg) s = None ↔
        find_section_end content s = None) ∧
  get_existing_deps (fix_content content pkg) "depends" =
    get_existing_deps content "depends" ∪
    added_keys content "depends"
      (filter_deps (all_existing_of content) (missing_depends pkg)
                   (name pkg)) ∧
  get_existing_deps (fix_content content pkg) "build_depends" =
    get_existing_deps content "build_depends" ∪
    added_keys content "build_depends"
      (filter_deps (all_existing_of content) (missing_build_depends pkg)
                   (name pkg)) ∧
  get_existing_deps (fix_content content pkg) "optional_depends" =
    get_existing_deps content "optional_depends" ∪
    added_keys content "optional_depends"
      (filter_deps (all_existing_of content) (missing_optional pkg)
                   (name pkg)).
Proof.
  intros (P1 & P2 & P3). rewrite fix_content_unfold.
  set (f1 := filter_deps _ (missing_depends pkg) _).
  set (f2 := filter_deps _ (missing_build_depends pkg) _).
  set (f3 := filter_deps _ (missing_optional pkg) _).
  assert (Q1 : Forall (λ d, plain_key d = true) f1)
    by (by apply filter_deps_plain).
  assert (Q2 : Forall (λ d, plain_key d = true) f2)
    by (by apply filter_deps_plain).
  assert (Q3 : Forall (λ d, plain_key d = true) f3)
    by (by apply filter_deps_plain).
  set (c1 := patch_section "depends" f1 content).
  set (c2 := patch_section "build_depends" f2 c1).
  assert (Hbr : ∀ s, s ∈ ["depends"; "build_depends"; "optional_depends"] →
                     startswith s "[" = false).
  { intros s Hs. repeat (apply elem_of_cons in Hs as [-> |Hs]); try done.
    by apply elem_of_nil in Hs. }
  assert (F1 : ∀ s, s ∈ ["depends"; "build_depends"; "optional_depends"] →
             find_section_end c1 s = None ↔ find_section_end content s = None).
  { intros s Hs. apply patch_found; [done|by apply Hbr|done]. }
  assert (F2 : ∀ s, s ∈ ["depends"; "build_depends"; "optional_depends"] →
             find_section_end c2 s = None ↔ find_section_end content s = None).
  { intros s Hs. rewrite <- (F1 s Hs).
    apply patch_found; [done|by apply Hbr|done]. }
  split; [|split; [|split]].
  - intros s Hs. rewrite <- (F2 s Hs).
    apply patch_found; [done|by apply Hbr|done].
  - rewrite patch_keys_other by done. unfold c2.
    rewrite patch_keys_other by done. by apply patch_keys_same.
  - rewrite patch_keys_other by done. unfold c2.
    rewrite patch_keys_same by done. unfold c1 at 1.
    rewrite patch_keys_other by done. f_equal.
    apply added_keys_found, F1. by right; left.
  - rewrite patch_keys_same by done. unfold c2 at 1.
    rewrite patch_keys_other by done. unfold c1 at 1.
    rewrite patch_keys_other by done. f_equal.
    apply added_keys_found, F2. by do 2 right; left.
Qed.

Lemma fix_content_all_grows content pkg :
  plain_issues pkg →
  all_existing_of content ⊆ all_existing_of (fix_content content pkg).
Proof.
  intros Hplain.
  destruct (fix_content_effect content pkg Hplain) as (_ & K1 & K2 & K3).
  unfold all_existing_of. rewrite K1, K2, K3. intros x.
  rewrite !elem_of_union. tauto.
Qed.

Lemma settled_fixed content pkg :
  settled content pkg → fix_content content pkg = content.
Proof.
  intros (S1 & S2 & S3). rewrite fix_content_unfold.
  rewrite (patch_noop "depends");
    [|intros Hf d [Hk Hd]%elem_of_filter_deps; by apply S1].
  rewrite (patch_noop "build_depends");
    [|intros Hf d [Hk Hd]%elem_of_filter_deps; by apply S2].
  apply patch_noop. intros Hf d [Hk Hd]%elem_of_filter_deps. by apply S3.
Qed.

Lemma added_keys_elem content s deps d :
  find_section_end content s ≠ None → d ∈ deps →
  d ∈ added_keys content s deps.
Proof.
  intros Hf Hd. unfold added_keys.
  destruct (find_section_end content s); [|done].
  by apply elem_of_list_to_set.
Qed.

Lemma fix_content_settled content pkg :
  plain_issues pkg → settled (fix_content content pkg) pkg.
Proof.
  intros Hplain.
  pose proof (fix_content_all_grows content pkg Hplain) as Hall.
  destruct (fix_content_effect content pkg Hplain) as (Hfound & K1 & K2 & K3).
  split; [|split]; intros Hf d Hd Hk.
  - rewrite K1. apply elem_of_union. right. apply added_keys_elem.
    + rewrite <- Hfound; [done|by left].
    + apply elem_of_filter_deps. split; [by eapply keep_dep_mono|done].
  - rewrite K2. apply elem_of_union. right. apply added_keys_elem.
    + rewrite <- Hfound; [done|by right; left].
    + apply elem_of_filter_deps. split; [by eapply keep_dep_mono|done].
  - rewrite K3. apply elem_of_union. right. apply added_keys_elem.
    + rewrite <- Hfound; [done|by do 2 right; left].
    + apply elem_of_filter_deps. split; [by eapply keep_dep_mono|done].
Qed.

(** Fixing for another record does not unsettle a text. *)
Lemma settled_preserved content pkg other :
  plain_issues other → settled content pkg →
  settled (fix_content content other) pkg.
Proof.
  intros Hplain (S1 & S2 & S3).
  pose proof (fix_content_all_grows content other Hplain) as Hall.
  destruct (fix_content_effect content other Hplain)
    as (Hfound & K1 & K2 & K3).
  split; [|split]; intros Hf d Hd Hk.
  - rewrite K1. apply elem_of_union. left. apply S1; [|done|].
    + rewrite <- Hfound; [done|by left].
    + by eapply keep_dep_mono.
  - rewrite K2. apply elem_of_union. left. apply S2; [|done|].
    + rewrite <- Hfound; [done|by right; left].
    + by eapply keep_dep_mono.
  - rewrite K3. apply elem_of_union. left. apply S3; [|done|].
    + rewrite <- Hfound; [done|by do 2 right; left].
    + by eapply keep_dep_mono.
Qed.

(** *** Lines are only added *)

Lemma patch_lines section_name deps content :
  Forall (λ d, plain_key d = true) deps →
  split_nl content `sublist_of`
  split_nl (patch_section section_name deps content).
Proof.
  intros Hplain. rewrite patch_section_eq.
  destruct (add_deps_to_section_cases content section_name deps)
    as [[_ ->]|[(_ & _ & ->)
       |(_ & pre & h & kept & tail & rest & fe & Hl & Hsec & _ & _ & ->)]];
    [done|done|].
  simpl.
  destruct (patched_section_at _ _ _ _ _ _ _ _ _ Hplain Hl Hsec) as [-> _].
  rewrite Hl. apply sublist_app; [done|]. apply sublist_skip.
  apply sublist_app; [|done]. apply sublist_app; [done|].
  by apply sublist_inserts_l.
Qed.

Lemma fix_content_lines content pkg :
  plain_issues pkg →
  split_nl content `sublist_of` split_nl (fix_content content pkg).
Proof.
  intros (P1 & P2 & P3). rewrite fix_content_unfold.
  etrans; [|apply patch_lines; by apply filter_deps_plain].
  etrans; [|apply patch_lines; by apply filter_deps_plain].
  apply patch_lines. by apply filter_deps_plain.
Qed.

Lemma plain_sample_plain : plain_issues plain_sample.
Proof. repeat split; repeat constructor. Qed.

(** X16: fixing a text a second time with the same report record, all of
    whose names are well-formed keys, changes nothing. *)
Theorem fix_content_idempotent content pkg :
  plain_issues pkg →
  fix_content (fix_content content pkg) pkg = fix_content content pkg.
Proof. intros Hplain. by apply settled_fixed, fix_content_settled. Qed.

Lemma fix_content_idempotent_witness :
  fix_content (fix_content sample_rook plain_sample) plain_sample =
  fix_content sample_rook plain_sample.
Proof.
  apply (fix_content_idempotent sample_rook plain_sample).
  apply plain_sample_plain.
Defined.

(** X17: the keys of each of the three sections after the fix are the keys
    before it together with the names of the section's list that passed
    the filter, when the section is there; a section that is not there
    stays away, and none is removed. *)
Theorem fix_content_keys content pkg :
  plain_issues pkg →
  (∀ s, s ∈ ["depends"; "build_depends"; "optional_depends"] →
        find_section_end (fix_content content pkg) s = None ↔
        find_section_end content s = None) ∧
  get_existing_deps (fix_content content pkg) "depends" =
    get_existing_deps content "depends" ∪
    added_keys content "depends"
      (filter_deps (all_existing_of content) (missing_depends pkg)
                   (name pkg)) ∧
  get_existing_deps (fix_content content pkg) "build_depends" =
    get_existing_deps content "build_depends" ∪
    added_keys content "build_depends"
      (filter_deps (all_existing_of content) (missing_build_depends pkg)
                   (name pkg)) ∧
  get_existing_deps (fix_content content pkg) "optional_depends" =
    get_existing_deps content "optional_depends" ∪
    added_keys content "optional_depends"
      (filter_deps (all_existing_of content) (missing_optional pkg)
                   (name pkg)).
Proof. apply fix_content_effect. Qed.

Lemma fix_content_keys_witness :
  get_existing_deps (fix_content sample_rook plain_sample) "build_depends" =
  get_existing_deps sample_rook "build_depends" ∪
  added_keys sample_rook "build_depends"
    (filter_deps (all_existing_of sample_rook)
                 (missing_build_depends plain_sample) (name plain_sample)).
Proof.
  apply (fix_content_keys sample_rook plain_sample). apply plain_sample_plain.
Defined.

End FixDepsExtra.

(** ** The patch as one insertion, and the filter across sections *)

Module FixerSpec.
Import PyStr PyStrPreds PyStrFacts FixDeps FixDepsPreds FixDepsSpec.
Import ExtraPreds FixDepsExtra.

(** *** Where the section is, read off the text *)

Lemma scan_no_end header lines :
  ∀ i s st,
    scan_section header lines i s = (st, None) →
    (is_Some s →
     Forall (λ t, strip t = header ∨ top_level (strip t) = false) lines) ∧
    no_end_before header lines.
Proof.
  induction lines as [|l lines IH]; intros i s st Hscan.
  { split; [by constructor|]. intros a x b Heq. by destruct a. }
  rewrite scan_section_cons in Hscan.
  destruct (String.eqb (strip l) header) eqn:Hl.
  - apply str_eqb_eq in Hl.
    destruct (IH _ _ _ Hscan) as [Hall Hno].
    specialize (Hall ltac:(by eexists)). split.
    + intros _. constructor; [by left|done].
    + intros a x b Heq Hx. destruct a as [|a0 a]; simplify_eq/=; [done|].
      by eapply Hno.
  - apply str_eqb_neq in Hl.
    destruct (bool_decide (is_Some s) && top_level (strip l)) eqn:Hb;
      [done|].
    destruct (IH _ _ _ Hscan) as [Hall Hno]. split.
    + intros Hs. constructor; [|by apply Hall]. right.
      apply andb_false_iff in Hb as [Hb|Hb]; [|done].
      by apply bool_decide_eq_false in Hb.
    + intros a x b Heq Hx. destruct a as [|a0 a]; simplify_eq/=.
      by eapply Hno.
Qed.

Lemma section_at_text header pre h body rest fe :
  section_at header pre h body rest fe →
  no_end_before header pre ∧ strip h = header ∧
  Forall (body_line header) body ∧
  (rest = [] ∨ ∃ t rest', rest = t :: rest' ∧ strip t ≠ header ∧
                          top_level (strip t) = true).
Proof.
  intros [[st Hpre] Hh Hbody Hend].
  split; [by eapply scan_no_end|]. split; [done|]. split; [done|].
  destruct Hend as [[-> _]|(t & rest' & -> & Hne & Htop & _)]; [by left|].
  right. apply str_eqb_neq in Hne. eauto.
Qed.

Lemma declared_in_spec body d :
  declared_in body d = true ↔
  ∃ l, l ∈ body ∧ is_entry (strip l) = true ∧ d = entry_key (strip l).
Proof.
  unfold declared_in. rewrite existsb_exists. split.
  - intros (l & Hin & [He Hk]%andb_true_iff). exists l.
    apply list_elem_of_In in Hin. apply str_eqb_eq in Hk. done.
  - intros (l & Hin & He & ->). exists l. rewrite <- list_elem_of_In.
    split; [done|]. rewrite He. by apply str_eqb_eq.
Qed.

(** The names still to add are those that no line of the section
    declares. *)
Lemma new_deps_text content section_name deps pre h body rest fe :
  split_nl content = pre ++ h :: body ++ rest →
  section_at (header_of section_name) pre h body rest fe →
  new_deps content section_name deps =
  filter (λ d, declared_in body d = false) deps.
Proof.
  intros Hl Hsec. unfold new_deps. apply list_filter_iff. intros d.
  rewrite (elem_of_get_existing_deps _ _ _ _ _ _ _ d Hl Hsec).
  rewrite <- declared_in_spec. by destruct (declared_in body d).
Qed.

Lemma absent_text content section_name :
  find_section_end content section_name = None →
  Forall (λ line, strip line ≠ header_of section_name) (split_nl content).
Proof.
  unfold find_section_end. fold (header_of section_name).
  destruct (scan_section _ _ 0 None) as [[s|] fe] eqn:Hscan; [done|].
  intros _. by eapply scan_section_none_inv.
Qed.

(** A section that is there, and what the patch makes of the text. *)
Lemma found_patch content section_name deps :
  find_section_end content section_name ≠ None →
  ∃ pre h kept tail rest fe,
    split_nl content = pre ++ h :: (kept ++ tail) ++ rest ∧
    section_at (header_of section_name) pre h (kept ++ tail) rest fe ∧
    Forall not_content tail ∧ ends_with_content kept ∧
    (add_deps_to_section content section_name deps).1 =
    join_nl (pre ++ h :: kept ++
             map entry_line (sorted (new_deps content section_name deps)) ++
             tail ++ rest).
Proof.
  intros Hfound.
  destruct (add_deps_to_section_cases content section_name deps)
    as [[Hnew ->]|[(_ & Hnone & _)
       |(_ & pre & h & kept & tail & rest & fe & Hl & Hsec & Htail & Hkept
         & ->)]]; [|done|].
  - destruct (find_section_end content section_name) as [[[s e] c]|] eqn:Hf;
      [|done].
    apply find_section_end_some
      in Hf as (pre & h & body & rest & fe & Hl & Hsec & _).
    destruct (find_insert_at_section pre h body rest)
      as (kept & tail & -> & _ & Htail & Hkept).
    exists pre, h, kept, tail, rest, fe.
    split; [done|]. split; [done|]. split; [done|]. split; [done|].
    rewrite Hnew. change (map entry_line (sorted [])) with (@nil string).
    simpl. rewrite <- (join_split content) at 1. rewrite Hl.
    by rewrite <- app_assoc.
  - exists pre, h, kept, tail, rest, fe. done.
Qed.

(** C5: when no line of the text, stripped, is the header, the text comes
    back as it is.  Otherwise the text is [pre], the header line, the lines
    of the section up to its last content line ([kept]), its trailing
    blank and comment lines ([tail]) and the rest, which is empty or starts
    with the line that opens the next top-level table; the names given
    that no line of the section declares are written, sorted, as one block
    of entry lines between [kept] and [tail] (right after the header when
    the section has no content line) and every other line stays where it
    was, so that the result is the text with one piece inserted; with no
    such name the text comes back as it is. *)
Theorem patch_is_single_insertion content section_name deps :
  let result := (add_deps_to_section content section_name deps).1 in
  let header := "[" +:+ section_name +:+ "]" in
  (Forall (λ line, strip line ≠ header) (split_nl content) ∧
   result = content) ∨
  (∃ pre header_line kept tail rest,
     split_nl content = pre ++ header_line :: kept ++ tail ++ rest ∧
     no_end_before header pre ∧
     strip header_line = header ∧
     Forall (body_line header) (kept ++ tail) ∧
     (rest = [] ∨ ∃ t rest', rest = t :: rest' ∧ strip t ≠ header ∧
                             top_level (strip t) = true) ∧
     ends_with_content kept ∧
     Forall not_content tail ∧
     let added :=
       map entry_line
           (sorted (filter (λ d, declared_in (kept ++ tail) d = false)
                           deps)) in
     result = join_nl (pre ++ header_line :: kept ++ added ++ tail ++ rest) ∧
     ((added = [] ∧ result = content) ∨
      (added ≠ [] ∧
       ∃ before inserted after,
         content = before +:+ after ∧
         result = before +:+ inserted +:+ after ∧
         ((inserted = String newline (join_nl added) ∧ after = "") ∨
          inserted = join_nl added +:+ String newline "")))).
Proof.
  intros result header. subst result header.
  fold (header_of section_name).
  destruct (find_section_end content section_name) as [r|] eqn:Hfind.
  - right.
    destruct (found_patch content section_name deps)
      as (pre & h & kept & tail & rest & fe & Hl & Hsec & Htail & Hkept & Hres);
      [by rewrite Hfind|].
    destruct (section_at_text _ _ _ _ _ _ Hsec) as (Hpre & Hh & Hbody & Hrest).
    rewrite (new_deps_text _ _ _ _ _ _ _ _ Hl Hsec) in Hres.
    rewrite <- app_assoc in Hl.
    exists pre, h, kept, tail, rest.
    split; [done|]. split; [done|]. split; [done|]. split; [done|].
    split; [done|]. split; [done|]. split; [done|].
    cbv zeta. split; [done|].
    set (added := map entry_line _) in *.
    assert (Hcontent : content = join_nl (pre ++ h :: kept ++ tail ++ rest))
      by (by rewrite <- Hl, join_split).
    destruct added as [|a0 added0] eqn:Hadded.
    + left. split; [done|]. by rewrite Hres.
    + right. split; [done|]. rewrite <- Hadded in *.
      destruct (join_nl_insert (pre ++ h :: kept) added (tail ++ rest))
        as (before & inserted & after & Hc & Hr & Hins);
        [by destruct pre|by rewrite Hadded|].
      rewrite <- !app_assoc in Hc, Hr. simpl in Hc, Hr.
      exists before, inserted, after.
      split; [by rewrite Hcontent|]. split; [by rewrite Hres|done].
  - left. split; [by apply absent_text|].
    destruct (add_deps_to_section_cases content section_name deps)
      as [[_ ->]|[(_ & _ & ->)
         |(_ & pre & h & kept & tail & rest & fe & Hl & Hsec & _)]];
      [done|done|].
    by rewrite (find_section_end_at _ _ _ _ _ _ _ Hl Hsec) in Hfind.
Qed.

(** *** The filter of [fix_rook_file], by name and by key *)

Lemma filtered_key_unchanged content pkg d s :
  plain_issues pkg →
  s ∈ ["depends"; "build_depends"; "optional_depends"] →
  (∀ deps, d ∉ filter_deps (all_existing_of content) deps (name pkg)) →
  d ∈ get_existing_deps (fix_content content pkg) s ↔
  d ∈ get_existing_deps content s.
Proof.
  intros Hplain Hs Hdrop.
  destruct (fix_content_effect content pkg Hplain) as (_ & K1 & K2 & K3).
  assert (Hadd : ∀ s' deps,
            d ∉ added_keys content s'
                  (filter_deps (all_existing_of content) deps (name pkg))).
  { intros s' deps. unfold added_keys.
    destruct (find_section_end content s'); [|apply not_elem_of_empty].
    rewrite elem_of_list_to_set. apply Hdrop. }
  repeat (apply elem_of_cons in Hs as [-> |Hs]);
    [rewrite K1|rewrite K2|rewrite K3|by apply elem_of_nil in Hs];
    rewrite elem_of_union;
    (split; [intros [H|H]; [done|by apply Hadd in H]|by left]).
Qed.

(** C10: a name that is the package itself, that is a key of one of the
    three sections of the file as read, or whose alias in [lib_to_pkg] is
    such a key, is dropped from all three lists, and none of the three
    patches inserts an entry line for it; the file is rewritten with that
    result only.  When all names of the record are well-formed keys, such
    a name is a key of a section afterwards exactly when it was one
    before: no existing key is added to another section. *)
Theorem filtered_name_never_added content pkg d :
  let all_existing :=
    get_existing_deps content "depends" ∪
    get_existing_deps content "build_depends" ∪
    get_existing_deps content "optional_depends" in
  d = name pkg ∨ d ∈ all_existing ∨
  (∃ p, dict_get lib_to_pkg d = Some p ∧ p ∈ all_existing) →
  (d ∉ filter_deps all_existing (missing_depends pkg) (name pkg)) ∧
  (d ∉ filter_deps all_existing (missing_build_depends pkg) (name pkg)) ∧
  (d ∉ filter_deps all_existing (missing_optional pkg) (name pkg)) ∧
  (∃ content1 content2,
     inserts_without d content content1 ∧
     inserts_without d content1 content2 ∧
     inserts_without d content2 (fix_content content pkg)) ∧
  (∀ specs_dir dry_run path,
     (fix_rook_file specs_dir pkg dry_run).1 !! path = specs_dir !! path ∨
     ∃ old, specs_dir !! path = Some old ∧
            (fix_rook_file specs_dir pkg dry_run).1 !! path =
            Some (fix_content old pkg)) ∧
  (plain_issues pkg →
   ∀ s, s ∈ ["depends"; "build_depends"; "optional_depends"] →
        d ∈ get_existing_deps (fix_content content pkg) s ↔
        d ∈ get_existing_deps content s).
Proof.
  intros all_existing Hd.
  destruct (filtered_name_not_inserted content pkg d Hd)
    as (H1 & H2 & H3 & H4 & H5).
  split; [done|]. split; [done|]. split; [done|]. split; [done|].
  split; [done|]. intros Hplain s Hs.
  apply filtered_key_unchanged; [done|done|].
  intros deps [Hkeep _]%elem_of_filter_deps.
  apply keep_dep_true in Hkeep as (Hn & Hex & Hlib).
  destruct Hd as [Hd|[Hd|(p & Hp & Hd)]]; [done|done|].
  by apply (Hlib p).
Qed.

Lemma filtered_name_never_added_witness :
  let pkg := {| name := "curl"; missing_depends := ["zlib"; "openssl"];
                missing_build_depends := ["zlib"; "libz"];
                missing_optional := ["curl"] |} in
  fix_content three_sections pkg =
  join_nl ["[depends]"; "zlib = x"; entry_line "openssl"; "[build_depends]";
           "[optional_depends]"] ∧
  ("zlib" ∈ get_existing_deps (fix_content three_sections pkg)
                              "build_depends" ↔
   "zlib" ∈ get_existing_deps three_sections "build_depends").
Proof.
  intros pkg. split; [vm_compute; reflexivity|].
  apply (filtered_name_never_added three_sections pkg "zlib").
  - right. left. vm_compute. reflexivity.
  - repeat split; repeat constructor.
  - right. left.
Defined.

(** C10 as stated fails in its last clause: a name in double quotes is not a key of the file as a name, passes the filter
    and is written, and the entry is read back as the key without the
    quotes, here [zlib], which [[depends]] declares already; and a name new
    to the file that two lists hold is written to both sections. *)
Lemma existing_key_added_to_other_section :
  let pkg := {| name := "curl"; missing_depends := ["openssl"];
                missing_build_depends := [quoted "zlib"; "openssl"];
                missing_optional := [] |} in
  fix_content three_sections pkg =
  join_nl ["[depends]"; "zlib = x"; entry_line "openssl"; "[build_depends]";
           entry_line (quoted "zlib"); entry_line "openssl";
           "[optional_depends]"] ∧
  get_existing_deps three_sections "depends" = {[ "zlib" ]} ∧
  get_existing_deps three_sections "build_depends" = ∅ ∧
  get_existing_deps (fix_content three_sections pkg) "depends" =
    {[ "zlib"; "openssl" ]} ∧
  get_existing_deps (fix_content three_sections pkg) "build_depends" =
    {[ "zlib"; "openssl" ]}.
Proof. vm_compute. repeat split; reflexivity. Qed.

End FixerSpec.

(** ** Further properties of [fix_rook_file] and of [main] of fix_deps.py *)

Module FixFilesExtra.
Import PyStr PyStrPreds PyStrFacts FixDeps FixDepsPreds FixDepsSpec.
Import ExtraPreds FixDepsExtra FixDepsMain.

Lemma fix_rook_file_unfold specs_dir pkg dry_run :
  fix_rook_file specs_dir pkg dry_run =
  match specs_dir !! rook_path_of specs_dir pkg with
  | None => (specs_dir, false)
  | Some old =>
      if String.eqb (fix_content old pkg) old then (specs_dir, false)
      else if dry_run then (specs_dir, true)
      else (<[rook_path_of specs_dir pkg := fix_content old pkg]> specs_dir,
            true)
  end.
Proof. reflexivity. Qed.

(** The file chosen depends on which files exist only. *)
Lemma rook_path_of_dom (d1 d2 : gmap string string) pkg :
  dom d1 = dom d2 → rook_path_of d1 pkg = rook_path_of d2 pkg.
Proof.
  intros Hdom. unfold rook_path_of.
  rewrite (bool_decide_ext (is_Some (d1 !! (name pkg +:+ ".rook")))
                           (is_Some (d2 !! (name pkg +:+ ".rook")))); [done|].
  rewrite <- !elem_of_dom. by rewrite Hdom.
Qed.

Lemma fix_rook_file_dom_eq specs_dir pkg dry_run :
  dom (fix_rook_file specs_dir pkg dry_run).1 = dom specs_dir.
Proof.
  rewrite fix_rook_file_unfold.
  destruct (specs_dir !! rook_path_of specs_dir pkg) as [old|] eqn:Hold;
    [|done].
  destruct (String.eqb _ old); [done|]. destruct dry_run; [done|]. simpl.
  apply dom_insert_lookup_L. by rewrite Hold.
Qed.

Lemma fix_rook_file_dry specs_dir pkg :
  fix_rook_file specs_dir pkg true =
  (specs_dir, (fix_rook_file specs_dir pkg false).2).
Proof.
  rewrite !fix_rook_file_unfold.
  destruct (specs_dir !! rook_path_of specs_dir pkg) as [old|]; [|done].
  by destruct (String.eqb _ old).
Qed.

(** The flag depends on the text of the chosen file only. *)
Lemma fix_rook_file_flag (d1 d2 : gmap string string) pkg dry1 dry2 :
  rook_path_of d1 pkg = rook_path_of d2 pkg →
  d1 !! rook_path_of d1 pkg = d2 !! rook_path_of d1 pkg →
  (fix_rook_file d1 pkg dry1).2 = (fix_rook_file d2 pkg dry2).2.
Proof.
  intros Hp Hl. rewrite !fix_rook_file_unfold. rewrite <- Hp, <- Hl.
  destruct (d1 !! rook_path_of d1 pkg) as [old|]; [|done].
  destruct (String.eqb _ old); [done|]. by destruct dry1, dry2.
Qed.

Lemma fix_rook_file_other specs_dir pkg dry_run path :
  path ≠ rook_path_of specs_dir pkg →
  (fix_rook_file specs_dir pkg dry_run).1 !! path = specs_dir !! path.
Proof.
  intros Hne. rewrite fix_rook_file_unfold.
  destruct (specs_dir !! rook_path_of specs_dir pkg) as [old|]; [|done].
  destruct (String.eqb _ old); [done|]. destruct dry_run; [done|]. simpl.
  by rewrite lookup_insert_ne.
Qed.

(** Without [--dry-run] the chosen file holds the fixed text afterwards. *)
Lemma fix_rook_file_own specs_dir pkg :
  (fix_rook_file specs_dir pkg false).1 !! rook_path_of specs_dir pkg =
  (λ old, fix_content old pkg) <$> specs_dir !! rook_path_of specs_dir pkg.
Proof.
  rewrite fix_rook_file_unfold.
  destruct (specs_dir !! rook_path_of specs_dir pkg) as [old|] eqn:Hold;
    [|simpl; by rewrite Hold].
  destruct (String.eqb _ old) eqn:Heq; simpl.
  - apply str_eqb_eq in Heq. by rewrite Hold, Heq.
  - by rewrite lookup_insert_eq.
Qed.

Lemma fix_rook_file_settled specs_dir pkg dry_run :
  file_settled specs_dir pkg →
  fix_rook_file specs_dir pkg dry_run = (specs_dir, false).
Proof.
  intros Hs. rewrite fix_rook_file_unfold.
  destruct (specs_dir !! rook_path_of specs_dir pkg) as [old|] eqn:Hold;
    [|done].
  rewrite (settled_fixed old pkg) by (by apply Hs).
  by rewrite (proj2 (str_eqb_eq old old) eq_refl).
Qed.

(** A real run settles the file of its record and unsettles no other
    record's file. *)
Lemma fix_rook_file_settles specs_dir pkg :
  plain_issues pkg →
  file_settled (fix_rook_file specs_dir pkg false).1 pkg.
Proof.
  intros Hplain old.
  rewrite (rook_path_of_dom _ specs_dir) by apply fix_rook_file_dom_eq.
  rewrite fix_rook_file_own.
  destruct (specs_dir !! rook_path_of specs_dir pkg) as [old0|]; [|done].
  simpl. intros [= <-]. by apply fix_content_settled.
Qed.

Lemma fix_rook_file_keeps_settled specs_dir pkg other :
  plain_issues other → file_settled specs_dir pkg →
  file_settled (fix_rook_file specs_dir other false).1 pkg.
Proof.
  intros Hplain Hs old.
  rewrite (rook_path_of_dom _ specs_dir) by apply fix_rook_file_dom_eq.
  destruct (decide (rook_path_of specs_dir pkg = rook_path_of specs_dir other))
    as [Heq|Hne].
  - rewrite Heq, fix_rook_file_own. rewrite <- Heq.
    destruct (specs_dir !! rook_path_of specs_dir pkg) as [old0|] eqn:Hold;
      [|done].
    simpl. intros [= <-]. apply settled_preserved; [done|]. by apply Hs.
  - rewrite fix_rook_file_other by done. apply Hs.
Qed.

(** *** The loop of [main] *)

Lemma fix_step_dom dry_run st pkg :
  dom (fix_step dry_run st pkg).1 = dom st.1.
Proof.
  destruct st as [d k]. unfold fix_step.
  pose proof (fix_rook_file_dom_eq d pkg dry_run) as H.
  destruct (fix_rook_file d pkg dry_run) as [d' b]. done.
Qed.

Lemma fix_steps_dom dry_run pkgs st :
  dom (foldl (fix_step dry_run) st pkgs).1 = dom st.1.
Proof.
  revert st. induction pkgs as [|q pkgs IH]; intros st; simpl; [done|].
  by rewrite IH, fix_step_dom.
Qed.

Lemma fix_steps_dry pkgs st :
  (foldl (fix_step true) st pkgs).1 = st.1.
Proof.
  revert st. induction pkgs as [|q pkgs IH]; intros st; simpl; [done|].
  rewrite IH. destruct st as [d k]. unfold fix_step.
  by rewrite fix_rook_file_dry.
Qed.

Lemma fix_steps_count dry_run pkgs st :
  st.2 ≤ (foldl (fix_step dry_run) st pkgs).2 ≤ st.2 + length pkgs.
Proof.
  revert st. induction pkgs as [|q pkgs IH]; intros st; simpl; [lia|].
  specialize (IH (fix_step dry_run st q)).
  assert (st.2 ≤ (fix_step dry_run st q).2 ≤ st.2 + 1); [|lia].
  destruct st as [d k]. unfold fix_step.
  destruct (fix_rook_file d q dry_run) as [d' []]; simpl; lia.
Qed.

Lemma fix_steps_other dry_run pkgs st path :
  (∀ pkg, pkg ∈ pkgs → path ≠ rook_path_of st.1 pkg) →
  (foldl (fix_step dry_run) st pkgs).1 !! path = st.1 !! path.
Proof.
  revert st. induction pkgs as [|q pkgs IH]; intros st Hne; simpl; [done|].
  assert (Hdom : dom (fix_step dry_run st q).1 = dom st.1)
    by apply fix_step_dom.
  rewrite IH.
  - destruct st as [d k]. unfold fix_step.
    pose proof (fix_rook_file_other d q dry_run path) as H.
    destruct (fix_rook_file d q dry_run) as [d' b]. apply H, Hne. by left.
  - intros pkg Hpkg. rewrite (rook_path_of_dom _ st.1) by done.
    apply Hne. by right.
Qed.

Lemma fix_steps_settled pkgs st done_pkgs :
  Forall plain_issues pkgs →
  Forall (file_settled st.1) done_pkgs →
  Forall (file_settled (foldl (fix_step false) st pkgs).1)
         (done_pkgs ++ pkgs).
Proof.
  revert st done_pkgs.
  induction pkgs as [|q pkgs IH]; intros st done_pkgs Hplain Hdone; simpl.
  { by rewrite app_nil_r. }
  apply Forall_cons in Hplain as [Hq Hplain].
  rewrite (cons_middle q done_pkgs pkgs), (assoc_L (++)).
  apply IH; [done|].
  destruct st as [d k]. unfold fix_step.
  pose proof (fix_rook_file_settles d q Hq) as Hown.
  assert (Hkeep : Forall (file_settled (fix_rook_file d q false).1) done_pkgs).
  { eapply Forall_impl; [exact Hdone|]. intros pkg Hs.
    by apply fix_rook_file_keeps_settled. }
  destruct (fix_rook_file d q false) as [d' b]. simpl in *.
  apply Forall_app. split; [done|]. by apply Forall_singleton.
Qed.

Lemma fix_steps_noop dry_run pkgs st :
  Forall (file_settled st.1) pkgs →
  foldl (fix_step dry_run) st pkgs = st.
Proof.
  revert st. induction pkgs as [|q pkgs IH]; intros st Hs; simpl; [done|].
  apply Forall_cons in Hs as [Hq Hs].
  assert (Hstep : fix_step dry_run st q = st).
  { destruct st as [d k]. unfold fix_step.
    by rewrite (fix_rook_file_settled d q dry_run Hq). }
  rewrite Hstep. by apply IH.
Qed.

Lemma fix_all_again specs_dir pkgs dry_run :
  Forall plain_issues pkgs →
  fix_all (fix_all specs_dir pkgs false).1 pkgs dry_run =
  ((fix_all specs_dir pkgs false).1, 0).
Proof.
  intros Hplain. unfold fix_all at 1. apply fix_steps_noop. simpl.
  apply (fix_steps_settled pkgs (specs_dir, 0) [] Hplain). constructor.
Qed.

Lemma fix_steps_flags pkgs (d1 d2 : gmap string string) k :
  dom d1 = dom d2 →
  (∀ pkg, pkg ∈ pkgs → d1 !! rook_path_of d1 pkg = d2 !! rook_path_of d1 pkg) →
  NoDup (map (rook_path_of d1) pkgs) →
  (foldl (fix_step true) (d1, k) pkgs).2 =
  (foldl (fix_step false) (d2, k) pkgs).2.
Proof.
  revert d2 k. induction pkgs as [|q pkgs IH]; intros d2 k Hdom Hl Hnd;
    simpl; [done|].
  apply NoDup_cons in Hnd as [Hq Hnd]. fold (map (rook_path_of d1) pkgs) in *.
  assert (Hpath : rook_path_of d1 q = rook_path_of d2 q)
    by (by apply rook_path_of_dom).
  pose proof (fix_rook_file_flag d1 d2 q true false Hpath
                (Hl q ltac:(by left))) as Hflag.
  pose proof (fix_rook_file_dom_eq d2 q false) as Hdom2.
  assert (Hother : ∀ path, path ≠ rook_path_of d2 q →
            (fix_rook_file d2 q false).1 !! path = d2 !! path)
    by (intros; by apply fix_rook_file_other).
  rewrite fix_rook_file_dry.
  rewrite (fix_rook_file_flag d1 d1 q false true eq_refl eq_refl), Hflag.
  destruct (fix_rook_file d2 q false) as [d2' b]. simpl in *.
  apply IH; [by rewrite Hdom2| |done].
  intros pkg Hpkg. rewrite Hother.
  - apply Hl. by right.
  - rewrite <- Hpath. intros Heq. apply Hq. rewrite <- Heq.
    by apply list_elem_of_fmap_2.
Qed.

(** *** The selection of [main] *)

Lemma clear_optional_plain pkg :
  plain_issues pkg → plain_issues (clear_optional pkg).
Proof. intros (P1 & P2 & P3). by repeat split. Qed.

Lemma clear_build_plain pkg :
  plain_issues pkg → plain_issues (clear_build pkg).
Proof. intros (P1 & P2 & P3). by repeat split. Qed.

Lemma py_prefix_sublist {A} (n : Z) (l : list A) : py_prefix n l `sublist_of` l.
Proof.
  unfold py_prefix. destruct (n <? 0)%Z; apply sublist_take.
Qed.

Lemma Forall_of_sublist {A} (P : A → Prop) (l k : list A) :
  l `sublist_of` k → Forall P k → Forall P l.
Proof.
  induction 1 as [|x l k _ IH|x l k _ IH]; [done| |];
    intros [Hx Hk]%Forall_cons; [apply Forall_cons|]; auto.
Qed.

(** The records [main] loops over are records of the report, in order,
    with some lists emptied. *)
Lemma select_packages_shape args pkgs l :
  select_packages args pkgs = Some l →
  ∃ l0, l0 `sublist_of` pkgs ∧
        (∀ p, arg_package args = Some p → p ≠ "" →
              Forall (λ pkg, name pkg = p) l0) ∧
        (∀ n, arg_limit args = Some n → (0 < n)%Z →
              length l0 ≤ Z.to_nat n) ∧
        l = (if arg_skip_build args then map clear_build else id)
              ((if arg_skip_optional args then map clear_optional else id)
                 l0).
Proof.
  unfold select_packages.
  set (filtered := match arg_package args with Some _ => _ | None => _ end).
  assert (Hf : ∀ l1, filtered = Some l1 →
            l1 `sublist_of` pkgs ∧
            ∀ p, arg_package args = Some p → p ≠ "" →
                 Forall (λ pkg, name pkg = p) l1).
  { subst filtered. intros l1. destruct (arg_package args) as [p|].
    - destruct (String.eqb p "") eqn:Hp.
      + apply str_eqb_eq in Hp. intros [= <-]. split; [done|].
        by intros ? [= <-].
      + destruct (filter _ pkgs) as [|q l2] eqn:Hfl; [done|].
        intros [= <-]. rewrite <- Hfl. split; [apply sublist_filter|].
        intros ? [= <-] _.
        apply Forall_forall. by intros x [? _]%list_elem_of_filter.
    - intros [= <-]. split; [done|]. by intros. }
  destruct filtered as [l1|]; [|done]. destruct (Hf l1 eq_refl) as [Hsub Hp].
  intros [= <-].
  set (l0 := match arg_limit args with
             | Some n => if (n =? 0)%Z then l1 else py_prefix n l1
             | None => l1
             end).
  assert (Hl0 : l0 `sublist_of` l1).
  { subst l0. destruct (arg_limit args) as [n|]; [|done].
    destruct (n =? 0)%Z; [done|apply py_prefix_sublist]. }
  exists l0. split; [by etrans|]. split; [|split].
  - intros p Hpk Hne. eapply Forall_of_sublist; [exact Hl0|]. by apply Hp.
  - intros n Hn Hpos. subst l0. rewrite Hn.
    destruct (n =? 0)%Z eqn:Hz; [lia|]. unfold py_prefix.
    destruct (n <? 0)%Z eqn:Hneg; [lia|]. rewrite length_take. lia.
  - by destruct (arg_skip_optional args), (arg_skip_build args).
Qed.

Lemma select_packages_keeps {B} (f : PackageIssues → B) args pkgs l :
  (∀ q, f (clear_optional q) = f q) → (∀ q, f (clear_build q) = f q) →
  select_packages args pkgs = Some l →
  map f l `sublist_of` map f pkgs.
Proof.
  intros Ho Hb Hsel.
  destruct (select_packages_shape args pkgs l Hsel)
    as (l0 & Hsub & _ & _ & ->).
  assert (Heq : ∀ l1 : list PackageIssues,
            map f ((if arg_skip_build args then map clear_build else id)
                     ((if arg_skip_optional args then map clear_optional
                       else id) l1)) = map f l1).
  { intros l1.
    destruct (arg_skip_build args), (arg_skip_optional args); simpl;
      rewrite ?map_map; try done; apply map_ext; intros q;
      by rewrite ?Hb, ?Ho. }
  rewrite Heq. by apply fmap_sublist.
Qed.

Lemma select_packages_plain args pkgs l :
  Forall plain_issues pkgs → select_packages args pkgs = Some l →
  Forall plain_issues l.
Proof.
  intros Hplain Hsel.
  destruct (select_packages_shape args pkgs l Hsel)
    as (l0 & Hsub & _ & _ & ->).
  pose proof (Forall_of_sublist _ _ _ Hsub Hplain) as H0.
  assert (H1 : Forall plain_issues
                 ((if arg_skip_optional args then map clear_optional else id)
                    l0)).
  { destruct (arg_skip_optional args); [|done].
    apply Forall_fmap. eapply Forall_impl; [exact H0|].
    intros q. apply clear_optional_plain. }
  destruct (arg_skip_build args); [|done].
  apply Forall_fmap. eapply Forall_impl; [exact H1|].
  intros q. apply clear_build_plain.
Qed.

Lemma select_packages_set_dry_run dry_run args pkgs :
  select_packages (set_dry_run dry_run args) pkgs = select_packages args pkgs.
Proof. reflexivity. Qed.

Lemma fix_rook_file_unflagged specs_dir pkg dry_run :
  (fix_rook_file specs_dir pkg dry_run).2 = false →
  (fix_rook_file specs_dir pkg dry_run).1 = specs_dir.
Proof.
  rewrite fix_rook_file_unfold.
  destruct (specs_dir !! rook_path_of specs_dir pkg) as [old|]; [|done].
  destruct (String.eqb _ old); [done|]. by destruct dry_run.
Qed.

Lemma fix_steps_unflagged dry_run pkgs st :
  (foldl (fix_step dry_run) st pkgs).2 = st.2 →
  (foldl (fix_step dry_run) st pkgs).1 = st.1.
Proof.
  revert st. induction pkgs as [|q pkgs IH]; intros st; simpl; [done|].
  intros Hc.
  pose proof (fix_steps_count dry_run pkgs (fix_step dry_run st q)) as Hle.
  assert (Hstep : (fix_step dry_run st q).2 = st.2 →
                  (fix_step dry_run st q).1 = st.1).
  { destruct st as [d k]. unfold fix_step.
    pose proof (fix_rook_file_unflagged d q dry_run) as Hu.
    destruct (fix_rook_file d q dry_run) as [d' []]; simpl in *; [lia|auto]. }
  assert (Hge : st.2 ≤ (fix_step dry_run st q).2).
  { destruct st as [d k]. unfold fix_step.
    destruct (fix_rook_file d q dry_run) as [d' []]; simpl; lia. }
  rewrite IH by lia. apply Hstep. lia.
Qed.

Example sample_report_parsed :
  parse_report sample_report =
  [{| name := "x"; missing_depends := ["openssl"; "zlib"];
      missing_build_depends := ["ninja"; "openssl"];
      missing_optional := ["brotli"] |}].
Proof. vm_compute. reflexivity. Qed.

Lemma sample_report_plain : Forall plain_issues (parse_report sample_report).
Proof.
  rewrite sample_report_parsed. apply Forall_singleton.
  repeat split; repeat constructor.
Qed.

(** X18: a second run of the fixer over the same report, all of whose
    names are well-formed keys, modifies no file: it leaves the directory
    the first run left and counts no fixed file. *)
Theorem main_second_run args report specs_dir specs_dir' n :
  Forall plain_issues (parse_report report) →
  arg_dry_run args = false →
  main args report specs_dir = Some (specs_dir', n) →
  main args report specs_dir' = Some (specs_dir', 0).
Proof.
  intros Hplain Hdry. unfold main.
  destruct (select_packages args (parse_report report)) as [l|] eqn:Hsel;
    [|done].
  rewrite Hdry. intros [= Hrun]. f_equal.
  assert (Hdir : specs_dir' = (fix_all specs_dir l false).1)
    by (by rewrite Hrun).
  rewrite Hdir. apply fix_all_again. by eapply select_packages_plain.
Qed.

Lemma main_second_run_witness :
  main no_args sample_report
       (default (∅, 0) (main no_args sample_report sample_specs)).1 =
  Some ((default (∅, 0) (main no_args sample_report sample_specs)).1, 0).
Proof.
  apply (main_second_run no_args sample_report sample_specs _
           (default (∅, 0) (main no_args sample_report sample_specs)).2).
  - apply sample_report_plain.
  - reflexivity.
  - vm_compute. reflexivity.
Defined.

(** X19: with [--dry-run] the specs directory is left exactly as it
    was. *)
Theorem main_dry_run args report specs_dir specs_dir' n :
  arg_dry_run args = true →
  main args report specs_dir = Some (specs_dir', n) →
  specs_dir' = specs_dir.
Proof.
  intros Hdry. unfold main.
  destruct (select_packages args (parse_report report)) as [l|]; [|done].
  rewrite Hdry. intros [= Hrun].
  change specs_dir with (specs_dir, 0).1.
  rewrite <- (fix_steps_dry l (specs_dir, 0)). unfold fix_all in Hrun.
  by rewrite Hrun.
Qed.

Lemma main_dry_run_witness :
  (default (∅, 0) (main (set_dry_run true no_args) sample_report
                        sample_specs)).1 = sample_specs.
Proof.
  apply (main_dry_run (set_dry_run true no_args) sample_report sample_specs _
           (default (∅, 0) (main (set_dry_run true no_args) sample_report
                                 sample_specs)).2).
  - reflexivity.
  - vm_compute. reflexivity.
Defined.

Example two_reports_parsed :
  parse_report two_reports =
  [{| name := "x"; missing_depends := ["openssl"];
      missing_build_depends := []; missing_optional := [] |};
   {| name := "kf6-y"; missing_depends := ["curl"; "zlib"];
      missing_build_depends := ["ninja"]; missing_optional := [] |}].
Proof. vm_compute. reflexivity. Qed.

Lemma two_reports_simple : simple_names (parse_report two_reports).
Proof. rewrite two_reports_parsed. by repeat constructor. Qed.

(** X20: for a report whose package names are plain file names (no [/]):
    a run neither creates nor deletes a file; it counts at most one fixed
    file per record of the report; when it counts none, the directory is
    as it was; and a file that is not the one chosen for a record of the
    report keeps its text. *)
Theorem main_files args report specs_dir specs_dir' n :
  simple_names (parse_report report) →
  main args report specs_dir = Some (specs_dir', n) →
  dom specs_dir' = dom specs_dir ∧
  n ≤ length (parse_report report) ∧
  (n = 0 → specs_dir' = specs_dir) ∧
  ∀ path,
    (∀ pkg, pkg ∈ parse_report report → path ≠ rook_path_of specs_dir pkg) →
    specs_dir' !! path = specs_dir !! path.
Proof.
  intros _. unfold main.
  destruct (select_packages args (parse_report report)) as [l|] eqn:Hsel;
    [|done].
  intros [= Hrun]. unfold fix_all in Hrun.
  pose proof (fix_steps_dom (arg_dry_run args) l (specs_dir, 0)) as Hdom.
  pose proof (fix_steps_count (arg_dry_run args) l (specs_dir, 0)) as Hcount.
  pose proof (fix_steps_unflagged (arg_dry_run args) l (specs_dir, 0))
    as Hzero.
  pose proof (λ path, fix_steps_other (arg_dry_run args) l (specs_dir, 0)
                                      path) as Hother.
  rewrite Hrun in Hdom, Hcount, Hzero, Hother. simpl in *.
  split; [done|]. split; [|split].
  - pose proof (select_packages_keeps name args _ l (λ _, eq_refl)
                  (λ _, eq_refl) Hsel) as Hsub.
    apply sublist_length in Hsub. rewrite !length_map in Hsub. lia.
  - auto.
  - intros path Hne. apply Hother. intros pkg Hpkg.
    pose proof (select_packages_keeps (rook_path_of specs_dir) args _ l
                  (λ _, eq_refl) (λ _, eq_refl) Hsel) as Hsub.
    assert (Hin : rook_path_of specs_dir pkg ∈
                  map (rook_path_of specs_dir) (parse_report report)).
    { eapply elem_of_sublist; [|exact Hsub]. by apply list_elem_of_fmap_2. }
    apply list_elem_of_fmap in Hin as (pkg0 & -> & Hin0). by apply Hne.
Qed.

Lemma main_files_witness :
  main no_args two_reports three_specs ≠
    Some (three_specs, 0) ∧
  (default (∅, 0) (main no_args two_reports three_specs)).1 !! "z.rook" =
  three_specs !! "z.rook".
Proof.
  split; [vm_compute; discriminate|].
  apply (main_files no_args two_reports three_specs _
           (default (∅, 0) (main no_args two_reports three_specs)).2).
  - apply two_reports_simple.
  - vm_compute. reflexivity.
  - rewrite two_reports_parsed. intros pkg Hpkg.
    repeat (apply elem_of_cons in Hpkg as [-> |Hpkg]);
      [vm_compute; discriminate..|by apply elem_of_nil in Hpkg].
Defined.

(** X21: when the package names of the report are plain file names (no
    [/]) and its records are fixed in pairwise different files, the number
    of files a dry run says it would modify is the number a real run
    modifies. *)
Theorem dry_run_predicts_count args report specs_dir :
  simple_names (parse_report report) →
  NoDup (map (rook_path_of specs_dir) (parse_report report)) →
  snd <$> main (set_dry_run true args) report specs_dir =
  snd <$> main (set_dry_run false args) report specs_dir.
Proof.
  intros _ Hnd. unfold main. rewrite !select_packages_set_dry_run.
  destruct (select_packages args (parse_report report)) as [l|] eqn:Hsel;
    [|done].
  simpl. f_equal. unfold fix_all. apply fix_steps_flags; [done|done|].
  eapply sublist_NoDup; [exact Hnd|].
  by apply (select_packages_keeps (rook_path_of specs_dir) args).
Qed.

Lemma dry_run_predicts_count_witness :
  snd <$> main (set_dry_run true no_args) two_reports three_specs =
    Some 2 ∧
  snd <$> main (set_dry_run true no_args) two_reports three_specs =
  snd <$> main (set_dry_run false no_args) two_reports three_specs.
Proof.
  split; [vm_compute; reflexivity|].
  apply (dry_run_predicts_count no_args two_reports three_specs).
  - apply two_reports_simple.
  - rewrite two_reports_parsed. apply (bool_decide_unpack _).
    vm_compute. exact I.
Defined.

(** X22: [main] exits with an error after parsing exactly when a
    non-empty [--package] names no record of the report. *)
Theorem main_exits_iff args report specs_dir :
  main args report specs_dir = None ↔
  ∃ p, arg_package args = Some p ∧ p ≠ "" ∧
       p ∉ map name (parse_report report).
Proof.
  unfold main, select_packages.
  destruct (arg_package args) as [p|].
  - destruct (String.eqb p "") eqn:Hp.
    + apply str_eqb_eq in Hp. split; [done|]. by intros (? & [= <-] & ? & _).
    + apply str_eqb_neq in Hp.
      destruct (filter _ (parse_report report)) as [|q l] eqn:Hf.
      * split; [|done]. intros _. exists p. split; [done|]. split; [done|].
        intros (q & Hq & Hin)%list_elem_of_fmap.
        assert (Hqf : q ∈ filter (λ pkg, name pkg = p) (parse_report report))
          by (by apply list_elem_of_filter).
        rewrite Hf in Hqf. by apply elem_of_nil in Hqf.
      * split; [done|]. intros (? & [= <-] & _ & Hnot). destruct Hnot.
        assert (Hq : q ∈ filter (λ pkg, name pkg = p) (parse_report report))
          by (rewrite Hf; by left).
        apply list_elem_of_filter in Hq as [<- Hq].
        by apply list_elem_of_fmap_2.
  - split; [done|]. by intros (? & ? & _).
Qed.

(** X23: the records [main] fixes are records of the report in the
    report's order, each with its name and its runtime list as parsed;
    with a non-empty [--package] all of them bear that name, with a
    positive [--limit] there are at most that many, with
    [--skip-optional] or [--skip-build] the respective list of each is
    empty. *)
Theorem select_packages_selection args pkgs l :
  select_packages args pkgs = Some l →
  map (λ q, (name q, missing_depends q)) l `sublist_of`
    map (λ q, (name q, missing_depends q)) pkgs ∧
  (∀ p, arg_package args = Some p → p ≠ "" →
        Forall (λ q, name q = p) l) ∧
  (∀ n, arg_limit args = Some n → (0 < n)%Z → length l ≤ Z.to_nat n) ∧
  (arg_skip_optional args = true →
   Forall (λ q, missing_optional q = []) l) ∧
  (arg_skip_build args = true →
   Forall (λ q, missing_build_depends q = []) l).
Proof.
  intros Hsel.
  split; [by apply (select_packages_keeps _ args)|].
  destruct (select_packages_shape args pkgs l Hsel)
    as (l0 & Hsub & Hname & Hlim & ->).
  split; [|split; [|split]].
  - intros p Hp Hne. specialize (Hname p Hp Hne).
    destruct (arg_skip_build args), (arg_skip_optional args); simpl;
      rewrite ?Forall_fmap; try done;
      (eapply Forall_impl; [exact Hname|]); by intros q.
  - intros n Hn Hpos. specialize (Hlim n Hn Hpos).
    destruct (arg_skip_build args), (arg_skip_optional args); simpl;
      by rewrite ?length_map.
  - intros ->. destruct (arg_skip_build args); simpl;
      rewrite ?Forall_fmap; apply Forall_forall; by intros.
  - intros ->. simpl. rewrite Forall_fmap. apply Forall_forall. by intros.
Qed.

Lemma select_packages_selection_witness :
  map (λ q, (name q, missing_depends q)) [clear_build plain_sample]
    `sublist_of` map (λ q, (name q, missing_depends q)) [plain_sample].
Proof.
  apply (select_packages_selection
           {| arg_package := Some "x"; arg_limit := Some 1%Z;
              arg_skip_optional := false; arg_skip_build := true;
              arg_dry_run := false |} [plain_sample] [clear_build plain_sample]).
  reflexivity.
Defined.

Lemma fix_steps_lines dry_run pkgs st :
  Forall plain_issues pkgs →
  lines_kept st.1 (foldl (fix_step dry_run) st pkgs).1.
Proof.
  revert st. induction pkgs as [|q pkgs IH]; intros st Hplain; simpl.
  { intros path old new Ho. rewrite Ho. by intros [= <-]. }
  apply Forall_cons in Hplain as [Hq Hplain].
  intros path old new Ho Hn.
  assert (Hstep : ∃ mid, (fix_step dry_run st q).1 !! path = Some mid ∧
                         split_nl old `sublist_of` split_nl mid).
  { destruct st as [d k]. unfold fix_step.
    pose proof (fix_rook_file_content d q dry_run path) as Hc.
    destruct (fix_rook_file d q dry_run) as [d' b]. simpl in *.
    destruct Hc as [Hc|(old0 & Ho0 & Hc)].
    - exists old. by rewrite Hc.
    - rewrite Ho in Ho0. injection Ho0 as <-. eexists. split; [exact Hc|].
      by apply fix_content_lines. }
  destruct Hstep as (mid & Hm & Hsub). etrans; [exact Hsub|].
  by apply (IH (fix_step dry_run st q) Hplain path).
Qed.

(** X24: a run, over a report all of whose names are well-formed keys,
    only adds lines: every file holds afterwards the lines it held before,
    in the same order. *)
Theorem main_only_adds_lines args report specs_dir specs_dir' n :
  Forall plain_issues (parse_report report) →
  main args report specs_dir = Some (specs_dir', n) →
  lines_kept specs_dir specs_dir'.
Proof.
  intros Hplain. unfold main.
  destruct (select_packages args (parse_report report)) as [l|] eqn:Hsel;
    [|done].
  intros [= Hrun]. unfold fix_all in Hrun.
  pose proof (fix_steps_lines (arg_dry_run args) l (specs_dir, 0)
                (select_packages_plain _ _ _ Hplain Hsel)) as H.
  by rewrite Hrun in H.
Qed.

Lemma main_only_adds_lines_witness :
  lines_kept sample_specs
    (default (∅, 0) (main no_args sample_report sample_specs)).1.
Proof.
  apply (main_only_adds_lines no_args sample_report sample_specs _
           (default (∅, 0) (main no_args sample_report sample_specs)).2).
  - apply sample_report_plain.
  - vm_compute. reflexivity.
Defined.

End FixFilesExtra.

(** ** From the checker to the fixer *)

Module PipelineExtra.
Import PyStr PyStrPreds PyStrFacts CheckDeps ReportPreds ReportSpec.
Import ExtraPreds CheckDepsExtra CheckDepsFetch.

Lemma issue_count_issues_of it : issue_count (issues_of it) = missing_count it.
Proof.
  unfold issue_count, missing_count, issues_of. simpl.
  by rewrite !sorted_length.
Qed.

Lemma missing_count_filter items :
  sum_list (map missing_count
                (filter (λ it, has_issues (item_diff it)) items)) =
  sum_list (map missing_count items).
Proof.
  induction items as [|it items IH]; [done|].
  destruct (has_issues (item_diff it)) eqn:Hi.
  - rewrite filter_cons_True by (by rewrite Hi). simpl. by rewrite IH.
  - rewrite filter_cons_False by (rewrite Hi; simpl; tauto). simpl.
    rewrite (has_issues_false_count it Hi). by rewrite IH.
Qed.

(** X25: for a report whose names and tokens are clean, the number of
    records the fixer parses is the number of packages with issues the
    checker counts, and the names over all records are as many as the
    total it prints. *)
Theorem report_counts_agree checked items :
  forallb clean_item items = true →
  let st := foldl report_item
                  {| stdout := ""; total_missing := 0;
                     packages_with_issues := 0 |} items in
  let parsed := FixDeps.parse_report (format_report checked items) in
  length parsed = packages_with_issues st ∧
  sum_list (map issue_count parsed) = total_missing st.
Proof.
  intros Hclean st parsed. subst st parsed.
  rewrite (parse_format_report checked items Hclean).
  destruct (report_items_counters items
              {| stdout := ""; total_missing := 0;
                 packages_with_issues := 0 |}) as [-> ->].
  simpl. rewrite length_map, map_map.
  rewrite (map_ext _ missing_count) by apply issue_count_issues_of.
  by rewrite missing_count_filter.
Qed.

Lemma report_counts_agree_witness :
  length (FixDeps.parse_report
            (format_report 2 [item "curl" ["zlib"; "openssl"] [] ["brotli"];
                              item "bash" [] [] []])) =
  packages_with_issues
    (foldl report_item
           {| stdout := ""; total_missing := 0; packages_with_issues := 0 |}
           [item "curl" ["zlib"; "openssl"] [] ["brotli"];
            item "bash" [] [] []]).
Proof.
  apply (report_counts_agree 2 [item "curl" ["zlib"; "openssl"] [] ["brotli"];
                                item "bash" [] [] []]).
  reflexivity.
Defined.

Lemma all_chars_has_char ch s :
  all_chars (λ c, negb (Ascii.eqb ch c)) s = true → has_char ch s = false.
Proof.
  induction s as [|c s IH]; simpl; [done|].
  intros [Hc Hs]%andb_true_iff. rewrite (IH Hs), orb_false_r.
  apply negb_true_iff in Hc. by rewrite Ascii.eqb_sym.
Qed.

(** X26: the name [fetch_arch_package_info] keeps of an optional
    dependency has no colon and no surrounding whitespace; taking the name
    of a name changes nothing. *)
Theorem optdepend_name_shape opt :
  has_char ":" (optdepend_name opt) = false ∧
  strip (optdepend_name opt) = optdepend_name opt ∧
  optdepend_name (optdepend_name opt) = optdepend_name opt.
Proof.
  unfold optdepend_name.
  assert (Hall : all_chars (λ c, negb (Ascii.eqb ":" c))
                           (strip (before_first (Ascii.eqb ":") opt)) = true)
    by apply all_chars_strip, before_first_all.
  split; [by apply all_chars_has_char|].
  split; [apply strip_idem|].
  rewrite (before_first_id _ _ Hall). apply strip_idem.
Qed.

End PipelineExtra.

(** ** The whole loop of [main] of check_deps.py, read by the fixer *)

Module CheckMainExtra.
Import PyStr PyStrPreds PyStrFacts CheckDeps ReportPreds ReportSpec.
Import ExtraPreds CheckDepsExtra CheckDepsFetch CheckDepsMain.

Lemma reads_other_line out pkgs l :
  reads out pkgs → line_text l = true →
  startswith (l +:+ nl) "Package: " = false →
  startswith (lstrip (l +:+ nl)) "- " = false →
  reads (print out l) pkgs.
Proof.
  intros (Ht & p & c & s & Hr & He) Hl H1 H2.
  split; [apply print_terminated|].
  rewrite run_print, Hr by done. rewrite run_line by done.
  destruct (parse_line_other p c s (l +:+ nl)) as [s' ->]; [done|done|].
  by exists p, c, s'.
Qed.

Lemma reads_nl_line out pkgs l :
  reads out pkgs → line_text l = true →
  startswith (l +:+ nl) "Package: " = false →
  startswith (lstrip (l +:+ nl)) "- " = false →
  reads (print out (CheckDeps.nl +:+ l)) pkgs.
Proof.
  intros (Ht & p & c & s & Hr & He) Hl H1 H2.
  split; [apply print_terminated|].
  rewrite run_print, Hr by done. rewrite run_nl_line by done.
  destruct (parse_line_other p c s nl) as [s1 ->]; [done|done|].
  destruct (parse_line_other p c s1 (l +:+ nl)) as [s' ->]; [done|done|].
  by exists p, c, s'.
Qed.

Lemma print_space_print out a b :
  print (print_space out a) b = print out (a +:+ " " +:+ b).
Proof. unfold print, print_space. by rewrite !str_app_assoc. Qed.

Lemma lstrip_app_id d r :
  d ≠ "" → no_lead_space d → lstrip (d +:+ r) = d +:+ r.
Proof.
  destruct d as [|c d]; [done|]. intros _ Hc. rewrite str_app_cons.
  simpl in *. by rewrite Hc.
Qed.

Lemma startswith_entry_app d r :
  d ≠ "" →
  startswith (d +:+ " = " +:+ r) "- " = startswith (d +:+ " ") "- ".
Proof. destruct d as [|c [|c2 d2]]; [done|reflexivity|reflexivity]. Qed.

Lemma suggestion_line_other d :
  clean_token d = true → not_entry_like d = true →
  line_text (suggestion_line d) = true ∧
  startswith (suggestion_line d +:+ nl) "Package: " = false ∧
  startswith (lstrip (suggestion_line d +:+ nl)) "- " = false.
Proof.
  unfold clean_token, not_entry_like.
  intros [(Hne & Hs & _ & Hl)%clean_name_inv _]%andb_true_iff
         Hentry%negb_true_iff.
  unfold suggestion_line. split; [|split].
  - by rewrite !line_text_app, Hl.
  - reflexivity.
  - change (lstrip (("  " +:+ ?x) +:+ nl)) with (lstrip (x +:+ nl)).
    rewrite !str_app_assoc.
    rewrite lstrip_app_id; [|done|rewrite <- Hs; apply strip_no_lead].
    by rewrite startswith_entry_app.
Qed.

Lemma suggestions_read (deps : list string) out pkgs :
  reads out pkgs →
  forallb clean_token deps = true → forallb not_entry_like deps = true →
  reads (foldl (λ out dep, print out (suggestion_line dep)) out deps) pkgs.
Proof.
  revert out. induction deps as [|d deps IH]; intros out Hr Hc He; [done|].
  simpl in *. apply andb_true_iff in Hc as [Hd Hc].
  apply andb_true_iff in He as [Hed He].
  destruct (suggestion_line_other d Hd Hed) as (H1 & H2 & H3).
  apply IH; [|done|done]. by apply reads_other_line.
Qed.

Lemma print_suggestions_read header deps out pkgs :
  reads out pkgs → line_text header = true →
  startswith (header +:+ nl) "Package: " = false →
  startswith (lstrip (header +:+ nl)) "- " = false →
  forallb clean_token deps = true → forallb not_entry_like deps = true →
  reads (print_suggestions header deps out) pkgs.
Proof.
  intros Hr Hl H1 H2 Hc He. unfold print_suggestions.
  destruct deps as [|d0 deps0] eqn:Hdeps; [done|]. rewrite <- Hdeps in *.
  apply suggestions_read; [by apply reads_other_line| |];
    by apply forallb_sorted.
Qed.

Lemma suggest_read file_name diff out pkgs :
  reads out pkgs → line_text file_name = true →
  forallb clean_token (missing_depends diff) = true →
  forallb clean_token (missing_build_depends diff) = true →
  forallb clean_token (missing_optional diff) = true →
  forallb not_entry_like (missing_depends diff) = true →
  forallb not_entry_like (missing_build_depends diff) = true →
  forallb not_entry_like (missing_optional diff) = true →
  reads (suggest file_name diff out) pkgs.
Proof.
  intros Hr Hf C1 C2 C3 E1 E2 E3. unfold suggest.
  apply print_suggestions_read; [|done..].
  apply print_suggestions_read; [|done..].
  apply print_suggestions_read; [|done..].
  apply reads_nl_line; [done| |done|done].
  by rewrite !line_text_app, Hf.
Qed.

Lemma report_item_read it ms pkgs :
  reads (stdout ms) pkgs → clean_item it = true →
  reads (stdout (report_item ms it))
        (pkgs ++ if has_issues (item_diff it) then [issues_of it] else []).
Proof.
  intros (Ht & p & c & s & Hr & <-) Hit.
  destruct (report_item_run it ms p c s Ht Hr Hit)
    as (Ht' & p' & c' & s' & Hr' & He').
  split; [done|]. by exists p', c', s'.
Qed.

Lemma items_of_single fetch file :
  items_of fetch [file] =
  match file.2 with
  | None => []
  | Some rook_pkg =>
      match fetch (arch_lookup_name (rook_name rook_pkg)) with
      | None => []
      | Some arch_pkg => [item_of rook_pkg arch_pkg]
      end
  end.
Proof.
  unfold items_of. cbn [omap list_omap].
  destruct file.2 as [rook_pkg|]; [|done].
  by destruct (fetch (arch_lookup_name (rook_name rook_pkg))).
Qed.

Lemma check_file_read args fetch st file pkgs :
  reads (stdout st) pkgs → clean_file args fetch file = true →
  reads (stdout (check_file args fetch st file))
        (pkgs ++ map issues_of
                     (filter (λ it, has_issues (item_diff it))
                             (items_of fetch [file]))).
Proof.
  intros Hr. rewrite items_of_single. unfold clean_file, check_file.
  destruct file.2 as [rook_pkg|]; [|by rewrite app_nil_r].
  intros [Hv Hclean]%andb_true_iff.
  set (st1 := if arg_verbose args then _ else st).
  destruct (fetch (arch_lookup_name (rook_name rook_pkg))) as [arch_pkg|].
  - apply andb_true_iff in Hclean as [Hit Hfix].
    set (st2 := if arg_verbose args then _ else st1).
    assert (Hr2 : reads (stdout st2) pkgs).
    { subst st2 st1. destruct (arg_verbose args); [|done].
      cbn [implb] in Hv. cbn [stdout set_stdout].
      rewrite print_space_print.
      apply clean_item_inv in Hit as (_ & Han & _). simpl in Han.
      apply reads_other_line; [done| |done|done].
      by rewrite !line_text_app, Hv, Han. }
    pose proof (report_item_read (item_of rook_pkg arch_pkg) st2 pkgs Hr2 Hit)
      as Hr3.
    assert (Hlist :
              map issues_of
                (filter (λ it, has_issues (item_diff it))
                        [item_of rook_pkg arch_pkg]) =
              if has_issues (item_diff (item_of rook_pkg arch_pkg))
              then [issues_of (item_of rook_pkg arch_pkg)] else []).
    { destruct (has_issues (item_diff (item_of rook_pkg arch_pkg))) eqn:Hi.
      - by rewrite filter_cons_True by (by rewrite Hi).
      - by rewrite filter_cons_False by (rewrite Hi; simpl; tauto). }
    rewrite Hlist.
    destruct (has_issues (item_diff (item_of rook_pkg arch_pkg)) &&
              arg_fix args) eqn:Hb; [|done].
    apply andb_true_iff in Hb as [Hi Hf]. rewrite Hf in Hfix.
    cbn [implb] in Hfix.
    apply andb_true_iff in Hfix as [[[Hfile E1]%andb_true_iff
                                     E2]%andb_true_iff E3].
    apply clean_item_inv in Hit as (_ & _ & _ & C1 & C2 & C3).
    cbn [stdout set_stdout]. by apply suggest_read.
  - rewrite app_nil_r. subst st1.
    destruct (arg_verbose args); [|done].
    cbn [implb] in Hv. cbn [stdout set_stdout].
    rewrite print_space_print.
    apply reads_other_line; [done| |done|done].
    by rewrite !line_text_app, Hv.
Qed.

Lemma items_of_cons fetch file files :
  items_of fetch (file :: files) =
  items_of fetch [file] ++ items_of fetch files.
Proof.
  unfold items_of. cbn [omap list_omap].
  destruct file.2 as [rook_pkg|]; [|done].
  by destruct (fetch (arch_lookup_name (rook_name rook_pkg))).
Qed.

Lemma check_files_read args fetch files st pkgs :
  reads (stdout st) pkgs →
  forallb (clean_file args fetch) files = true →
  reads (stdout (foldl (check_file args fetch) st files))
        (pkgs ++ map issues_of
                     (filter (λ it, has_issues (item_diff it))
                             (items_of fetch files))).
Proof.
  revert st pkgs. induction files as [|file files IH]; intros st pkgs Hr Hc.
  { simpl. by rewrite app_nil_r. }
  simpl in Hc. apply andb_true_iff in Hc as [Hfile Hfiles]. simpl foldl.
  rewrite (items_of_cons fetch file files), filter_app, map_app,
    (assoc_L (++)).
  apply IH; [|done]. by apply check_file_read.
Qed.

Lemma print_summary_read checked ms pkgs :
  reads (stdout ms) pkgs →
  FixDeps.parse_report (print_summary checked ms) = pkgs.
Proof.
  intros (Ht & p & c & s & Hr & <-).
  change (FixDeps.parse_report ?t)
    with (FixDeps.packages (run init t) ++
          option_list (FixDeps.current_pkg (run init t))).
  unfold print_summary.
  rewrite run_print by (repeat apply print_terminated).
  rewrite run_print by (repeat apply print_terminated).
  rewrite run_print by (repeat apply print_terminated).
  rewrite run_print by (repeat apply print_terminated).
  rewrite run_print, Hr by done.
  destruct (run_rule p c s) as [s1 ->].
  rewrite (run_line _ "Summary:") by done.
  destruct (parse_line_other p c s1 ("Summary:" +:+ nl)) as [s2 ->];
    [done|done|].
  rewrite (run_line _ ("  Packages checked: " +:+ str_of_nat checked))
    by (by rewrite line_text_app, str_of_nat_line_text).
  destruct (parse_line_other p c s2
              (("  Packages checked: " +:+ str_of_nat checked) +:+ nl))
    as [s3 ->]; [done|done|].
  rewrite (run_line _ ("  Packages with issues: " +:+
                       str_of_nat (packages_with_issues ms)))
    by (by rewrite line_text_app, str_of_nat_line_text).
  destruct (parse_line_other p c s3
              (("  Packages with issues: " +:+
                str_of_nat (packages_with_issues ms)) +:+ nl))
    as [s4 ->]; [done|done|].
  rewrite (run_line _ ("  Total missing dependencies: " +:+
                       str_of_nat (total_missing ms)))
    by (by rewrite line_text_app, str_of_nat_line_text).
  destruct (parse_line_other p c s4
              (("  Total missing dependencies: " +:+
                str_of_nat (total_missing ms)) +:+ nl))
    as [s5 ->]; [done|done|].
  done.
Qed.

Lemma set_stdout_counters out st :
  total_missing (set_stdout out st) = total_missing st ∧
  packages_with_issues (set_stdout out st) = packages_with_issues st.
Proof. done. Qed.

Lemma check_file_counters args fetch st file :
  packages_with_issues (check_file args fetch st file) =
    packages_with_issues st +
    length (filter (λ it, has_issues (item_diff it)) (items_of fetch [file])) ∧
  total_missing (check_file args fetch st file) =
    total_missing st + sum_list (map missing_count (items_of fetch [file])).
Proof.
  rewrite items_of_single. unfold check_file.
  destruct file.2 as [rook_pkg|]; [|simpl; lia].
  set (st1 := if arg_verbose args then _ else st).
  assert (H1 : total_missing st1 = total_missing st ∧
               packages_with_issues st1 = packages_with_issues st)
    by (subst st1; by destruct (arg_verbose args)).
  destruct (fetch (arch_lookup_name (rook_name rook_pkg))) as [arch_pkg|].
  - set (st2 := if arg_verbose args then _ else st1).
    assert (H2 : total_missing st2 = total_missing st ∧
                 packages_with_issues st2 = packages_with_issues st)
      by (subst st2; by destruct (arg_verbose args)).
    destruct (report_item_counters st2 (item_of rook_pkg arch_pkg))
      as [Ht Hp].
    assert (H3 : ∀ (b : bool) out,
              packages_with_issues
                (if b then set_stdout out
                            (report_item st2 (item_of rook_pkg arch_pkg))
                 else report_item st2 (item_of rook_pkg arch_pkg)) =
              packages_with_issues
                (report_item st2 (item_of rook_pkg arch_pkg)) ∧
              total_missing
                (if b then set_stdout out
                            (report_item st2 (item_of rook_pkg arch_pkg))
                 else report_item st2 (item_of rook_pkg arch_pkg)) =
              total_missing (report_item st2 (item_of rook_pkg arch_pkg)))
      by (by intros []).
    destruct (H3 (has_issues (item_diff (item_of rook_pkg arch_pkg)) &&
                  arg_fix args)
                 (suggest file.1 (item_diff (item_of rook_pkg arch_pkg))
                    (stdout (report_item st2 (item_of rook_pkg arch_pkg)))))
      as [-> ->].
    rewrite Ht, Hp. destruct H2 as [-> ->].
    destruct (has_issues (item_diff (item_of rook_pkg arch_pkg))) eqn:Hi.
    + rewrite filter_cons_True by (by rewrite Hi). simpl. lia.
    + rewrite filter_cons_False by (rewrite Hi; simpl; tauto). simpl. lia.
  - assert (H2 : ∀ (b : bool) out,
              packages_with_issues (if b then set_stdout out st1 else st1) =
              packages_with_issues st1 ∧
              total_missing (if b then set_stdout out st1 else st1) =
              total_missing st1) by (by intros []).
    destruct (H2 (arg_verbose args)
                 (print (stdout st1) "(not found in Arch)")) as [-> ->].
    destruct H1 as [-> ->]. simpl. lia.
Qed.

Lemma check_files_counters args fetch files st :
  packages_with_issues (foldl (check_file args fetch) st files) =
    packages_with_issues st +
    length (filter (λ it, has_issues (item_diff it)) (items_of fetch files)) ∧
  total_missing (foldl (check_file args fetch) st files) =
    total_missing st + sum_list (map missing_count (items_of fetch files)).
Proof.
  revert st. induction files as [|file files IH]; intros st; [simpl; lia|].
  simpl foldl. destruct (IH (check_file args fetch st file)) as [-> ->].
  destruct (check_file_counters args fetch st file) as [-> ->].
  rewrite (items_of_cons fetch file files), filter_app, map_app, length_app,
    sum_list_with_app. lia.
Qed.

(** X27: whatever [--verbose] and [--fix] add to the output, the fixer
    reads from it exactly the diffs with issues of the files that parsed
    and were found in the catalog, in order, when the names printed are
    clean for the options given. *)
Theorem main_output_parsed args fetch files :
  forallb (clean_file args fetch) files = true →
  FixDeps.parse_report (main_output args fetch files) =
  map issues_of
      (filter (λ it, has_issues (item_diff it)) (items_of fetch files)).
Proof.
  intros Hclean. unfold main_output. apply print_summary_read.
  apply (check_files_read args fetch files _ []); [|done].
  split; [by left|]. by exists [], None, None.
Qed.

Lemma main_output_parsed_witness :
  FixDeps.parse_report (main_output loud_args sample_fetch sample_files) =
  map issues_of
      (filter (λ it, has_issues (item_diff it))
              (items_of sample_fetch sample_files)).
Proof.
  apply (main_output_parsed loud_args sample_fetch sample_files).
  vm_compute. reflexivity.
Defined.

Example main_output_sample :
  main_output loud_args sample_fetch sample_files =
  join_nl ["Checking pkg... (found: pkg)";
           ""; rule;
           "Package: pkg";
           "Arch equivalent: pkg (1.0)";
           "";
           "  Missing runtime dependencies:";
           "    - openssl";
           "";
           "  Missing optional dependencies:";
           "    - brotli";
           "";
           "  Suggested additions to pkg.rook:";
           "  [depends]";
           suggestion_line "openssl";
           "  [optional_depends]";
           suggestion_line "brotli";
           "Checking kf6-other... (not found in Arch)";
           ""; rule;
           "Summary:";
           "  Packages checked: 3";
           "  Packages with issues: 1";
           "  Total missing dependencies: 2";
           ""].
Proof. vm_compute. reflexivity. Qed.

(** X28: the two counters of the summary are, under any options, the
    number of diffs with issues and the number of names in them, over the
    files that parsed and were found; files that did not parse or were not
    found add nothing. *)
Theorem main_counters args fetch files :
  let st := foldl (check_file args fetch)
                  {| stdout := ""; total_missing := 0;
                     packages_with_issues := 0 |} files in
  packages_with_issues st =
    length (filter (λ it, has_issues (item_diff it)) (items_of fetch files)) ∧
  total_missing st = sum_list (map missing_count (items_of fetch files)).
Proof.
  intros st. subst st.
  destruct (check_files_counters args fetch files
              {| stdout := ""; total_missing := 0;
                 packages_with_issues := 0 |}) as [-> ->].
  simpl. lia.
Qed.

End CheckMainExtra.
